(** * TripAdvisor scraper: a shallow embedding of the harvesting pipeline

    The development follows the Python sources module by module:
    - [utils.py]: the retry decorator and [batch_data];
    - [cache/city_cache.py]: the checkpointed city cache and its generator;
    - [scraper/utils/response.py]: the response parsers;
    - [scraper/scraper.py]: the scraper's methods;
    - [gcp_client.py], [openai_embedding.py]: the retry configurations.

    Python values are modelled as follows.  [int] is [Z].  A [float] that
    comes out of an operation is a [float64]: its value is the exact result
    rounded to binary64, as IEEE 754 has every operation do; the numbers of a
    JSON document and the distances of [geopy] are kept as the rationals they
    stand for.  [str] is [string], the bytes of the UTF-8 encoding; the
    operations that count or class characters work on the code points these
    bytes encode.  A JSON document is a [json] tree whose objects are
    association lists in document order; a function that may raise returns a
    [result].  The calls into [json], [base64], [geopy] and NumPy, the
    Unicode database and the limit on the digits of an integer are the
    operations of the class [PyLib], with what the libraries promise of
    them, and the answers of the provider those of the class [Provider]. *)

From Stdlib Require Import ZArith QArith Qround Qabs Qpower Lqa String Ascii List Bool Lia.
From stdpp Require Import gmap strings list fin_maps.
Import ListNotations.

Open Scope Z_scope.
Open Scope list_scope.

(** ** Exceptions and fallible computations *)

Inductive exn : Type :=
| KeyError
| IndexError
| TypeError
| ValueError
| OverflowError
| AttributeError
| AssertionError
| JSONDecodeError
| BinasciiError
| UnicodeDecodeError
| FileNotFoundError
| TooManyRequests
| APIError
| Timeout
| RetryError
| PyException.

#[global] Instance exn_eq_dec : EqDecision exn.
Proof. solve_decision. Defined.

Inductive result (A : Type) : Type :=
| Ok (a : A)
| Raise (e : exn).

Arguments Ok {A} a.
Arguments Raise {A} e.

#[global] Instance result_ret : MRet result := fun _ a => Ok a.
#[global] Instance result_bind : MBind result := fun _ _ f m =>
  match m with
  | Ok a => f a
  | Raise e => Raise e
  end.
#[global] Instance result_fmap : FMap result := fun _ _ f m =>
  match m with
  | Ok a => Ok (f a)
  | Raise e => Raise e
  end.

Definition raises {A} (m : result A) : bool :=
  match m with
  | Ok _ => false
  | Raise _ => true
  end.

(** [try: m except: h] with a bare [except]. *)
Definition try_except {A} (m : result A) (h : result A) : result A :=
  match m with
  | Ok a => Ok a
  | Raise _ => h
  end.

(** [try: m except E: h]: only [E] is caught. *)
Definition try_except_on {A} (E : exn) (m : result A) (h : result A) : result A :=
  match m with
  | Ok a => Ok a
  | Raise e => if decide (e = E) then h else Raise e
  end.

(** ** Python sequences: [range] and slices *)

(** [range(start, stop, step)]; a zero step raises [ValueError]. *)
Definition py_range (start stop step : Z) : result (list Z) :=
  if step =? 0 then Raise ValueError
  else if 0 <? step then
    let count := if start <? stop then (stop - start + step - 1) / step else 0 in
    Ok (map (fun k => start + Z.of_nat k * step) (seq 0 (Z.to_nat count)))
  else
    let count := if stop <? start then (start - stop - step - 1) / (- step) else 0 in
    Ok (map (fun k => start + Z.of_nat k * step) (seq 0 (Z.to_nat count))).

(** A slice bound: negative bounds count from the end, and every bound is
    clamped to the sequence. *)
Definition clamp_index (len i : Z) : nat :=
  Z.to_nat (if i <? 0 then Z.max 0 (len + i) else Z.min i len).

(** [data[i:j]]. *)
Definition py_slice {A} (data : list A) (i j : Z) : list A :=
  let len := Z.of_nat (length data) in
  let lo := clamp_index len i in
  let hi := clamp_index len j in
  take (hi - lo)%nat (drop lo data).

(** [range(stop)]. *)
Definition py_range1 (stop : Z) : list Z :=
  map Z.of_nat (seq 0 (Z.to_nat stop)).

(** The batches of [xs] as chunks of [n] elements, counted in [nat]; used to
    state what [batch_data] computes. *)
Definition chunks {A} (xs : list A) (n m : nat) : list (list A) :=
  map (fun k => take n (drop (k * n) xs)) (seq 0 m).

(** How many indices [range(0, len(xs), n)] produces. *)
Definition batch_count {A} (xs : list A) (n : nat) : nat :=
  Z.to_nat (if 0 <? Z.of_nat (length xs)
            then (Z.of_nat (length xs) - 0 + Z.of_nat n - 1) / Z.of_nat n
            else 0).

(** ** Exception matching and the log of a retried call *)

(** [isinstance(err, cls)]: the exceptions of [exn] are unrelated classes,
    all of them subclasses of [Exception]. *)
Definition isinstance (err cls : exn) : bool :=
  bool_decide (cls = PyException) || bool_decide (err = cls).

(** [except self.error] where [self.error] is a class or a tuple of classes. *)
Definition catches (error : list exn) (err : exn) : bool :=
  existsb (isinstance err) error.

(** What a run of a wrapped function did: how many times the function was
    invoked, and the arguments of the [time.sleep] calls, oldest first. *)
Record RetryLog : Type := mkRetryLog {
  calls : nat;
  slept : list Q
}.

Definition called (log : RetryLog) : RetryLog :=
  {| calls := S (calls log); slept := slept log |}.

Definition time_sleep (wait : Q) (log : RetryLog) : RetryLog :=
  {| calls := calls log; slept := slept log ++ [wait] |}.

(** ** [utils.py] *)

Module Utils.

(** [batch_data]: the batches in the order the generator yields them. *)
Definition batch_data {A} (data : list A) (n : Z) : result (list (list A)) :=
idxs ← py_range 0 (Z.of_nat (length data)) n;
mret (map (fun idx => py_slice data idx (idx + n)) idxs).

(** *** The retry decorator *)

Module BaseTimeoutDecoratorClass.

(** The attributes set by [__init__]. *)
Record t : Type := init {
retries : Z;
wait : Q;
error : list exn
}.

Section Call.
Context {V : Type}.
Variable self : t.
(** The wrapped function with its arguments: [func k] is the outcome of
  its invocation number [k], the first one being number 0. *)
Variable func : nat -> result V.

(** The body of [for i in range(self.retries + 1)], on the indices that
  are left.  The result [None] is Python's: the loop ended without a
  [return]. *)
Fixpoint wrapped_loop (idxs : list Z) (log : RetryLog)
: result (option V) * RetryLog :=
match idxs with
| [] => (Ok None, log)
| i :: rest =>
    match func (calls log) with
    | Ok res => (Ok (Some res), called log)
    | Raise err =>
        if catches (error self) err then
          let log' := time_sleep (wait self) (called log) in
          if i =? retries self then (Raise err, log')
          else wrapped_loop rest log'
        else (Raise err, called log)
    end
end.

Definition wrapped : result (option V) * RetryLog :=
wrapped_loop (py_range1 (retries self + 1)) {| calls := 0; slept := [] |}.
End Call.

End BaseTimeoutDecoratorClass.

End Utils.

(** ** [config.py] *)

Module Config.
Definition PINECONE_UPSERT_BATCH : Z := 100.
Definition OPENAI_EMBEDDING_BATCH : Z := 100.
Definition AIRFLOW_CITIES_PER_JOB : Z := 2.
Definition MIN_DISTANCE : Q := 50.
Definition DEFAULT_DURATION : Z := 45.
Definition DEFAULT_RATING : Q := 5 # 2.
Definition DEFAULT_REVIEW_COUNT : Z := 0.
Definition CACHE_FILENAME : string := "cache/city_cache.json".
End Config.

(** ** Paths and files *)

Definition is_absolute (p : string) : bool :=
  match p with
  | String "/" _ => true
  | _ => false
  end.

Fixpoint ends_with_slash (p : string) : bool :=
  match p with
  | EmptyString => false
  | String c EmptyString => bool_decide (c = "/"%char)
  | String _ p' => ends_with_slash p'
  end.

(** [os.path.join(a, b)]. *)
Definition os_path_join (a b : string) : string :=
  if is_absolute b then b
  else if bool_decide (a = "") || ends_with_slash a then a +:+ b
  else a +:+ "/" +:+ b.

(** ** [cache/city_cache.py] *)

(** One entry of the checkpoint document. *)
Record CityTask : Type := mkCityTask {
  city : string;
  state : option string;
  country : string;
  lat : Q;
  lng : Q;
  namespace : string;
  processed : bool;
  success : bool
}.

Definition set_processed (b : bool) (c : CityTask) : CityTask :=
  mkCityTask (city c) (state c) (country c) (lat c) (lng c) (namespace c)
             b (success c).

Definition set_success (b : bool) (c : CityTask) : CityTask :=
  mkCityTask (city c) (state c) (country c) (lat c) (lng c) (namespace c)
             (processed c) b.

(** The process's working directory and the JSON documents on disk, by
    absolute path.  A relative path is resolved against the working
    directory; the directories are taken to exist, so that opening a file for
    writing succeeds. *)
Record FileSystem : Type := mkFileSystem {
  cwd : string;
  files : gmap string (list CityTask)
}.

Definition resolve (fs : FileSystem) (path : string) : string :=
  os_path_join (cwd fs) path.

Arguments resolve : simpl never.

(** [with open(path, "r") as file: json.load(file)]. *)
Definition read_json (fs : FileSystem) (path : string) : result (list CityTask) :=
  match files fs !! resolve fs path with
  | Some doc => Ok doc
  | None => Raise FileNotFoundError
  end.

(** [with open(path, "w") as file: json.dump(doc, file)]. *)
Definition write_json (fs : FileSystem) (path : string) (doc : list CityTask)
  : FileSystem :=
  mkFileSystem (cwd fs) (<[resolve fs path := doc]> (files fs)).

Module CityCache.

(** [CACHE_FILEPATH = os.path.join(BASE_FILEPATH, CACHE_FILENAME)], where
    [BASE_FILEPATH] is the directory of [config.py]. *)
Definition CACHE_FILEPATH (BASE_FILEPATH : string) : string :=
  os_path_join BASE_FILEPATH Config.CACHE_FILENAME.

Record t : Type := mk {
  cities_per_job : Z;
  cache : list CityTask;
  num_processed : Z
}.

Definition init (BASE_FILEPATH : string) (cities_per_job : Z) (fs : FileSystem)
  : result t :=
  cache ← read_json fs (CACHE_FILEPATH BASE_FILEPATH);
  mret (mk cities_per_job cache 0).

Definition update_cache (self : t) (fs : FileSystem) : FileSystem :=
  write_json fs Config.CACHE_FILENAME (cache self).

Definition cache_complete (self : t) : bool :=
  forallb processed (cache self).

(** *** The generator of [__iter__] *)

(** Where the generator stands: not started, suspended at the [yield] of
    the task at index [idx], or finished. *)
Inductive frame : Type :=
| Created
| Suspended (idx : nat)
| Finished.

(** The cache object, the files, and the generator's frame. *)
Record run : Type := mkRun {
  self : t;
  fs : FileSystem;
  gen : frame
}.

(** The first index at or after [idx] whose task is not processed, with
    [l] the tasks from [idx] on. *)
Fixpoint next_unprocessed (l : list CityTask) (idx : nat) : option nat :=
  match l with
  | [] => None
  | city_info :: l' =>
      if processed city_info then next_unprocessed l' (S idx) else Some idx
  end.

(** The loop from index [from] up to the next [yield], or to its end. *)
Definition advance (from : nat) (r : run) : run * option CityTask :=
  match next_unprocessed (drop from (cache (self r))) from with
  | None => (mkRun (self r) (fs r) Finished, None)
  | Some idx =>
      let cache1 := alter (set_processed true) idx (cache (self r)) in
      let cache2 := alter (set_success false) idx cache1 in
      let self' := mk (cities_per_job (self r)) cache2 (num_processed (self r)) in
      let fs' := update_cache self' (fs r) in
      (mkRun self' fs' (Suspended idx), cache2 !! idx)
  end.

(** One [next()] on the generator: [None] is [StopIteration]. *)
Definition next (r : run) : run * option CityTask :=
  match gen r with
  | Finished => (r, None)
  | Created => advance 0 r
  | Suspended idx =>
      let cache' := alter (set_success true) idx (cache (self r)) in
      let self1 := mk (cities_per_job (self r)) cache' (num_processed (self r)) in
      let fs' := update_cache self1 (fs r) in
      let self2 := mk (cities_per_job self1) cache' (num_processed self1 + 1) in
      if num_processed self2 =? cities_per_job self2
      then (mkRun self2 fs' Finished, None)
      else advance (S idx) (mkRun self2 fs' (Suspended idx))
  end.

(** [for city_info in cache: ...] with a body that returns normally and
    does not touch the cache: the tasks yielded, and the state when the
    loop has ended or the fuel is used up. *)
Fixpoint iterate (fuel : nat) (r : run) : list CityTask * run :=
  match fuel with
  | O => ([], r)
  | S fuel' =>
      match next r with
      | (r', None) => ([], r')
      | (r', Some city_info) =>
          let '(yielded, r'') := iterate fuel' r' in
          (city_info :: yielded, r'')
      end
  end.

(** A pass over a cache object on which no generator has run yet. *)
Definition pass (fuel : nat) (self : t) (fs : FileSystem) : list CityTask * run :=
  iterate fuel (mkRun self fs Created).

End CityCache.

(** The tasks still to process. *)
Definition unprocessed (l : list CityTask) : list CityTask :=
  filter (fun c => processed c = false) l.

(** What a task looks like when it is yielded, and when its harvest is over. *)
Definition claimed (c : CityTask) : CityTask :=
  set_success false (set_processed true c).

Definition completed (c : CityTask) : CityTask :=
  set_success true (claimed c).

(** The first [n] unprocessed tasks of [l] completed, the others untouched. *)
Fixpoint complete_first (n : nat) (l : list CityTask) : list CityTask :=
  match n, l with
  | O, _ => l
  | _, [] => []
  | S n', c :: l' =>
      if processed c then c :: complete_first n l'
      else completed c :: complete_first n' l'
  end.

(** Every unprocessed task of [l] completed. *)
Definition complete_all (l : list CityTask) : list CityTask :=
  map (fun c => if processed c then c else completed c) l.

(** ** Text *)

(** A [str] is kept as its UTF-8 encoding, one [ascii] for each byte.  A
    character is a byte that does not continue one, with the continuation
    bytes that follow it; on the encoding of a [str] these are its code
    points, in order. *)
Definition is_continuation (c : ascii) : bool :=
  let n := nat_of_ascii c in (128 <=? n)%nat && (n <=? 191)%nat.

Fixpoint utf8_chars (bytes : list ascii) : list (list ascii) :=
  match bytes with
  | [] => []
  | c :: rest =>
      match utf8_chars rest with
      | (d :: ch) :: chars =>
          if is_continuation d then (c :: d :: ch) :: chars
          else [c] :: (d :: ch) :: chars
      | chars => [c] :: chars
      end
  end.

(** The characters of a text, and the text made of some characters. *)
Definition characters (text : string) : list (list ascii) :=
  utf8_chars (list_ascii_of_string text).

Definition text_of (chars : list (list ascii)) : string :=
  string_of_list_ascii (concat chars).

(** The code point a character encodes; bytes that encode none stand for
    U+FFFD. *)
Definition payload (c : ascii) : N := (N_of_ascii c mod 64)%N.

Definition code_point (ch : list ascii) : N :=
  let replacement := 65533%N in
  match ch with
  | [a] => if (N_of_ascii a <? 128)%N then N_of_ascii a else replacement
  | [a; b] =>
      let v := ((N_of_ascii a mod 32) * 64 + payload b)%N in
      if (192 <=? N_of_ascii a)%N && (N_of_ascii a <? 224)%N && (128 <=? v)%N
      then v else replacement
  | [a; b; c] =>
      let v := ((N_of_ascii a mod 16) * 4096 + payload b * 64 + payload c)%N in
      if (224 <=? N_of_ascii a)%N && (N_of_ascii a <? 240)%N && (2048 <=? v)%N
      then v else replacement
  | [a; b; c; d] =>
      let v := ((N_of_ascii a mod 8) * 262144 + payload b * 4096
                + payload c * 64 + payload d)%N in
      if (240 <=? N_of_ascii a)%N && (N_of_ascii a <? 248)%N
         && (65536 <=? v)%N && (v <=? 1114111)%N
      then v else replacement
  | _ => replacement
  end.

Definition code_points (text : string) : list N := map code_point (characters text).

Definition flush_run {A} (run : list A) : list (list A) :=
  match run with
  | [] => []
  | _ => [run]
  end.

Section Digits.
(** The decimal digits of the Unicode database: [decimal c] is the value of
    the digit [c], for the characters that [\d] matches and [int] reads. *)
Variable decimal : N -> option Z.

(** [re.findall(r'\d+', text)]: the maximal runs of digits, left to right;
    [run] is the run being read. *)
Fixpoint findall_digits_from (text run : list N) : list (list N) :=
  match text with
  | [] => flush_run run
  | c :: rest =>
      match decimal c with
      | Some _ => findall_digits_from rest (run ++ [c])
      | None => flush_run run ++ findall_digits_from rest []
      end
  end.

Definition findall_digits (text : list N) : list (list N) :=
  findall_digits_from text [].

End Digits.

(** The digits 0 to 9 of ASCII. *)
Definition ascii_decimal (c : N) : option Z :=
  if (48 <=? c)%N && (c <=? 57)%N then Some (Z.of_N c - 48) else None.

(** The number that a row of digit values writes in base ten. *)
Definition decimal_value (digits : list Z) : Z :=
  foldl (fun acc d => 10 * acc + d) 0 digits.

Definition lower_char (c : ascii) : ascii :=
  let n := nat_of_ascii c in
  if (65 <=? n)%nat && (n <=? 90)%nat then ascii_of_nat (n + 32) else c.

(** [text.lower()], as far as the ASCII letters go.  The texts are searched
    for ASCII words only, and no other character lowers to ASCII letters
    that stand side by side, so that the search finds the same. *)
Fixpoint lower (text : string) : string :=
  match text with
  | EmptyString => EmptyString
  | String c rest => String (lower_char c) (lower rest)
  end.

(** [needle in text]. *)
Fixpoint contains (needle text : string) : bool :=
  String.prefix needle text ||
  match text with
  | EmptyString => false
  | String _ rest => contains needle rest
  end.

(** ** Numbers *)

(** [round(x)] with no second argument: to the nearest integer, a half
    going to the even neighbour. *)
Definition py_round (x : Q) : Z :=
  let f := Qfloor x in
  match (x - inject_Z f ?= 1 # 2)%Q with
  | Lt => f
  | Gt => f + 1
  | Eq => if Z.even f then f else f + 1
  end.

(** A [float], a binary64 value: a finite number with its exact value, an
    infinity or a NaN.  The signs of the zeros and of the infinities are not
    kept: no operation below tells them apart. *)
Inductive float64 : Type :=
| Finite (q : Q)
| Infinite
| NaN.

(** [floor(log2 x)] for [x > 0]. *)
Definition Qlog2 (x : Q) : Z :=
  let k := Z.log2 (Qnum x) - Z.log2 (Zpos (Qden x)) in
  if Qle_bool (2 ^ k) x then k else k - 1.

(** The exponent of the last place of the binary64 numbers around [x]: 53
    bits of precision, and no exponent below that of the subnormal numbers. *)
Definition ulp_exponent (x : Q) : Z := Z.max (-1074) (Qlog2 (Qabs x) - 52).

(** The binary64 value of the exact result [x] of an operation, as IEEE 754
    has it: the nearest number with 53 bits, a tie going to the even
    significand, and an infinity from [2 ^ 1024] on. *)
Definition round64 (x : Q) : float64 :=
  if Qeq_bool x 0 then Finite 0
  else
    let e := ulp_exponent x in
    let y := (inject_Z (py_round (x / 2 ^ e)) * 2 ^ e)%Q in
    if Qle_bool (2 ^ 1024) (Qabs y) then Infinite else Finite y.

(** [k * x] and [x / k] for a float [x] and a finite constant [k], not zero. *)
Definition float_times (k : Q) (x : float64) : float64 :=
  match x with
  | Finite a => round64 (k * a)
  | _ => x
  end.

Definition float_over (x : float64) (k : Q) : float64 :=
  match x with
  | Finite a => round64 (a / k)
  | _ => x
  end.

(** [round(x)] and [math.ceil(x)] of a float [x]. *)
Definition round_float (x : float64) : result Z :=
  match x with
  | Finite a => Ok (py_round a)
  | Infinite => Raise OverflowError
  | NaN => Raise ValueError
  end.

Definition math_ceil (x : float64) : result Z :=
  match x with
  | Finite a => Ok (Qceiling a)
  | Infinite => Raise OverflowError
  | NaN => Raise ValueError
  end.

(** ** JSON values *)

#[warnings="-register-all"]
Inductive json : Type :=
| JNull
| JBool (b : bool)
| JInt (n : Z)
| JFloat (q : Q)
| JStr (s : string)
| JList (l : list json)
| JDict (d : list (string * json)).

Fixpoint assoc {V} (key : string) (d : list (string * V)) : option V :=
  match d with
  | [] => None
  | (k, v) :: d' => if bool_decide (k = key) then Some v else assoc key d'
  end.

(** [x[key]] with a string key. *)
Definition getitem (x : json) (key : string) : result json :=
  match x with
  | JDict d =>
      match assoc key d with
      | Some v => Ok v
      | None => Raise KeyError
      end
  | _ => Raise TypeError
  end.

Definition chars_of (s : string) : list json :=
  map (fun ch => JStr (string_of_list_ascii ch)) (characters s).

(** [x[i]] with an integer index; a JSON object has no integer key. *)
Definition getindex (x : json) (i : Z) : result json :=
  let at_index (l : list json) :=
    let j := if i <? 0 then i + Z.of_nat (length l) else i in
    if j <? 0 then Raise IndexError
    else match l !! Z.to_nat j with
         | Some v => Ok v
         | None => Raise IndexError
         end in
  match x with
  | JList l => at_index l
  | JStr s => at_index (chars_of s)
  | JDict _ => Raise KeyError
  | _ => Raise TypeError
  end.

(** [x.get(key, default)]. *)
Definition dict_get (x : json) (key : string) (dflt : json) : result json :=
  match x with
  | JDict d => Ok (default dflt (assoc key d))
  | _ => Raise AttributeError
  end.

(** The items of [for item in x]. *)
Definition iter (x : json) : result (list json) :=
  match x with
  | JList l => Ok l
  | JDict d => Ok (map (fun kv => JStr kv.1) d)
  | JStr s => Ok (chars_of s)
  | _ => Raise TypeError
  end.

(** The items of [for item in x[::-1]]. *)
Definition iter_reversed (x : json) : result (list json) :=
  match x with
  | JList l => Ok (rev l)
  | JStr s => Ok (rev (chars_of s))
  | _ => Raise TypeError
  end.

(** [x == s] for a string literal [s]. *)
Definition eq_str (x : json) (s : string) : bool :=
  match x with
  | JStr t => bool_decide (t = s)
  | _ => false
  end.

(** [x is None]. *)
Definition is_none (x : json) : bool :=
  match x with
  | JNull => true
  | _ => false
  end.

(** The fixed path [data[0]["data"]["Result"][0]] of every response. *)
Definition result0 (data : json) : result json :=
  x ← getindex data 0;
  x ← getitem x "data";
  x ← getitem x "Result";
  getindex x 0.

(** ** Library calls *)

(** What the code asks of [json], [base64], the built-in conversions and
    [geopy].  The results depend on nothing but the arguments. *)
Class PyLib : Type := {
  (** [json.loads(x)] *)
  json_loads : json -> result json;
  (** [json.dumps(hours)] for the dictionary built by [parse_business_hours],
      given as the assignments [hours[key] = value] in the order they are
      made *)
  json_dumps : list (json * json) -> string;
  (** [base64.b64decode(x).decode("utf-8")] *)
  b64decode_utf8 : json -> result string;
  (** [float(x)] and [int(x)] *)
  py_float : json -> result json;
  py_int : json -> result json;
  (** [distance.geodesic((lat1, lng1), (lat2, lng2)).km] *)
  geodesic_km : json -> json -> json -> json -> result Q;
  (** the decimal digits of the Unicode database of the interpreter: the
      characters that [\d] matches and [int] reads, with their values *)
  unicode_decimal : N -> option Z;
  (** [sys.get_int_max_str_digits()], 0 where [int] has no limit *)
  int_max_str_digits : nat;
  (** [np.mean(digits)] for a list of integers *)
  np_mean : list Z -> float64
}.

(** What the database, the interpreter and NumPy promise of the last three
    operations. *)
Class PyLaws (L : PyLib) : Prop := {
  (** among the ASCII characters the digits are 0 to 9, and a digit has a
      value from 0 to 9 *)
  unicode_decimal_ascii : forall c, (c < 128)%N -> unicode_decimal c = ascii_decimal c;
  unicode_decimal_range : forall c d, unicode_decimal c = Some d -> 0 <= d <= 9;
  (** a limit on the digits of an integer is no lower than 640 *)
  int_max_str_digits_floor :
    int_max_str_digits = 0%nat \/ (640 <= int_max_str_digits)%nat;
  (** the mean of no number is a NaN; while the sum of natural numbers is
      at most [2 ^ 53] every partial sum is a binary64 number, whatever the
      order of the additions, and the mean is the sum divided once *)
  np_mean_nil : np_mean [] = NaN;
  np_mean_exact : forall l,
    l <> [] -> Forall (fun n => 0 <= n) l ->
    foldr Z.add 0 l <= 2 ^ 53 -> Z.of_nat (length l) <= 2 ^ 53 ->
    np_mean l = round64 (inject_Z (foldr Z.add 0 l) / inject_Z (Z.of_nat (length l)))
}.

(** ** [scraper/utils/response.py]: durations *)

Module Response.
Section WithLib.
Context {L : PyLib}.

(** [int(digit)] on a run of digits; a run longer than the limit on the
    digits of an integer, where there is one, raises. *)
Definition int_of_run (run : list N) : result Z :=
  if (0 <? int_max_str_digits)%nat && (int_max_str_digits <? length run)%nat
  then Raise ValueError
  else Ok (decimal_value (omap unicode_decimal run)).

Definition extract_activity_duration (text : string) : result Z :=
  let digits := findall_digits unicode_decimal (code_points text) in
  digits ← mapM int_of_run digits;
  if contains "hour" (lower text) then
    rounded ← round_float (float_over (float_times 60 (np_mean digits)) 5);
    mret (5 * rounded)
  else if contains "minute" (lower text) || contains "min" (lower text) then
    rounded ← round_float (float_over (np_mean digits) 5);
    mret (5 * rounded)
  else Raise PyException.

End WithLib.
End Response.

(** ** [scraper/utils/response.py] *)

(** [text[i:j]] and [text.replace("\n", "")]. *)
Definition str_slice (text : string) (i j : Z) : string :=
  text_of (py_slice (characters text) i j).

Definition newline : ascii := ascii_of_nat 10.

Fixpoint remove_newlines (text : string) : string :=
  match text with
  | EmptyString => EmptyString
  | String c rest =>
      if bool_decide (c = newline) then remove_newlines rest
      else String c (remove_newlines rest)
  end.

(** The separator of the tags, U+2022 in UTF-8. *)
Definition bullet : string :=
  String (ascii_of_nat 226) (String (ascii_of_nat 128) (String (ascii_of_nat 162) EmptyString)).

(** [text.split(sep)] for a non-empty [sep]; [piece] is the piece being
    read, reversed. *)
Fixpoint split_from (sep text : string) (piece : list ascii) (fuel : nat) : list string :=
  match fuel with
  | O => [string_of_list_ascii (rev piece)]
  | S fuel' =>
      match text with
      | EmptyString => [string_of_list_ascii (rev piece)]
      | String c rest =>
          if String.prefix sep text then
            string_of_list_ascii (rev piece)
            :: split_from sep (string_of_list_ascii
                                 (drop (String.length sep) (list_ascii_of_string text)))
                          [] fuel'
          else split_from sep rest (c :: piece) fuel'
      end
  end.

Definition split (sep text : string) : list string :=
  split_from sep text [] (String.length text).

(** The characters that [str.strip] takes for white space. *)
Definition is_space (c : N) : bool :=
  ((9 <=? c) && (c <=? 13) || (28 <=? c) && (c <=? 32)
   || (c =? 133) || (c =? 160) || (c =? 5760)
   || (8192 <=? c) && (c <=? 8202)
   || (c =? 8232) || (c =? 8233) || (c =? 8239) || (c =? 8287) || (c =? 12288))%N.

Fixpoint lstrip (l : list (list ascii)) : list (list ascii) :=
  match l with
  | ch :: l' => if is_space (code_point ch) then lstrip l' else l
  | [] => []
  end.

(** [text.strip()]. *)
Definition strip (text : string) : string :=
  text_of (rev (lstrip (rev (lstrip (characters text))))).

Module ResponseParsers.
Section WithLib.
Context {L : PyLib}.

Definition compute_distance (lat1 lng1 lat2 lng2 : json) : result Q :=
  geodesic_km lat1 lng1 lat2 lng2.

Definition decode_base64 (base64_string : json) : result string :=
  text ← b64decode_utf8 base64_string;
  mret (str_slice text 4 (-4)).

(** The loop of [parse_attr_ids_response]. *)
Fixpoint attr_ids_loop (items : list json) (results : list json) : result (list json) :=
  match items with
  | [] => Ok results
  | item :: rest =>
      typename ← getitem item "__typename";
      if eq_str typename "WebPresentation_SingleFlexCardSection" then
        card ← getitem item "singleFlexCardContent";
        id ← (x ← getitem card "saveId"; getitem x "id");
        card ← getitem item "singleFlexCardContent";
        name ← (x ← getitem card "cardTitle"; getitem x "text");
        attr_ids_loop rest (results ++ [JDict [("id", id); ("name", name)]])
      else attr_ids_loop rest results
  end.

Definition parse_attr_ids_response (data : json) : result (list json) :=
  sections ← (x ← result0 data; getitem x "sections");
  items ← iter sections;
  attr_ids_loop items [].

(** [extract_activity_duration] on a value that may not be a string. *)
Definition extract_activity_duration_of (text : json) : result Z :=
  match text with
  | JStr text => Response.extract_activity_duration text
  | _ => Raise TypeError
  end.

(** The body of the [try] of [parse_activity_duration]: [Some] is a
    [return], [None] falls through to the next item. *)
Definition duration_of_item (item : json) : result (option Z) :=
  typename ← getitem item "__typename";
  if eq_str typename "WebPresentation_AboutContentWeb" then
    identifier ← getitem item "identifier";
    if eq_str identifier "DURATION" then
      text ← (x ← getitem item "item"; x ← getitem x "text"; getitem x "text");
      Some <$> extract_activity_duration_of text
    else mret None
  else mret None.

Fixpoint duration_loop (items : list json) : Z :=
  match items with
  | [] => Config.DEFAULT_DURATION
  | item :: rest =>
      match duration_of_item item with
      | Ok (Some minutes) => minutes
      | Ok None | Raise _ => duration_loop rest
      end
  end.

Definition detail_section_groups (data : json) : result json :=
  x ← result0 data; getitem x "detailSectionGroups".

Definition parse_activity_duration (data : json) : result Z :=
  items ← (x ← detail_section_groups data; x ← getindex x 1; x ← getitem x "about";
           x ← getitem x "primary"; getitem x "content");
  items ← iter items;
  mret (duration_loop items).

(** The body of the [try] of [parse_business_description]. *)
Definition description_of_item (item : json) : result string :=
  description ← (x ← getitem item "about"; x ← getitem x "primary"; getitem x "about");
  description ← decode_base64 description;
  mret (remove_newlines description).

Fixpoint description_loop (items : list json) : result string :=
  match items with
  | [] => Raise PyException
  | item :: rest =>
      typename ← getitem item "__typename";
      if eq_str typename "WebPresentation_AttractionAboutSectionGroup" then
        try_except (description_of_item item) (description_loop rest)
      else description_loop rest
  end.

Definition parse_business_description (data : json) : result string :=
  groups ← detail_section_groups data;
  items ← iter groups;
  description_loop items.

Definition detail_sections (data : json) : result (list json) :=
  x ← detail_section_groups data; x ← getindex x 0; x ← getitem x "detailSections";
  iter x.

(** The body of the [try] of [parse_business_tags]. *)
Definition tags_of_item (item : json) : result (list string) :=
  tags ← (x ← getitem item "tags"; getitem x "text");
  match tags with
  | JStr tags => Ok (map strip (split bullet tags))
  | _ => Raise AttributeError
  end.

Fixpoint tags_loop (items : list json) : list string :=
  match items with
  | [] => []
  | item :: rest =>
      match tags_of_item item with
      | Ok tags => tags
      | Raise _ => tags_loop rest
      end
  end.

Definition parse_business_tags (data : json) : result (list string) :=
  items ← detail_sections data;
  mret (tags_loop items).

(** The inner loop of [parse_business_website]: [Some] is a [return]. *)
Fixpoint links_loop (links : list json) : result (option string) :=
  match links with
  | [] => Ok None
  | link :: rest =>
      typename ← getitem link "__typename";
      is_website ← (if eq_str typename "WebPresentation_ContactLink"
                    then (linkType ← getitem link "linkType"; mret (eq_str linkType "WEBSITE"))
                    else mret false);
      if is_website : bool then
        website ← (x ← getitem link "link"; x ← getitem x "externalUrl"; decode_base64 x);
        mret (Some website)
      else links_loop rest
  end.

Definition website_of_item (item : json) : result (option string) :=
  links ← (x ← getitem item "contactLinks"; iter x);
  links_loop links.

Fixpoint website_loop (items : list json) : result string :=
  match items with
  | [] => Ok EmptyString
  | item :: rest =>
      typename ← dict_get item "__typename" (JStr "");
      if eq_str typename "WebPresentation_PoiOverviewWeb" then
        match website_of_item item with
        | Ok (Some website) => Ok website
        | Ok None | Raise _ => website_loop rest
        end
      else website_loop rest
  end.

Definition parse_business_website (data : json) : result string :=
  items ← detail_sections data;
  website_loop items.

(** [hours[key] = value], recorded as one more assignment; a list or a
    dictionary is no key. *)
Definition hours_set (hours : list (json * json)) (key value : json)
  : result (list (json * json)) :=
  match key with
  | JList _ | JDict _ => Raise TypeError
  | _ => Ok (hours ++ [(key, value)])
  end.

Fixpoint schedule_loop (sections : list json) (hours : list (json * json))
  : result (list (json * json)) :=
  match sections with
  | [] => Ok hours
  | section :: rest =>
      intervals ← getitem section "intervals";
      day ← (x ← getitem section "day"; getitem x "text");
      hours ← hours_set hours day intervals;
      schedule_loop rest hours
  end.

Definition hours_of_item (item : json) : result string :=
  sections ← (x ← getitem item "poiHours"; x ← getitem x "fullSchedule"; iter x);
  hours ← schedule_loop sections [];
  mret (json_dumps hours).

Fixpoint hours_loop (items : list json) : result string :=
  match items with
  | [] => Ok EmptyString
  | item :: rest =>
      typename ← dict_get item "__typename" (JStr "");
      if eq_str typename "WebPresentation_PoiHoursWeb" then
        try_except (hours_of_item item) (hours_loop rest)
      else hours_loop rest
  end.

Definition parse_business_hours (data : json) : result string :=
  items ← detail_sections data;
  hours_loop items.

End WithLib.
End ResponseParsers.

(** ** [scraper/utils/request.py] *)

(** Modelled from the spec: the template documents under
    [scraper/api_requests] are not part of the sources.  A request is one of
    the three templates with the fields that are substituted before the
    call: the query text; the location id and the page offset; the content
    id. *)
Inductive request : Type :=
| CityIdRequest (query : string)
| AttrIdRequest (geoId : json) (pagee : Z)
| AttrDetailRequest (contentId : json).

Module Request.

Definition load_attr_id_request_json (city_id : json) (page : Z) : request :=
  let num_attr := 30 in
  AttrIdRequest city_id (page * num_attr).

Definition load_attr_detail_request_json (attr_id : json) : request :=
  AttrDetailRequest attr_id.

Definition load_city_id_request_json (city : string) : request :=
  CityIdRequest city.

End Request.

Definition is_detail_request (r : request) : Prop :=
  match r with
  | AttrDetailRequest _ => True
  | _ => False
  end.

(** ** [scraper/scraper.py] *)

(** The provider as the two request methods see it: the outcome of a call,
    retries included. *)
Class Provider : Type := {
  get_sync_request : request -> result json;
  get_async_request : request -> result json
}.

Definition Qltb (a b : Q) : bool := negb (Qle_bool b a).

Module Scraper.

(** The attributes of a [TripAdvisorScraper]. *)
Record t : Type := mk {
  city : string;
  state : string;
  country : string;
  lat : json;
  lng : json;
  city_id : json;
  max_attr : Z;
  max_pages : Z;
  attr_ids : option (list json)
}.

Definition set_attr_ids (self : t) (ids : list json) : t :=
  mk (city self) (state self) (country self) (lat self) (lng self)
     (city_id self) (max_attr self) (max_pages self) (Some ids).

Section WithProvider.
Context {L : PyLib} {P : Provider}.

(** The body of the [try] of [get_city_id]: [Some] is a [return], [None]
    falls through to the next item. *)
Definition candidate_id (self : t) (item : json) : result (option json) :=
  item_lat ← (x ← getitem item "details"; getitem x "latitude");
  item_lng ← (x ← getitem item "details"; getitem x "longitude");
  dist ← ResponseParsers.compute_distance (lat self) (lng self) item_lat item_lng;
  if Qltb dist Config.MIN_DISTANCE then Some <$> getitem item "locationId"
  else mret None.

Fixpoint city_id_loop (self : t) (items : list json) : result json :=
  match items with
  | [] => Ok JNull
  | item :: rest =>
      typename ← getitem item "__typename";
      if eq_str typename "Typeahead_LocationItem" then
        match candidate_id self item with
        | Ok (Some id) => Ok id
        | Ok None => city_id_loop self rest
        | Raise err =>
            if isinstance err KeyError then city_id_loop self rest else Raise err
        end
      else city_id_loop self rest
  end.

Definition get_city_id (self : t) : result json :=
  let city_request := (city self +:+ ", " +:+ country self)%string in
  let request := Request.load_city_id_request_json city_request in
  response ← get_sync_request request;
  items ← (x ← getindex response 0; x ← getitem x "data";
           x ← getitem x "Typeahead_autocomplete"; x ← getitem x "results"; iter x);
  city_id_loop self items.

Fixpoint max_attr_loop (items : list json) : result json :=
  match items with
  | [] => Ok JNull
  | item :: rest =>
      typename ← getitem item "__typename";
      if eq_str typename "WebPresentation_PaginationLinksList" then
        dict_get item "totalResults" (JInt 30)
      else max_attr_loop rest
  end.

Definition get_max_attr (self : t) : result json :=
  if is_none (city_id self) then Ok JNull
  else
    let request := Request.load_attr_id_request_json (city_id self) 0 in
    response ← get_sync_request request;
    items ← (x ← result0 response; x ← getitem x "sections"; iter_reversed x);
    max_attr_loop items.

Definition extract_lat_lng (self : t) (data : json) : json * json :=
  let found :=
    info ← (x ← ResponseParsers.detail_section_groups data; x ← getindex x 3;
            x ← getitem x "staticMap"; getitem x "center");
    latitude ← getitem info "latitude";
    longitude ← getitem info "longitude";
    mret (latitude, longitude) in
  match found with
  | Ok coordinates => coordinates
  | Raise _ => (lat self, lng self)
  end.

(** [x if x is None else convert(x)]. *)
Definition convert_unless_none (convert : json -> result json) (x : json) : result json :=
  if is_none x then Ok x else convert x.

Definition parse_attr_details_response (self : t) (data : json) : result json :=
  general ← (x ← result0 data; x ← getitem x "container"; x ← getitem x "jsonLd";
             json_loads x);
  let '(latitude, longitude) := extract_lat_lng self data in
  type ← dict_get general "@type" (JStr "");
  address ← (x ← dict_get general "address" (JDict []); dict_get x "streetAddress" (JStr ""));
  zip_code ← (x ← dict_get general "address" (JDict []); dict_get x "postalCode" (JStr ""));
  rating ← (x ← dict_get general "aggregateRating" (JDict []);
            dict_get x "ratingValue" (JFloat Config.DEFAULT_RATING));
  review_count ← (x ← dict_get general "aggregateRating" (JDict []);
                  dict_get x "reviewCount" (JInt Config.DEFAULT_REVIEW_COUNT));
  image_url ← dict_get general "image" (JStr "");
  description ← ResponseParsers.parse_business_description data;
  activity_duration ← ResponseParsers.parse_activity_duration data;
  website ← ResponseParsers.parse_business_website data;
  tags ← ResponseParsers.parse_business_tags data;
  hours ← ResponseParsers.parse_business_hours data;
  rating ← convert_unless_none py_float rating;
  review_count ← convert_unless_none py_int review_count;
  mret (JDict [("type", type); ("address", address); ("city", JStr (city self));
               ("state", JStr (state self)); ("country", JStr (country self));
               ("zip_code", zip_code); ("rating", rating);
               ("review_count", review_count); ("image_url", image_url);
               ("latitude", latitude); ("longitude", longitude);
               ("description", JStr description);
               ("activity_duration", JInt activity_duration);
               ("website", JStr website); ("tags", JList (map JStr tags));
               ("hours", JStr hours)]).

(** [self.attr_ids[idx][key]]. *)
Definition attr_id_field (self : t) (idx : nat) (key : string) : result json :=
  match attr_ids self with
  | None => Raise TypeError
  | Some ids => x ← getindex (JList ids) (Z.of_nat idx); getitem x key
  end.

(** The body of the [try] of [format_attr_details]: the record of the
    payload at index [idx]. *)
Definition attr_record (self : t) (idx : nat) (item : json) : result json :=
  tripadvisor_id ← attr_id_field self idx "id";
  name ← attr_id_field self idx "name";
  parsed ← parse_attr_details_response self item;
  match parsed with
  | JDict fields => Ok (JDict (("tripadvisor_id", tripadvisor_id) :: ("name", name) :: fields))
  | _ => Raise TypeError
  end.

Fixpoint format_loop (self : t) (idx : nat) (data : list json) : list json :=
  match data with
  | [] => []
  | item :: rest =>
      match attr_record self idx item with
      | Ok details => details :: format_loop self (S idx) rest
      | Raise _ => format_loop self (S idx) rest
      end
  end.

Definition format_attr_details (self : t) (data : list json) : list json :=
  format_loop self 0 data.

(** [reduce(lambda x, y: x + y, lists)], which needs a first element. *)
Definition reduce_concat (lists : list (list json)) : result (list json) :=
  match lists with
  | [] => Raise TypeError
  | first :: rest => Ok (foldl (fun x y => x ++ y) first rest)
  end.

(** [asyncio.gather] over the requests: the responses in the order of the
    requests, or an error of one of the calls.  All the calls are started,
    and recorded in the log of requests, before any of them is awaited. *)
Definition gather (requests : list request) (log : list request)
  : result (list json) * list request :=
  (mapM get_async_request requests, log ++ requests).

Definition get_attr_ids (self : t) (log : list request) : result t * list request :=
  match attr_ids self with
  | None =>
      let requests := map (Request.load_attr_id_request_json (city_id self))
                          (py_range1 (max_pages self)) in
      let '(data, log) := gather requests log in
      (data ← data;
       lists ← mapM ResponseParsers.parse_attr_ids_response data;
       ids ← reduce_concat lists;
       mret (set_attr_ids self ids), log)
  | Some _ => (Ok self, log)
  end.

Definition get_attr_details (self : t) (log : list request)
  : result (t * list json) * list request :=
  match get_attr_ids self log with
  | (Raise err, log) => (Raise err, log)
  | (Ok self, log) =>
      match attr_ids self with
      | None => (Raise TypeError, log)
      | Some ids =>
          match mapM (fun attr_id => Request.load_attr_detail_request_json
                                        <$> getitem attr_id "id")
                     (py_slice ids 0 (max_attr self)) with
          | Raise err => (Raise err, log)
          | Ok requests =>
              let '(data, log) := gather requests log in
              (data ← data; mret (self, format_attr_details self data), log)
          end
      end
  end.

End WithProvider.
End Scraper.

(** ** A stand-in for the libraries and the provider *)

(** The theorems below hold for every [PyLib] and every [Provider].  To run
    the code on examples, the stand-in gives the library calls on the inputs
    the examples use: base64 decoding as [binascii.a2b_base64] does it, with
    ASCII as the decoded text; [json.loads] on the empty object; conversions
    of numbers; distances along a meridian, 111 km to the degree.  On other
    inputs it raises. *)

Definition b64_value (c : ascii) : option Z :=
  let n := Z.of_nat (nat_of_ascii c) in
  if (65 <=? n) && (n <=? 90) then Some (n - 65)
  else if (97 <=? n) && (n <=? 122) then Some (n - 71)
  else if (48 <=? n) && (n <=? 57) then Some (n + 4)
  else if n =? 43 then Some 62
  else if n =? 47 then Some 63
  else None.

Definition byte_of (n : Z) : ascii := ascii_of_nat (Z.to_nat (n mod 256)).

(** The loop of [a2b_base64] when it is not strict: characters outside the
    alphabet are skipped, and a complete padding ends the input. *)
Fixpoint a2b_base64 (input : list ascii) (quad_pos : nat) (leftchar : Z)
    (pads : nat) (out : list ascii) : result (list ascii) :=
  match input with
  | [] => if (quad_pos =? 0)%nat then Ok (rev out) else Raise BinasciiError
  | c :: rest =>
      if bool_decide (c = "="%char) then
        if (2 <=? quad_pos)%nat && (4 <=? quad_pos + S pads)%nat then Ok (rev out)
        else a2b_base64 rest quad_pos leftchar
               (if (2 <=? quad_pos)%nat then S pads else pads) out
      else
        match b64_value c with
        | None => a2b_base64 rest quad_pos leftchar pads out
        | Some v =>
            match quad_pos with
            | 0%nat => a2b_base64 rest 1 v 0 out
            | 1%nat => a2b_base64 rest 2 (Z.land v 15) 0
                         (byte_of (leftchar * 4 + v / 16) :: out)
            | 2%nat => a2b_base64 rest 3 (Z.land v 3) 0
                         (byte_of (leftchar * 16 + v / 4) :: out)
            | _ => a2b_base64 rest 0 0 0 (byte_of (leftchar * 64 + v) :: out)
            end
        end
  end.

Definition is_ascii (c : ascii) : bool := (nat_of_ascii c <? 128)%nat.

Definition standin_b64decode_utf8 (x : json) : result string :=
  match x with
  | JStr s =>
      if forallb is_ascii (list_ascii_of_string s) then
        bytes ← a2b_base64 (list_ascii_of_string s) 0 0 0 [];
        if forallb is_ascii bytes then Ok (string_of_list_ascii bytes)
        else Raise UnicodeDecodeError
      else Raise ValueError
  | _ => Raise TypeError
  end.

Definition standin_json_loads (x : json) : result json :=
  match x with
  | JStr "{}" => Ok (JDict [])
  | JStr _ => Raise JSONDecodeError
  | _ => Raise TypeError
  end.

Definition standin_json_dumps (hours : list (json * json)) : string :=
  match hours with
  | [] => "{}"
  | _ => "{...}"
  end.

Definition standin_float (x : json) : result json :=
  match x with
  | JInt n => Ok (JFloat (inject_Z n))
  | JFloat q => Ok (JFloat q)
  | JBool b => Ok (JFloat (if b then 1 else 0))
  | JStr _ => Raise ValueError
  | _ => Raise TypeError
  end.

Definition standin_int (x : json) : result json :=
  match x with
  | JInt n => Ok (JInt n)
  | JFloat q => Ok (JInt (Qnum q ÷ Zpos (Qden q)))
  | JBool b => Ok (JInt (if b then 1 else 0))
  | JStr _ => Raise ValueError
  | _ => Raise TypeError
  end.

Definition number_of (x : json) : result Q :=
  match x with
  | JInt n => Ok (inject_Z n)
  | JFloat q => Ok q
  | _ => Raise TypeError
  end.

Definition standin_geodesic_km (lat1 lng1 lat2 lng2 : json) : result Q :=
  a ← number_of lat1; b ← number_of lng1;
  c ← number_of lat2; d ← number_of lng2;
  if Qeq_bool b d then Ok (111 * Qabs (c - a))%Q else Raise ValueError.

(** The digits the stand-in knows: those of ASCII and the Arabic-Indic ones,
    U+0660 to U+0669. *)
Definition standin_unicode_decimal (c : N) : option Z :=
  if (c <? 128)%N then ascii_decimal c
  else if (1632 <=? c)%N && (c <=? 1641)%N then Some (Z.of_N c - 1632)
  else None.

(** The mean as a sum without error, divided once. *)
Definition standin_np_mean (l : list Z) : float64 :=
  match l with
  | [] => NaN
  | _ => round64 (inject_Z (foldr Z.add 0 l) / inject_Z (Z.of_nat (length l)))
  end.

Definition standin_lib : PyLib := {|
  json_loads := standin_json_loads;
  json_dumps := standin_json_dumps;
  b64decode_utf8 := standin_b64decode_utf8;
  py_float := standin_float;
  py_int := standin_int;
  geodesic_km := standin_geodesic_km;
  unicode_decimal := standin_unicode_decimal;
  int_max_str_digits := 4300;
  np_mean := standin_np_mean
|}.

#[global] Instance standin_laws : PyLaws standin_lib.
Proof.
  split.
  - intros c Hc. cbn. unfold standin_unicode_decimal.
    by rewrite (proj2 (N.ltb_lt c 128) Hc).
  - intros c d. cbn. unfold standin_unicode_decimal, ascii_decimal.
    destruct (c <? 128)%N.
    + destruct (N.leb_spec 48 c), (N.leb_spec c 57); cbn; intros [= <-]; lia.
    + destruct (N.leb_spec 1632 c), (N.leb_spec c 1641); cbn; intros [= <-]; lia.
  - right. cbn. lia.
  - reflexivity.
  - intros l Hl _ _ _. by destruct l.
Qed.

(** The envelope [[{"data": {key: value}}]] of a response. *)
Definition envelope (key : string) (value : json) : json :=
  JList [JDict [("data", JDict [(key, value)])]].

(** A listing page with one attraction card and no pagination section. *)
Definition card_section : json :=
  JDict [("__typename", JStr "WebPresentation_SingleFlexCardSection");
         ("singleFlexCardContent",
          JDict [("saveId", JDict [("id", JInt 188151)]);
                 ("cardTitle", JDict [("text", JStr "Eiffel Tower")])])].

Definition listing_page : json :=
  envelope "Result" (JList [JDict [("sections", JList [card_section])]]).

(** An autocomplete answer with two locations on the meridian of the target,
    the first 10 km and the second 200 km away from latitude 48. *)
Definition location_item (latitude : Q) (id : Z) : json :=
  JDict [("__typename", JStr "Typeahead_LocationItem");
         ("locationId", JInt id);
         ("details", JDict [("latitude", JFloat latitude);
                            ("longitude", JFloat (2 # 1))])].

Definition autocomplete_results : list json :=
  [JDict [("__typename", JStr "Typeahead_QuerySuggestionItem")];
   location_item (48 + (10 # 111)) 187147;
   location_item (48 + (200 # 111)) 187079].

Definition autocomplete_answer : json :=
  envelope "Typeahead_autocomplete" (JDict [("results", JList autocomplete_results)]).

(** A location whose [details] are [null], and an answer that lists it
    before the location 10 km away. *)
Definition location_without_details : json :=
  JDict [("__typename", JStr "Typeahead_LocationItem");
         ("locationId", JInt 60763);
         ("details", JNull)].

Definition null_details_results : list json :=
  [location_without_details; location_item (48 + (10 # 111)) 187147].

Definition null_details_answer : json :=
  envelope "Typeahead_autocomplete" (JDict [("results", JList null_details_results)]).

(** A detail payload whose description decodes to "Quiet garden" and which
    has no structured metadata block. *)
Definition about_group (blob : json) : json :=
  JDict [("__typename", JStr "WebPresentation_AttractionAboutSectionGroup");
         ("about", JDict [("primary", JDict [("about", blob);
                                             ("content", JList [])])])].

Definition overview_group : json :=
  JDict [("__typename", JStr "WebPresentation_PoiOverviewSectionGroup");
         ("detailSections", JList [])].

Definition detail_payload (result_fields : list (string * json)) : json :=
  envelope "Result" (JList [JDict result_fields]).

Definition garden_blob : json := JStr "PCEtLVF1aWV0IGdhcmRlbi0tPgo=".

Definition payload_without_metadata : json :=
  detail_payload
    [("detailSectionGroups", JList [overview_group; about_group garden_blob])].

(** The same payload with an empty structured metadata block, and one with
    the block but an about-section that holds no description. *)
Definition payload_complete : json :=
  detail_payload
    [("container", JDict [("jsonLd", JStr "{}")]);
     ("detailSectionGroups", JList [overview_group; about_group garden_blob])].

Definition payload_without_description : json :=
  detail_payload
    [("container", JDict [("jsonLd", JStr "{}")]);
     ("detailSectionGroups",
      JList [overview_group;
             JDict [("__typename", JStr "WebPresentation_AttractionAboutSectionGroup");
                    ("about", JDict [("primary", JDict [("content", JList [])])])]])].

(** A provider that answers each kind of request with one fixed document. *)
Definition standin_answer (r : request) : result json :=
  match r with
  | CityIdRequest _ => Ok autocomplete_answer
  | AttrIdRequest _ _ => Ok listing_page
  | AttrDetailRequest _ => Ok payload_complete
  end.

Definition standin_provider : Provider := {|
  get_sync_request := standin_answer;
  get_async_request := standin_answer
|}.

(** A scraper for Paris, with the location resolved and one page to fetch. *)
Definition paris (ids : option (list json)) : Scraper.t :=
  Scraper.mk "Paris" "" "France" (JFloat 48) (JFloat 2) (JInt 187147) 30 1 ids.

(** The ids parsed from [listing_page]. *)
Definition one_id : list json :=
  [JDict [("id", JInt 188151); ("name", JStr "Eiffel Tower")]].

Definition three_ids : list json :=
  [JDict [("id", JInt 1); ("name", JStr "Louvre")];
   JDict [("id", JInt 2); ("name", JStr "Orsay")];
   JDict [("id", JInt 3); ("name", JStr "Rodin")]].

(** The integers embedded in a text, and its unit words, as
    [extract_activity_duration] reads them. *)
Definition embedded_integers {L : PyLib} (text : string) : result (list Z) :=
  mapM Response.int_of_run (findall_digits unicode_decimal (code_points text)).

Definition has_hour (text : string) : bool := contains "hour" (lower text).

Definition has_minute (text : string) : bool :=
  contains "minute" (lower text) || contains "min" (lower text).

(** A text cut at its digits: some characters that are no digits, then
    pieces made of a run of digits, a character that is no digit and more of
    these, then the digits the text ends with, if any. *)
Record piece : Type := mkPiece {
  run : list N;
  stop : N;
  gap : list N
}.

Definition laid_out (lead : list N) (pieces : list piece) (last : list N) : list N :=
  lead ++ flat_map (fun p => run p ++ stop p :: gap p) pieces ++ last.

Section Layout.
Variable decimal : N -> option Z.

Definition is_decimal (c : N) : Prop := is_Some (decimal c).

Definition cut_at_digits (lead : list N) (pieces : list piece) (last : list N) : Prop :=
  Forall (fun c => ~ is_decimal c) lead /\
  Forall (fun p => run p <> [] /\ Forall is_decimal (run p) /\
                   ~ is_decimal (stop p) /\ Forall (fun c => ~ is_decimal c) (gap p))
         pieces /\
  Forall is_decimal last.

Definition runs_of (pieces : list piece) (last : list N) : list (list N) :=
  map run pieces ++ flush_run last.

End Layout.

(** A text of ASCII characters whose runs of digits are short and whose
    integers are few and small: every library reads the same integers from
    it and takes the same mean of them. *)
Definition plain (text : string) : bool :=
  let runs := findall_digits ascii_decimal (code_points text) in
  let ints := map (fun run => decimal_value (omap ascii_decimal run)) runs in
  forallb (fun c => c <? 128)%N (code_points text)
  && forallb (fun run => (length run <=? 640)%nat) runs
  && (foldr Z.add 0 ints <=? 2 ^ 53)
  && (Z.of_nat (length ints) <=? 2 ^ 53).

(** The text "abcd" between four letters e with an acute accent, U+00E9,
    on either side. *)
Definition e_acute : string := String (ascii_of_nat 195) (String (ascii_of_nat 169) "").

Definition accented_wrapper : string :=
  (e_acute +:+ e_acute +:+ e_acute +:+ e_acute +:+ "abcd"
   +:+ e_acute +:+ e_acute +:+ e_acute +:+ e_acute)%string.

(** The characters of "3 or 10 hours", its first digit the Arabic-Indic
    three, U+0663. *)
Definition arabic_three_or_ten_hours : string :=
  String (ascii_of_nat 217) (String (ascii_of_nat 163) " or 10 hours").

(** ** The [tenacity] decorator of the provider calls *)

(** [tenacity] is a third-party library.  Its loop is written here after its
    documentation: [stop_after_attempt(n)] stops once the attempt number
    reaches [n], [wait_fixed(w)] sleeps [w] seconds between two attempts,
    every exception is retried, and when the loop stops on a failure it
    raises [RetryError]. *)
Module Tenacity.

Record t : Type := retry {
  stop_after_attempt : Z;
  wait_fixed : Q
}.

Section Call.
Context {V : Type}.
Variable self : t.
Variable func : nat -> result V.

(** [left] is the number of attempts still allowed after this one. *)
Fixpoint call_loop (left : nat) (log : RetryLog) : result V * RetryLog :=
  match func (calls log) with
  | Ok res => (Ok res, called log)
  | Raise _ =>
      match left with
      | O => (Raise RetryError, called log)
      | S left' => call_loop left' (time_sleep (wait_fixed self) (called log))
      end
  end.

Definition call : result V * RetryLog :=
  call_loop (Z.to_nat (stop_after_attempt self - 1))
            {| calls := 0; slept := [] |}.
End Call.

End Tenacity.

(** ** The retry configurations of [gcp_client.py], [openai_embedding.py]
       and [scraper/scraper.py] *)

Module GcpClient.
(** [RetryOnGcpTimeoutError.__init__]. *)
Definition RetryOnGcpTimeoutError (retries : Z) (wait : Q) : Utils.BaseTimeoutDecoratorClass.t :=
  Utils.BaseTimeoutDecoratorClass.init retries wait [TooManyRequests].

Definition check_file_exists_decorator := RetryOnGcpTimeoutError 20 (2 # 10).
Definition load_file_decorator := RetryOnGcpTimeoutError 20 (2 # 10).
Definition upload_file_decorator := RetryOnGcpTimeoutError 100 (2 # 10).
End GcpClient.

Module OpenaiEmbedding.
(** [RetryOnOpenAI_ApiError.__init__]. *)
Definition RetryOnOpenAI_ApiError (retries : Z) (wait : Q) : Utils.BaseTimeoutDecoratorClass.t :=
  Utils.BaseTimeoutDecoratorClass.init retries wait [APIError; Timeout].

Definition embedding_api_decorator := RetryOnOpenAI_ApiError 10 1.
End OpenaiEmbedding.

Module ScraperRetry.
Definition get_async_request_decorator := Tenacity.retry 5 2.
Definition get_sync_request_decorator := Tenacity.retry 5 2.
End ScraperRetry.

(** The decorated operations, what they access, and their decorators. *)
Inductive retried_op : Type :=
| op_check_file_exists
| op_load_file
| op_upload_file
| op_embedding_api
| op_get_async_request
| op_get_sync_request.

Inductive op_kind : Type :=
| StorageAccess
| EmbeddingCall
| ProviderCall.

Inductive decorator : Type :=
| TimeoutDecorator (d : Utils.BaseTimeoutDecoratorClass.t)
| TenacityDecorator (d : Tenacity.t).

#[global] Instance Q_eq_dec : EqDecision Q.
Proof. solve_decision. Defined.
#[global] Instance timeout_decorator_eq_dec : EqDecision Utils.BaseTimeoutDecoratorClass.t.
Proof. solve_decision. Defined.
#[global] Instance tenacity_eq_dec : EqDecision Tenacity.t.
Proof. solve_decision. Defined.
#[global] Instance decorator_eq_dec : EqDecision decorator.
Proof. solve_decision. Defined.
#[global] Instance op_kind_eq_dec : EqDecision op_kind.
Proof. solve_decision. Defined.

Definition retried_ops : list retried_op :=
  [op_check_file_exists; op_load_file; op_upload_file; op_embedding_api;
   op_get_async_request; op_get_sync_request].

Definition kind_of (op : retried_op) : op_kind :=
  match op with
  | op_check_file_exists | op_load_file | op_upload_file => StorageAccess
  | op_embedding_api => EmbeddingCall
  | op_get_async_request | op_get_sync_request => ProviderCall
  end.

Definition decorator_of (op : retried_op) : decorator :=
  match op with
  | op_check_file_exists => TimeoutDecorator GcpClient.check_file_exists_decorator
  | op_load_file => TimeoutDecorator GcpClient.load_file_decorator
  | op_upload_file => TimeoutDecorator GcpClient.upload_file_decorator
  | op_embedding_api => TimeoutDecorator OpenaiEmbedding.embedding_api_decorator
  | op_get_async_request => TenacityDecorator ScraperRetry.get_async_request_decorator
  | op_get_sync_request => TenacityDecorator ScraperRetry.get_sync_request_decorator
  end.

(** The log of a decorated call whose function raises [err] each time. *)
Definition failing_run (d : decorator) (err : exn) : RetryLog :=
  match d with
  | TimeoutDecorator d =>
      (Utils.BaseTimeoutDecoratorClass.wrapped d (fun _ => @Raise unit err)).2
  | TenacityDecorator d => (Tenacity.call d (fun _ => @Raise unit err)).2
  end.

(** The error each operation is retried on ([tenacity] retries on any). *)
Definition transient_error (op : retried_op) : exn :=
  match op with
  | op_check_file_exists | op_load_file | op_upload_file => TooManyRequests
  | op_embedding_api => APIError
  | op_get_async_request | op_get_sync_request => Timeout
  end.

(** How often a persistently failing operation is attempted. *)
Definition attempts (op : retried_op) : nat :=
  calls (failing_run (decorator_of op) (transient_error op)).

Definition fixed_wait (op : retried_op) : Q :=
  match decorator_of op with
  | TimeoutDecorator d => Utils.BaseTimeoutDecoratorClass.wait d
  | TenacityDecorator d => Tenacity.wait_fixed d
  end.

(** The configuration C5 gives for each kind of operation. *)
Definition stated_configuration (k : op_kind) : nat * Q :=
  match k with
  | StorageAccess => (20%nat, 2 # 10)
  | EmbeddingCall => (10%nat, 1%Q)
  | ProviderCall => (5%nat, 2%Q)
  end.

(** ** The vocabulary of the statements, and the inputs of the examples *)

Module BT := Utils.BaseTimeoutDecoratorClass.
Module CC := CityCache.

(** Invocation [j] of [func] raises an error that [except self.error]
    catches. *)
Definition fails_caught {V} (self : BT.t) (func : nat -> result V) (j : nat) : Prop :=
  exists err, func j = Raise err /\ catches (BT.error self) err = true.

(** A decorator with two retries around a function that fails twice. *)
Definition two_retries : BT.t :=
  BT.init 2 (1 # 5) [TooManyRequests].

Definition fails_twice (k : nat) : result Z :=
  if (k <? 2)%nat then Raise TooManyRequests else Ok 7.

(** The rest of a [for] loop whose generator is about to scan from [from]. *)
Definition iterate_from (fuel from : nat) (r : CC.run) : list CityTask * CC.run :=
  match CC.advance from r with
  | (r', None) => ([], r')
  | (r', Some city_info) =>
      let '(yielded, r'') := CC.iterate fuel r' in
      (city_info :: yielded, r'')
  end.

(** A checkpoint of two cities, neither of them processed. *)
Definition two_cities : list CityTask :=
  [mkCityTask "Paris" None "France" (4886 # 100) (235 # 100) "paris" false false;
   mkCityTask "Lyon" None "France" (4576 # 100) (484 # 100) "lyon" false false].

(** Where the scheduler starts the job, and where [config.py] lies. *)
Definition job_cwd : string := "/opt/airflow".
Definition job_base : string := "/opt/airflow/dags/src".

Definition job_files : FileSystem :=
  mkFileSystem job_cwd {[ CC.CACHE_FILEPATH job_base := two_cities ]}.

(** The item carries a type tag, equal or not to [tag]. *)
Definition tagged (tag : string) (item : json) : Prop :=
  exists t, getitem item "__typename" = Ok t /\ eq_str t tag = true.

Definition tagged_otherwise (tag : string) (item : json) : Prop :=
  exists t, getitem item "__typename" = Ok t /\ eq_str t tag = false.

Definition pagination : string := "WebPresentation_PaginationLinksList".

(** The sections of a page-0 listing response, as [get_max_attr] reads them. *)
Definition listing_sections (response : json) : result json :=
  x ← result0 response; getitem x "sections".

Definition location_kind : string := "Typeahead_LocationItem".

(** The coordinates of a candidate, read as [get_city_id] reads them. *)
Definition coordinates (item : json) : result (json * json) :=
  latitude ← (x ← getitem item "details"; getitem x "latitude");
  longitude ← (x ← getitem item "details"; getitem x "longitude");
  mret (latitude, longitude).

(** The results of an autocomplete response. *)
Definition autocomplete_results_of (response : json) : result (list json) :=
  x ← getindex response 0; x ← getitem x "data";
  x ← getitem x "Typeahead_autocomplete"; x ← getitem x "results"; iter x.

Section Candidates.
Context {L : PyLib}.
Variable self : Scraper.t.

(** The distance from the target city to a candidate. *)
Definition distance_to (item : json) : result Q :=
  c ← coordinates item;
  geodesic_km (Scraper.lat self) (Scraper.lng self) c.1 c.2.

Definition within_threshold (item : json) : Prop :=
  exists d, distance_to item = Ok d /\ (d < Config.MIN_DISTANCE)%Q.

Definition beyond_threshold (item : json) : Prop :=
  exists d, distance_to item = Ok d /\ ~ (d < Config.MIN_DISTANCE)%Q.

(** A coordinate field, or the [details] that hold them, is missing. *)
Definition missing_coordinates (item : json) : Prop :=
  coordinates item = Raise KeyError.

(** The candidates the resolver passes over: those of another kind, and the
    locations without coordinates or too far away. *)
Definition passed_over (item : json) : Prop :=
  tagged_otherwise location_kind item \/
  (tagged location_kind item /\
   (missing_coordinates item \/ beyond_threshold item)).

End Candidates.

(** ** Further vocabulary: the city cache *)

(** What a task is apart from its two flags. *)
Definition same_city (c c' : CityTask) : Prop :=
  city c' = city c /\ state c' = state c /\ country c' = country c /\
  lat c' = lat c /\ lng c' = lng c /\ namespace c' = namespace c.

(** A later version of a task: the same city, and still processed if it was. *)
Definition evolves (c c' : CityTask) : Prop :=
  same_city c c' /\ (processed c = true -> processed c' = true).

(** The state in which the generator resumes once the task [c], which comes
    after [pre] and before [suf], has been yielded and harvested. *)
Definition resumed (pre : list CityTask) (c : CityTask) (suf : list CityTask)
    (s : CC.t) (f : FileSystem) : CC.run :=
  let claimed_self := CC.mk (CC.cities_per_job s) (pre ++ claimed c :: suf)
                            (CC.num_processed s) in
  let completed_self := CC.mk (CC.cities_per_job s) (pre ++ completed c :: suf)
                              (CC.num_processed s) in
  CC.mkRun (CC.mk (CC.cities_per_job s) (pre ++ completed c :: suf)
                  (CC.num_processed s + 1))
           (CC.update_cache completed_self (CC.update_cache claimed_self f))
           (CC.Suspended (length pre)).

(** A checkpoint of three cities, none of them processed. *)
Definition three_cities : list CityTask :=
  two_cities
  ++ [mkCityTask "Nice" None "France" (4370 # 100) (727 # 100) "nice" false false].

(** A job that runs in the directory of [config.py]. *)
Definition home_files : FileSystem :=
  mkFileSystem job_base {[ CC.CACHE_FILEPATH job_base := two_cities ]}.

(** ** [airflow_dag.py] *)

Module AirflowDag.

(** What a run of [process_cities] leaves: the cache object and the files,
    the error files written, oldest first, each with the error it reports,
    and whether the job was asked to stop. *)
Record job : Type := mkJob {
  run : CityCache.run;
  error_log : list (string * exn);
  killed : bool
}.

Definition error_path (city_info : CityTask) : string :=
  "error_log/" +:+ namespace city_info +:+ ".txt".

Section ProcessCities.
(** The body of the [try] for one city: scraping, embedding, backup and
    upsert.  It does not touch the cache; what matters here is whether it
    raises. *)
Variable harvest : CityTask -> result unit.
(** [GCP_Client()]. *)
Variable gcp_client : result unit.

(** The [except] clause: the error file of the city, when its harvest raised. *)
Definition failure (city_info : CityTask) : option (string * exn) :=
  match harvest city_info with
  | Ok _ => None
  | Raise err => Some (error_path city_info, err)
  end.

(** [for city_info in cache: try: ... except Exception as err: ...]. *)
Fixpoint process_loop (fuel : nat) (r : CityCache.run) (log : list (string * exn))
  : CityCache.run * list (string * exn) :=
  match fuel with
  | O => (r, log)
  | S fuel' =>
      match CityCache.next r with
      | (r', None) => (r', log)
      | (r', Some city_info) =>
          match harvest city_info with
          | Ok _ => process_loop fuel' r' log
          | Raise err => process_loop fuel' r' (log ++ [(error_path city_info, err)])
          end
      end
  end.

Definition process_cities (BASE_FILEPATH : string) (fs : FileSystem) (fuel : nat)
  : result job :=
  cache ← CityCache.init BASE_FILEPATH Config.AIRFLOW_CITIES_PER_JOB fs;
  if CityCache.cache_complete cache then
    mret (mkJob (CityCache.mkRun cache fs CityCache.Created) [] true)
  else
    _ ← gcp_client;
    let '(r, log) := process_loop fuel (CityCache.mkRun cache fs CityCache.Created) [] in
    mret (mkJob r log false).

End ProcessCities.
End AirflowDag.

(** A harvest that fails for every city. *)
Definition failing_harvest (city_info : CityTask) : result unit := Raise Timeout.

(** ** [openai_embedding.py] and [pinecone_db.py] *)

(** [str] values among the JSON values, and [sep.join(items)]. *)
Definition str_of (x : json) : result string :=
  match x with
  | JStr s => Ok s
  | _ => Raise TypeError
  end.

Definition str_join (sep : string) (items : list string) : string :=
  match items with
  | [] => EmptyString
  | first :: rest => foldl (fun acc item => acc +:+ sep +:+ item) first rest
  end.

(** [sep.join(x)] for a value [x] that may not be a list of strings. *)
Definition join_json (sep : string) (x : json) : result string :=
  items ← iter x;
  items ← mapM str_of items;
  mret (str_join sep items).

(** [d[key] = value] on the items of a dictionary: the value of an existing
    key is replaced in place, a new key goes to the end. *)
Fixpoint assoc_set {V} (key : string) (value : V) (d : list (string * V))
  : list (string * V) :=
  match d with
  | [] => [(key, value)]
  | (k, v) :: d' =>
      if bool_decide (k = key) then (k, value) :: d'
      else (k, v) :: assoc_set key value d'
  end.

(** [x[key] = value]. *)
Definition setitem (x : json) (key : string) (value : json) : result json :=
  match x with
  | JDict d => Ok (JDict (assoc_set key value d))
  | _ => Raise TypeError
  end.

Module Embedding.

(** The prompt of one record. *)
Definition prompt_of (attr : json) : result string :=
  name ← getitem attr "name";
  type ← getitem attr "type";
  description ← getitem attr "description";
  tags ← (x ← getitem attr "tags"; join_json ", " x);
  parts ← mapM str_of [name; type; description];
  mret (str_join " " (parts ++ [tags])).

Definition construct_text_embedding_prompt (data : list json) : result (list string) :=
  mapM prompt_of data.

Section WithApi.
(** [embedding_api], the decorated call to the embedding service: the
    [data] of its response for a batch of prompts. *)
Variable embedding_api : list string -> result (list json).

(** The loop of [get_text_embeddings], with the batches sent so far. *)
Fixpoint embeddings_loop (batches : list (list string)) (embeddings : list json)
    (sent : list (list string)) : result (list json) * list (list string) :=
  match batches with
  | [] => (Ok embeddings, sent)
  | prompt_batch :: rest =>
      match embedding_api prompt_batch with
      | Ok answer => embeddings_loop rest (embeddings ++ answer) (sent ++ [prompt_batch])
      | Raise err => (Raise err, sent ++ [prompt_batch])
      end
  end.

Definition get_text_embeddings (data : list json)
  : result (list json) * list (list string) :=
  match construct_text_embedding_prompt data with
  | Raise err => (Raise err, [])
  | Ok prompts =>
      match Utils.batch_data prompts Config.OPENAI_EMBEDDING_BATCH with
      | Raise err => (Raise err, [])
      | Ok batches => embeddings_loop batches [] []
      end
  end.

End WithApi.
End Embedding.

Module PineconeDb.
Section WithUuid.
(** [uuid.uuid4().hex] at its call number [k], the first being number 0. *)
Variable uuid4_hex : nat -> string.

(** The loop of [create_pinecone_data] from index [idx] on. *)
Fixpoint pinecone_loop (idx : nat) (metadata_list : list json) (embedding_list : json)
    (pinecone_data : list json) : result (list json) :=
  match metadata_list with
  | [] => Ok pinecone_data
  | metadata :: rest =>
      let attr_id := JStr (uuid4_hex idx) in
      metadata ← setitem metadata "id" attr_id;
      values ← (x ← getindex embedding_list (Z.of_nat idx); getitem x "embedding");
      pinecone_loop (S idx) rest embedding_list
        (pinecone_data
         ++ [JDict [("id", attr_id); ("metadata", metadata); ("values", values)]])
  end.

Definition create_pinecone_data (metadata_list : list json) (embedding_list : json)
  : result (list json) :=
  pinecone_loop 0 metadata_list embedding_list [].

End WithUuid.
End PineconeDb.

(** What an entry of the index must be, for the record and the vector at
    position [i]: its id is the identifier drawn at that position, its
    metadata is the record with that id written into it, and its values are
    the [embedding] of the vector. *)
Definition entry_for (uuid4_hex : nat -> string) (i : nat)
    (metadata embedding_list e : json) : Prop :=
  getitem e "id" = Ok (JStr (uuid4_hex i)) /\
  (m ← getitem e "metadata"; getitem m "id") = Ok (JStr (uuid4_hex i)) /\
  getitem e "metadata" = setitem metadata "id" (JStr (uuid4_hex i)) /\
  getitem e "values" = (x ← getindex embedding_list (Z.of_nat i); getitem x "embedding").

(** An embedding service that answers each prompt by itself. *)
Definition echo_api (prompts : list string) : result (list json) :=
  Ok (map (fun prompt => JDict [("embedding", JStr prompt)]) prompts).

Definition counter_uuid (k : nat) : string :=
  match k with
  | O => "id-0"
  | S O => "id-1"
  | _ => "id-n"
  end.

(** A record as the scraper returns it, cut down to the fields of a prompt. *)
Definition louvre_record : json :=
  JDict [("tripadvisor_id", JInt 1); ("name", JStr "Louvre"); ("type", JStr "Museum");
         ("description", JStr "Art"); ("tags", JList [JStr "Art"; JStr "History"])].

(** ** Further vocabulary: the response parsers *)

Definition card_kind : string := "WebPresentation_SingleFlexCardSection".

(** The entry [parse_attr_ids_response] builds from a card section. *)
Definition card_fields (item : json) : result json :=
  card ← getitem item "singleFlexCardContent";
  id ← (x ← getitem card "saveId"; getitem x "id");
  card ← getitem item "singleFlexCardContent";
  name ← (x ← getitem card "cardTitle"; getitem x "text");
  mret (JDict [("id", id); ("name", name)]).

(** A section that is no card, or a card with its id and its title. *)
Definition well_formed_section (item : json) : Prop :=
  tagged_otherwise card_kind item \/
  (tagged card_kind item /\ exists entry, card_fields item = Ok entry).

(** What a well-formed section adds to the list of ids. *)
Definition entry_of (item : json) : option json :=
  match getitem item "__typename" with
  | Ok typename =>
      if eq_str typename card_kind then
        match card_fields item with
        | Ok entry => Some entry
        | Raise _ => None
        end
      else None
  | Raise _ => None
  end.

(** The sections of a listing page and the content list of a detail
    payload, as the parsers read them. *)
Definition page_sections (data : json) : result (list json) :=
  sections ← (x ← result0 data; getitem x "sections");
  iter sections.

Definition activity_content (data : json) : result (list json) :=
  items ← (x ← ResponseParsers.detail_section_groups data; x ← getindex x 1;
           x ← getitem x "about"; x ← getitem x "primary"; getitem x "content");
  iter items.

(** An entry of the content list that gives the duration as [text]. *)
Definition is_duration_entry (item text : json) : Prop :=
  tagged "WebPresentation_AboutContentWeb" item /\
  (exists identifier, getitem item "identifier" = Ok identifier /\
                      eq_str identifier "DURATION" = true) /\
  (x ← getitem item "item"; x ← getitem x "text"; getitem x "text") = Ok text.

Definition about_kind : string := "WebPresentation_AttractionAboutSectionGroup".

Definition is_dict (x : json) : Prop :=
  match x with
  | JDict _ => True
  | _ => False
  end.

(** A duration entry, and a payload whose content list is [content]. *)
Definition duration_entry (text : string) : json :=
  JDict [("__typename", JStr "WebPresentation_AboutContentWeb");
         ("identifier", JStr "DURATION");
         ("item", JDict [("text", JDict [("text", JStr text)])])].

Definition payload_with_content (content : list json) : json :=
  detail_payload
    [("detailSectionGroups",
      JList [overview_group;
             JDict [("__typename", JStr "WebPresentation_AttractionAboutSectionGroup");
                    ("about", JDict [("primary", JDict [("about", garden_blob);
                                                        ("content", JList content)])])]])].

(** A card section without its [saveId]. *)
Definition broken_card : json :=
  JDict [("__typename", JStr "WebPresentation_SingleFlexCardSection");
         ("singleFlexCardContent", JDict [("cardTitle", JDict [("text", JStr "Louvre")])])].

Definition pagination_section (total : Z) : json :=
  JDict [("__typename", JStr "WebPresentation_PaginationLinksList");
         ("totalResults", JInt total)].

(** A listing page with the given sections. *)
Definition page_of (sections : list json) : json :=
  envelope "Result" (JList [JDict [("sections", JList sections)]]).

Section Groups.
Context {L : PyLib}.

(** A section group that [parse_business_description] passes over: it is
    of another kind, or its description cannot be read or decoded. *)
Definition passed_group (group : json) : Prop :=
  tagged_otherwise about_kind group \/
  (tagged about_kind group /\
   raises (ResponseParsers.description_of_item group) = true).

End Groups.

(** The section groups of a detail payload. *)
Definition section_groups (data : json) : result (list json) :=
  groups ← ResponseParsers.detail_section_groups data;
  iter groups.

(** A payload with two about-section groups, the first one with a blob that
    is no base64 text of a whole number of bytes. *)
Definition payload_two_abouts : json :=
  detail_payload
    [("detailSectionGroups", JList [about_group (JStr "abcde"); about_group garden_blob])].

(** ** [TripAdvisorScraper.__init__] *)

(** The number a value stands for in arithmetic and comparisons, a [bool]
    counting as 0 or 1. *)
Definition numeric (x : json) : result Q :=
  match x with
  | JInt n => Ok (inject_Z n)
  | JFloat q => Ok q
  | JBool b => Ok (if b then 1 else 0)%Q
  | _ => Raise TypeError
  end.

(** [min(a, cap)] for an integer [cap]: [cap] when it is smaller, and [a]
    itself otherwise. *)
Definition min_with_cap (a : json) (cap : Z) : result json :=
  q ← numeric a;
  mret (if Qltb (inject_Z cap) q then JInt cap else a).

(** [x / 30]: the binary64 number nearest to the quotient; the quotient of
    an integer too large for a float raises. *)
Definition true_div_30 (x : json) : result float64 :=
  match x with
  | JInt n =>
      match round64 (inject_Z n / 30) with
      | Infinite => Raise OverflowError
      | y => Ok y
      end
  | JBool b => Ok (round64 ((if b then 1 else 0) / 30))
  | JFloat q => Ok (round64 (q / 30))
  | _ => Raise TypeError
  end.

(** [math.ceil(x / 30)]. *)
Definition ceil_div_30 (x : json) : result Z :=
  y ← true_div_30 x;
  math_ceil y.

Module ScraperInit.

(** The attributes [__init__] computes from the answers of the provider. *)
Record attrs : Type := mkAttrs {
  city_id : json;
  max_attr : json;
  max_pages : Z
}.

(** The object while [__init__] runs: the fields of the city are set, the
    others are not read yet. *)
Definition started (city_info : CityTask) (city_id : json) : Scraper.t :=
  Scraper.mk (city city_info) (default EmptyString (state city_info)) (country city_info)
             (JFloat (lat city_info)) (JFloat (lng city_info)) city_id 0 0 None.

Section WithProvider.
Context {L : PyLib} {P : Provider}.

Definition init (city_info : CityTask) (max_attr : option Z) : result attrs :=
  city_id ← Scraper.get_city_id (started city_info JNull);
  found ← Scraper.get_max_attr (started city_info city_id);
  capped ← match max_attr with
           | Some cap => min_with_cap found cap
           | None => Ok found
           end;
  pages ← ceil_div_30 capped;
  mret (mkAttrs city_id capped pages).

End WithProvider.

(** The object [__init__] leaves when [max_attr] is the integer [n]. *)
Definition constructed (city_info : CityTask) (a : attrs) (n : Z) : Scraper.t :=
  Scraper.mk (city city_info) (default EmptyString (state city_info)) (country city_info)
             (JFloat (lat city_info)) (JFloat (lng city_info))
             (city_id a) n (max_pages a) None.

End ScraperInit.

(** A provider whose autocomplete answer is [null_details_answer]. *)
Definition null_details_provider : Provider := {|
  get_sync_request := fun _ => Ok null_details_answer;
  get_async_request := fun _ => Ok null_details_answer
|}.

(** The task of Paris, at latitude 48 on the meridian of the candidates. *)
Definition paris_task : CityTask :=
  mkCityTask "Paris" None "France" 48 2 "paris" false false.

(** A provider that knows no location, and one whose listing counts 97
    attractions. *)
Definition nowhere_answer (r : request) : result json :=
  match r with
  | CityIdRequest _ =>
      Ok (envelope "Typeahead_autocomplete" (JDict [("results", JList [])]))
  | _ => Ok listing_page
  end.

Definition nowhere_provider : Provider := {|
  get_sync_request := nowhere_answer;
  get_async_request := nowhere_answer
|}.

Definition counted_answer (r : request) : result json :=
  match r with
  | CityIdRequest _ => Ok autocomplete_answer
  | AttrIdRequest _ _ => Ok (page_of [card_section; pagination_section 97])
  | AttrDetailRequest _ => Ok payload_complete
  end.

Definition counted_provider : Provider := {|
  get_sync_request := counted_answer;
  get_async_request := counted_answer
|}.

(** ** Further vocabulary: the requests of the scraper *)

(** The listing requests of [get_attr_ids]: one for each page, in order. *)
Definition listing_requests (self : Scraper.t) : list request :=
  map (fun page => AttrIdRequest (Scraper.city_id self) (page * 30))
      (py_range1 (Scraper.max_pages self)).

(** The ids of the entries the detail requests are made for. *)
Definition requested_ids (self : Scraper.t) (ids : list json) : result (list json) :=
  mapM (fun attr_id => getitem attr_id "id")
       (take (Z.to_nat (Scraper.max_attr self)) ids).

(** A scraper for Paris with three pages to fetch, and one with none. *)
Definition paris_pages (pages : Z) : Scraper.t :=
  Scraper.mk "Paris" "" "France" (JFloat 48) (JFloat 2) (JInt 187147) 30 pages None.

(** A scraper whose ids are set, which asks for at most two details. *)
Definition paris_two_details : Scraper.t :=
  Scraper.mk "Paris" "" "France" (JFloat 48) (JFloat 2) (JInt 187147) 2 1 (Some three_ids).

(** ** [GCP_Client.upload_file] *)

Module GcpUpload.

(** What one invocation of the body of [upload_file] did to the bucket: the
    log of its decorated call to [check_file_exists], and how many times it
    called [upload_from_string]. *)
Record BodyLog : Type := mkBodyLog {
  checks : RetryLog;
  uploads : nat
}.

(** [assert not x] fails when [x] is true; what the decorated check returns
    when its loop ends without a [return] is [None], which passes. *)
Definition truthy (x : option bool) : bool := default false x.

Section Bucket.
(** The bucket as the methods see it: [blob_exists k j] is the outcome of
    the call number [j] to [blob.exists()] made during the invocation number
    [k] of the body of [upload_file], [dumps] that of [json.dumps(data)] and
    [upload_from_string k] that of the upload in invocation [k]. *)
Variable blob_exists : nat -> nat -> result bool.
Variable dumps : result unit.
Variable upload_from_string : nat -> result unit.

Definition check_file_exists (k : nat) : result (option bool) * RetryLog :=
  BT.wrapped GcpClient.check_file_exists_decorator (blob_exists k).

(** The body from [json.dumps] on. *)
Definition upload_tail (k : nat) (checks : RetryLog) : result unit * BodyLog :=
  match dumps with
  | Raise err => (Raise err, mkBodyLog checks 0)
  | Ok _ => (upload_from_string k, mkBodyLog checks 1)
  end.

Definition body (overwrite : bool) (k : nat) : result unit * BodyLog :=
  if overwrite then upload_tail k {| calls := 0; slept := [] |}
  else
    match check_file_exists k with
    | (Ok found, checks) =>
        if truthy found then (Raise AssertionError, mkBodyLog checks 0)
        else upload_tail k checks
    | (Raise err, checks) => (Raise err, mkBodyLog checks 0)
    end.

(** The decorated method: its log counts the invocations of the body and
    holds the sleeps of its own decorator. *)
Definition upload_file (overwrite : bool) : result (option unit) * RetryLog :=
  BT.wrapped GcpClient.upload_file_decorator (fun k => (body overwrite k).1).

(** The logs of the invocations of the body that a run made, in order. *)
Definition body_logs (overwrite : bool) : list BodyLog :=
  map (fun k => (body overwrite k).2) (seq 0 (calls (upload_file overwrite).2)).

(** The calls to [blob.exists()] and to [upload_from_string] of a run. *)
Definition exists_calls (overwrite : bool) : nat :=
  sum_list (map (fun b => calls (checks b)) (body_logs overwrite)).

Definition upload_calls (overwrite : bool) : nat :=
  sum_list (map uploads (body_logs overwrite)).

End Bucket.
End GcpUpload.

(** A bucket that answers every call with [TooManyRequests], and one in
    which the file exists. *)
Definition throttled_bucket (k j : nat) : result bool := Raise TooManyRequests.

Definition bucket_with_file (k j : nat) : result bool := Ok true.

(** ** [pinecone_upsert_data] *)

Module PineconeUpsert.
Section WithIndex.
(** [pinecone_index.upsert(batch, namespace=namespace)] on the index of the
    configuration, the client being initialised. *)
Variable upsert : list json -> result unit.

(** The loop of [pinecone_upsert_data], with the batches handed to the
    index so far. *)
Fixpoint upsert_loop (batches : list (list json)) (sent : list (list json))
  : result unit * list (list json) :=
  match batches with
  | [] => (Ok tt, sent)
  | pinecone_batch :: rest =>
      match upsert pinecone_batch with
      | Ok _ => upsert_loop rest (sent ++ [pinecone_batch])
      | Raise err => (Raise err, sent ++ [pinecone_batch])
      end
  end.

Definition pinecone_upsert_data (pinecone_data : list json)
  : result unit * list (list json) :=
  match Utils.batch_data pinecone_data Config.PINECONE_UPSERT_BATCH with
  | Raise err => (Raise err, [])
  | Ok batches => upsert_loop batches []
  end.

End WithIndex.
End PineconeUpsert.

(** * Properties *)

(** ** [batch_data] *)

Example batch_data_7_3 :
  Utils.batch_data [1; 2; 3; 4; 5; 6; 7] 3 = Ok [[1; 2; 3]; [4; 5; 6]; [7]].
Proof. reflexivity. Qed.

Example batch_data_step_0 : Utils.batch_data [1; 2] 0 = Raise ValueError.
Proof. reflexivity. Qed.

Section BatchData.
Context {A : Type}.
Implicit Types (xs : list A) (n k m : nat).

Lemma py_slice_chunk xs n k :
  (k * n < length xs)%nat ->
  py_slice xs (Z.of_nat (k * n)) (Z.of_nat (k * n) + Z.of_nat n)
  = take n (drop (k * n) xs).
Proof.
  intros Hlt. unfold py_slice, clamp_index.
  destruct (Z.ltb_spec (Z.of_nat (k * n)) 0); [lia|].
  destruct (Z.ltb_spec (Z.of_nat (k * n) + Z.of_nat n) 0); [lia|].
  replace (Z.to_nat (Z.min (Z.of_nat (k * n)) (Z.of_nat (length xs))))
    with (k * n)%nat by lia.
  destruct (Nat.le_gt_cases (k * n + n) (length xs)) as [Hle|Hgt].
  - f_equal. lia.
  - rewrite !take_ge; [done| |]; rewrite length_drop; lia.
Qed.

Lemma chunks_concat xs n m : concat (chunks xs n m) = take (m * n) xs.
Proof.
  unfold chunks. induction m as [|m IH].
  - by rewrite take_0.
  - rewrite seq_S, map_app, concat_app, IH. cbn [map concat Nat.add].
    rewrite app_nil_r.
    replace (S m * n)%nat with (m * n + n)%nat by lia.
    by rewrite take_take_drop.
Qed.

Lemma chunks_lookup xs n m i b :
  chunks xs n m !! i = Some b -> (i < m)%nat /\ b = take n (drop (i * n) xs).
Proof.
  unfold chunks. rewrite list_lookup_fmap. intros H.
  destruct (seq 0 m !! i) as [k|] eqn:Hk; [|done].
  apply lookup_seq in Hk as [-> ?]. cbn in H. by inversion H.
Qed.

Lemma batch_count_bounds xs n :
  (0 < n)%nat ->
  (length xs <= batch_count xs n * n)%nat /\
  (batch_count xs n * n < length xs + n)%nat.
Proof.
  intros Hn. unfold batch_count.
  destruct (Z.ltb_spec 0 (Z.of_nat (length xs))); [|lia].
  set (len := Z.of_nat (length xs)) in *. set (z := Z.of_nat n).
  assert (Hz : 0 < z) by lia.
  pose proof (Z.div_mod (len - 0 + z - 1) z ltac:(lia)) as Hdm.
  pose proof (Z.mod_pos_bound (len - 0 + z - 1) z Hz) as Hmod.
  assert (0 <= (len - 0 + z - 1) / z) by (apply Z.div_pos; lia).
  nia.
Qed.

Lemma batch_data_chunks xs n :
  (0 < n)%nat ->
  Utils.batch_data xs (Z.of_nat n) = Ok (chunks xs n (batch_count xs n)).
Proof.
  intros Hn. pose proof (batch_count_bounds xs n Hn) as [_ Hub].
  unfold Utils.batch_data, py_range.
  destruct (Z.eqb_spec (Z.of_nat n) 0); [lia|].
  destruct (Z.ltb_spec 0 (Z.of_nat n)); [|lia].
  cbn. f_equal. unfold chunks, batch_count in *.
  rewrite map_map. apply map_ext_in. intros k Hk.
  apply in_seq in Hk. rewrite Z.add_0_l, <- Nat2Z.inj_mul.
  apply py_slice_chunk. nia.
Qed.
End BatchData.

(** C9: for a batch size of at least one, the batches of [batch_data]
    concatenate to the input, none is empty, every batch but the last has
    exactly [n] elements, and the empty list has no batch. *)
Theorem batch_data_partition {A} (xs : list A) (n : Z) :
  1 <= n ->
  exists bs,
    Utils.batch_data xs n = Ok bs /\
    concat bs = xs /\
    (forall i b, bs !! i = Some b ->
       b <> [] /\ ((S i < length bs)%nat -> Z.of_nat (length b) = n)) /\
    (xs = [] -> bs = []).
Proof.
  intros Hn. set (k := Z.to_nat n).
  assert (Hk : (0 < k)%nat) by lia.
  replace n with (Z.of_nat k) by lia.
  pose proof (batch_count_bounds xs k Hk) as [Hlb Hub].
  exists (chunks xs k (batch_count xs k)). split; [by apply batch_data_chunks|].
  split; [rewrite chunks_concat; by apply take_ge|]. split.
  - intros i b Hb. apply chunks_lookup in Hb as [Hi ->]. split.
    + intros Hnil. apply (f_equal length) in Hnil.
      rewrite length_take, length_drop in Hnil. cbn in Hnil. nia.
    + unfold chunks. rewrite length_map, length_seq. intros Hlast.
      rewrite length_take, length_drop. nia.
  - intros ->. reflexivity.
Qed.

Lemma batch_data_partition_witness :
  1 <= 3 /\
  exists bs,
    Utils.batch_data [1; 2; 3; 4; 5; 6; 7] 3 = Ok bs /\
    concat bs = [1; 2; 3; 4; 5; 6; 7] /\
    (forall i b, bs !! i = Some b ->
       b <> [] /\ ((S i < length bs)%nat -> Z.of_nat (length b) = 3)) /\
    ([1; 2; 3; 4; 5; 6; 7] = [] -> bs = []).
Proof. split; [lia | apply (batch_data_partition [1; 2; 3; 4; 5; 6; 7] 3); lia]. Defined.

(** ** The retry decorator *)

Section RetryLoop.
Context {V : Type}.
Variable self : BT.t.
Variable func : nat -> result V.

(** [k] caught failures in a row, none of them at the last index, cost [k]
    invocations and [k] sleeps and leave the rest of the loop to run. *)
Lemma wrapped_loop_caught_prefix k : forall a m log,
  (forall j, (j < k)%nat -> fails_caught self func (calls log + j)) ->
  Z.of_nat (a + k) <= BT.retries self ->
  BT.wrapped_loop self func (map Z.of_nat (seq a (k + m))) log
  = BT.wrapped_loop self func (map Z.of_nat (seq (a + k) m))
      {| calls := calls log + k;
         slept := slept log ++ repeat (BT.wait self) k |}.
Proof.
  induction k as [|k IH]; intros a m log Hfail Hle.
  - cbn [Nat.add repeat]. rewrite !Nat.add_0_r, app_nil_r. by destruct log.
  - cbn [Nat.add seq map BT.wrapped_loop].
    destruct (Hfail 0%nat ltac:(lia)) as (err & Herr & Hcatch).
    rewrite Nat.add_0_r in Herr. rewrite Herr, Hcatch.
    destruct (Z.eqb_spec (Z.of_nat a) (BT.retries self)); [lia|].
    rewrite IH.
    + cbn [calls slept time_sleep called].
      replace (S a + k)%nat with (a + S k)%nat by lia.
      replace (S (calls log) + k)%nat with (calls log + S k)%nat by lia.
      by rewrite <- app_assoc.
    + intros j Hj. cbn [calls time_sleep called].
      replace (S (calls log) + j)%nat with (calls log + S j)%nat by lia.
      apply Hfail. lia.
    + lia.
Qed.

Lemma wrapped_after_caught_prefix k :
  (forall j, (j < k)%nat -> fails_caught self func j) ->
  Z.of_nat k <= BT.retries self ->
  BT.wrapped self func
  = BT.wrapped_loop self func
      (map Z.of_nat (seq k (S (Z.to_nat (BT.retries self)) - k)))
      {| calls := k; slept := repeat (BT.wait self) k |}.
Proof.
  intros Hfail Hle. unfold BT.wrapped, py_range1.
  replace (Z.to_nat (BT.retries self + 1))
    with (k + (S (Z.to_nat (BT.retries self)) - k))%nat by lia.
  rewrite wrapped_loop_caught_prefix; [done| |lia].
  intros j Hj. by apply Hfail.
Qed.
End RetryLoop.




(** ** The retry configurations *)

(** C5, as the code has it: there are four configurations, not three.  The
    storage reads are attempted 21 times and the upload 101 times, 0.2 s
    apart; the embedding call 11 times, 1 s apart; the provider calls 5
    times, 2 s apart. *)
Theorem retry_configurations :
  map (fun op => (op, attempts op, fixed_wait op)) retried_ops
  = [(op_check_file_exists, 21%nat, 2 # 10); (op_load_file, 21%nat, 2 # 10);
     (op_upload_file, 101%nat, 2 # 10); (op_embedding_api, 11%nat, 1%Q);
     (op_get_async_request, 5%nat, 2%Q); (op_get_sync_request, 5%nat, 2%Q)]
  /\ length (remove_dups (map decorator_of retried_ops)) = 4%nat.
Proof. split; vm_compute; reflexivity. Qed.

(** C5 as stated fails: the upload is a storage access, and it is attempted
    101 times where the claim says 20. *)
Lemma retry_configurations_counterexample :
  kind_of op_upload_file = StorageAccess /\
  attempts op_upload_file = 101%nat /\
  (attempts op_upload_file, fixed_wait op_upload_file)
  <> stated_configuration (kind_of op_upload_file).
Proof. vm_compute. repeat split. discriminate. Qed.

(** ** The city cache: one pass of the generator *)

Section CachePass.
Implicit Types (pre suf : list CityTask) (s : CC.t) (f : FileSystem).

Lemma pass_iterate_from fuel s f :
  CC.pass (S fuel) s f = iterate_from fuel 0 (CC.mkRun s f CC.Created).
Proof. reflexivity. Qed.

Lemma complete_first_0 l : complete_first 0 l = l.
Proof. by destruct l. Qed.

Lemma alter_middle (g : CityTask -> CityTask) pre c suf :
  alter g (length pre) (pre ++ c :: suf) = pre ++ g c :: suf.
Proof.
  replace (length pre) with (length pre + 0)%nat by lia.
  by rewrite alter_app_r.
Qed.

Lemma advance_skip pre c suf s f g g' :
  CC.cache s = pre ++ c :: suf -> processed c = true ->
  CC.advance (length pre) (CC.mkRun s f g)
  = CC.advance (length (pre ++ [c])) (CC.mkRun s f g').
Proof.
  intros Hc Hp. unfold CC.advance. cbn [CC.self CC.fs]. rewrite Hc.
  rewrite drop_app_length.
  replace (pre ++ c :: suf) with ((pre ++ [c]) ++ suf) by by rewrite <- app_assoc.
  rewrite drop_app_length. cbn [CC.next_unprocessed]. rewrite Hp.
  rewrite length_app. cbn [length]. by rewrite Nat.add_1_r.
Qed.

Lemma advance_yield pre c suf s f g :
  CC.cache s = pre ++ c :: suf -> processed c = false ->
  CC.advance (length pre) (CC.mkRun s f g)
  = (let self' := CC.mk (CC.cities_per_job s) (pre ++ claimed c :: suf)
                        (CC.num_processed s) in
     CC.mkRun self' (CC.update_cache self' f) (CC.Suspended (length pre)),
     Some (claimed c)).
Proof.
  intros Hc Hp. unfold CC.advance. cbn [CC.self CC.fs]. rewrite Hc.
  rewrite drop_app_length. cbn [CC.next_unprocessed]. rewrite Hp.
  rewrite !alter_middle. cbn zeta. f_equal.
  by rewrite list_lookup_middle.
Qed.

Lemma advance_end pre s f g :
  CC.cache s = pre ->
  CC.advance (length pre) (CC.mkRun s f g) = (CC.mkRun s f CC.Finished, None).
Proof.
  intros Hc. unfold CC.advance. cbn [CC.self CC.fs]. rewrite Hc.
  by rewrite drop_all.
Qed.

(** With [n >= 1] tasks still allowed, the loop yields the first [n]
    unprocessed tasks that are left, completes them, and finishes. *)
Lemma iterate_from_limited suf : forall pre s f g fuel n,
  CC.cache s = pre ++ suf ->
  (1 <= n)%nat ->
  CC.cities_per_job s = CC.num_processed s + Z.of_nat n ->
  (length suf <= fuel)%nat ->
  exists r',
    iterate_from fuel (length pre) (CC.mkRun s f g)
    = (map claimed (take n (unprocessed suf)), r') /\
    CC.cache (CC.self r') = pre ++ complete_first n suf /\
    CC.gen r' = CC.Finished.
Proof.
  induction suf as [|c suf IH]; intros pre s f g fuel n Hc Hn HB Hfuel.
  - rewrite app_nil_r in Hc. unfold iterate_from.
    rewrite (advance_end pre) by done.
    eexists. split; [by destruct n|]. cbn.
    split; [|done]. destruct n; by rewrite Hc, app_nil_r.
  - destruct (processed c) eqn:Hp.
    + unfold iterate_from. rewrite (advance_skip pre c suf s f g g) by done.
      destruct (IH (pre ++ [c]) s f g fuel n) as (r' & Hrun & Hcache & Hgen);
        [by rewrite <- app_assoc|done|done|cbn in Hfuel; lia|].
      unfold iterate_from in Hrun. exists r'. split; [|split; [|done]].
      * rewrite Hrun. unfold unprocessed. rewrite filter_cons_False; [done|].
        by rewrite Hp.
      * rewrite Hcache, <- app_assoc. destruct n; [lia|].
        cbn [complete_first app]. by rewrite Hp.
    + unfold iterate_from. rewrite (advance_yield pre c suf s f g) by done.
      cbn zeta. destruct fuel as [|fuel]; [cbn in Hfuel; lia|].
      cbn [CC.iterate CC.next CC.gen CC.self CC.fs CC.cache CC.cities_per_job
           CC.num_processed].
      rewrite alter_middle.
      assert (Hunp : unprocessed (c :: suf) = c :: unprocessed suf).
      { unfold unprocessed. by rewrite filter_cons_True. }
      destruct (Z.eqb_spec (CC.num_processed s + 1) (CC.cities_per_job s)) as [Heq|Hne].
      * assert (n = 1%nat) as -> by lia.
        eexists. split; [rewrite Hunp; reflexivity|].
        split; [|done]. cbn. by rewrite Hp, complete_first_0.
      * destruct n as [|n]; [lia|].
        match goal with
        | |- context [CC.advance (S (length pre)) ?r] =>
            destruct (IH (pre ++ [set_success true (claimed c)])
                        (CC.self r) (CC.fs r) (CC.gen r) fuel n)
              as (r' & Hrun & Hcache & Hgen)
        end.
        -- cbn. by rewrite <- app_assoc.
        -- lia.
        -- cbn. lia.
        -- cbn in Hfuel. lia.
        -- unfold iterate_from in Hrun. rewrite length_app in Hrun.
           cbn [length] in Hrun. rewrite Nat.add_1_r in Hrun.
           cbn [CC.self CC.fs CC.gen] in Hrun.
           destruct (CC.advance _ _) as [r1 [y|]] eqn:Hadv.
           ++ destruct (CC.iterate fuel r1) as [ys r2] eqn:Hit.
              exists r'. inversion Hrun; subst.
              split; [|split; [|done]].
              ** rewrite Hunp. cbn [take map]. by rewrite H0.
              ** rewrite Hcache, <- app_assoc. cbn [complete_first app].
                 by rewrite Hp.
           ++ exists r'. inversion Hrun; subst.
              split; [|split; [|done]].
              ** rewrite Hunp. cbn [take map]. by rewrite <- H0.
              ** rewrite Hcache, <- app_assoc. cbn [complete_first app].
                 by rewrite Hp.
Qed.
End CachePass.

Section CachePassUnlimited.
Implicit Types (pre suf : list CityTask) (s : CC.t) (f : FileSystem).

(** Once the counter is at or past the limit, the test [num_processed ==
    cities_per_job] is never true again: the loop yields and completes
    every unprocessed task that is left. *)
Lemma iterate_from_unlimited suf : forall pre s f g fuel,
  CC.cache s = pre ++ suf ->
  CC.cities_per_job s <= CC.num_processed s ->
  (length suf <= fuel)%nat ->
  exists r',
    iterate_from fuel (length pre) (CC.mkRun s f g)
    = (map claimed (unprocessed suf), r') /\
    CC.cache (CC.self r') = pre ++ complete_all suf /\
    CC.gen r' = CC.Finished.
Proof.
  induction suf as [|c suf IH]; intros pre s f g fuel Hc HB Hfuel.
  - rewrite app_nil_r in Hc. unfold iterate_from.
    rewrite (advance_end pre) by done.
    eexists. split; [reflexivity|]. cbn. by rewrite Hc, app_nil_r.
  - destruct (processed c) eqn:Hp.
    + unfold iterate_from. rewrite (advance_skip pre c suf s f g g) by done.
      destruct (IH (pre ++ [c]) s f g fuel) as (r' & Hrun & Hcache & Hgen);
        [by rewrite <- app_assoc|done|cbn in Hfuel; lia|].
      unfold iterate_from in Hrun. exists r'. split; [|split; [|done]].
      * rewrite Hrun. unfold unprocessed. rewrite filter_cons_False; [done|].
        by rewrite Hp.
      * rewrite Hcache, <- app_assoc. unfold complete_all.
        cbn [map app]. by rewrite Hp.
    + unfold iterate_from. rewrite (advance_yield pre c suf s f g) by done.
      cbn zeta. destruct fuel as [|fuel]; [cbn in Hfuel; lia|].
      cbn [CC.iterate CC.next CC.gen CC.self CC.fs CC.cache CC.cities_per_job
           CC.num_processed].
      rewrite alter_middle.
      assert (Hunp : unprocessed (c :: suf) = c :: unprocessed suf).
      { unfold unprocessed. by rewrite filter_cons_True. }
      destruct (Z.eqb_spec (CC.num_processed s + 1) (CC.cities_per_job s)) as [Heq|Hne];
        [lia|].
      match goal with
      | |- context [CC.advance (S (length pre)) ?r] =>
          destruct (IH (pre ++ [set_success true (claimed c)])
                      (CC.self r) (CC.fs r) (CC.gen r) fuel)
            as (r' & Hrun & Hcache & Hgen)
      end.
      * cbn. by rewrite <- app_assoc.
      * cbn. lia.
      * cbn in Hfuel. lia.
      * unfold iterate_from in Hrun. rewrite length_app in Hrun.
        cbn [length] in Hrun. rewrite Nat.add_1_r in Hrun.
        cbn [CC.self CC.fs CC.gen] in Hrun.
        assert (Hall : complete_all (c :: suf) = completed c :: complete_all suf).
        { unfold complete_all. cbn [map]. by rewrite Hp. }
        destruct (CC.advance _ _) as [r1 [y|]] eqn:Hadv.
        -- destruct (CC.iterate fuel r1) as [ys r2] eqn:Hit.
           exists r'. inversion Hrun; subst.
           split; [|split; [|done]].
           ++ rewrite Hunp. cbn [map]. by rewrite H0.
           ++ by rewrite Hcache, <- app_assoc, Hall.
        -- exists r'. inversion Hrun; subst.
           split; [|split; [|done]].
           ++ rewrite Hunp. cbn [map]. by rewrite <- H0.
           ++ by rewrite Hcache, <- app_assoc, Hall.
Qed.

Lemma unprocessed_complete_first l : forall n,
  length (unprocessed (complete_first n l)) = (length (unprocessed l) - n)%nat.
Proof.
  induction l as [|c l IH]; intros [|n]; try (cbn; lia).
  cbn [complete_first]. unfold unprocessed in *.
  destruct (processed c) eqn:Hp.
  - rewrite !filter_cons_False by by rewrite Hp. apply IH.
  - rewrite filter_cons_False by done.
    rewrite (filter_cons_True _ c) by done. cbn [length]. rewrite IH. lia.
Qed.

Lemma unprocessed_complete_all l : unprocessed (complete_all l) = [].
Proof.
  unfold unprocessed, complete_all. induction l as [|c l IH]; [done|].
  cbn [map]. rewrite filter_cons_False; [done|].
  destruct (processed c) eqn:Hp; [by rewrite Hp|done].
Qed.

Lemma unprocessed_length_le l : (length (unprocessed l) <= length l)%nat.
Proof. apply length_filter. Qed.

(** Within the limit the pass behaves as C1 says: from a fresh cache
    object with [N] unprocessed tasks and a limit [1 <= B < N], the pass
    yields [B] tasks and ends, and [N - B] tasks are left unprocessed. *)
Lemma pass_within_limit s f (B fuel : nat) :
  CC.num_processed s = 0 ->
  CC.cities_per_job s = Z.of_nat B ->
  (1 <= B < length (unprocessed (CC.cache s)))%nat ->
  (length (CC.cache s) < fuel)%nat ->
  exists yielded r',
    CC.pass fuel s f = (yielded, r') /\
    yielded = map claimed (take B (unprocessed (CC.cache s))) /\
    length yielded = B /\
    CC.gen r' = CC.Finished /\
    CC.cache (CC.self r') = complete_first B (CC.cache s) /\
    length (unprocessed (CC.cache (CC.self r')))
    = (length (unprocessed (CC.cache s)) - B)%nat.
Proof.
  intros Hk HB HN Hfuel. destruct fuel as [|fuel]; [lia|].
  rewrite pass_iterate_from.
  destruct (iterate_from_limited (CC.cache s) [] s f CC.Created fuel B)
    as (r' & Hrun & Hcache & Hgen); [done|lia|lia|lia|].
  cbn [length app] in *. eexists _, r'. split; [exact Hrun|].
  split; [done|]. split; [|split; [done|split; [done|]]].
  - rewrite length_map, length_take. lia.
  - rewrite Hcache. apply unprocessed_complete_first.
Qed.
End CachePassUnlimited.

(** C1 fails at the limit 0: the counter is compared with the limit only
    after it has been incremented, so it never equals 0, and the pass yields
    every unprocessed task instead of none. *)
Theorem pass_limit_zero_yields_all (s : CC.t) (f : FileSystem) (fuel : nat) :
  CC.num_processed s = 0 ->
  CC.cities_per_job s = 0 ->
  (length (CC.cache s) < fuel)%nat ->
  exists r',
    CC.pass fuel s f = (map claimed (unprocessed (CC.cache s)), r') /\
    CC.gen r' = CC.Finished /\
    unprocessed (CC.cache (CC.self r')) = [].
Proof.
  intros Hk HB Hfuel. destruct fuel as [|fuel]; [lia|].
  rewrite pass_iterate_from.
  destruct (iterate_from_unlimited (CC.cache s) [] s f CC.Created fuel)
    as (r' & Hrun & Hcache & Hgen); [done|lia|lia|].
  exists r'. split; [exact Hrun|]. split; [done|].
  rewrite Hcache. apply unprocessed_complete_all.
Qed.

Lemma pass_limit_zero_yields_all_witness :
  let s := CC.mk 0 two_cities 0 in
  let f := mkFileSystem "/app" ∅ in
  CC.num_processed s = 0 /\
  CC.cities_per_job s = 0 /\
  (length (CC.cache s) < 3)%nat /\
  (0 < length (unprocessed (CC.cache s)))%nat /\
  length (CC.pass 3 s f).1 = 2%nat.
Proof.
  intros s f.
  destruct (pass_limit_zero_yields_all s f 3) as (r' & Hrun & _);
    [reflexivity | reflexivity | subst s; cbn; lia |].
  split; [reflexivity|]. split; [reflexivity|].
  split; [subst s; cbn; lia|]. split; [subst s; vm_compute; lia|].
  rewrite Hrun. reflexivity.
Defined.

(** ** The city cache: what is written where *)

Section Checkpoint.
Implicit Types (r : CC.run) (p : string).

(** A step of the generator leaves the working directory alone and writes
    to no path but the one [CACHE_FILENAME] resolves to. *)
Lemma advance_files from r p :
  cwd (CC.fs (CC.advance from r).1) = cwd (CC.fs r) /\
  (p <> resolve (CC.fs r) Config.CACHE_FILENAME ->
   files (CC.fs (CC.advance from r).1) !! p = files (CC.fs r) !! p).
Proof.
  unfold CC.advance. destruct (CC.next_unprocessed _ _); [|done].
  cbn. split; [done|]. intros Hp. by rewrite lookup_insert_ne.
Qed.

Lemma next_files r p :
  cwd (CC.fs (CC.next r).1) = cwd (CC.fs r) /\
  (p <> resolve (CC.fs r) Config.CACHE_FILENAME ->
   files (CC.fs (CC.next r).1) !! p = files (CC.fs r) !! p).
Proof.
  unfold CC.next. destruct (CC.gen r); [apply advance_files| |done].
  cbn [CC.num_processed CC.cities_per_job].
  destruct (_ =? _).
  - cbn. split; [done|]. intros Hp. by rewrite lookup_insert_ne.
  - match goal with |- context [CC.advance ?i ?r0] =>
      destruct (advance_files i r0 p) as [Hcwd Hfiles] end.
    cbn in *. split; [done|]. intros Hp. rewrite Hfiles by done.
    by rewrite lookup_insert_ne.
Qed.

Lemma iterate_files fuel : forall r p,
  cwd (CC.fs (CC.iterate fuel r).2) = cwd (CC.fs r) /\
  (p <> resolve (CC.fs r) Config.CACHE_FILENAME ->
   files (CC.fs (CC.iterate fuel r).2) !! p = files (CC.fs r) !! p).
Proof.
  induction fuel as [|fuel IH]; intros r p; [done|].
  cbn [CC.iterate]. destruct (next_files r p) as [Hcwd Hfiles].
  destruct (CC.next r) as [r1 [y|]]; cbn [fst snd] in *; [|done].
  destruct (IH r1 p) as [Hcwd' Hfiles'].
  destruct (CC.iterate fuel r1) as [ys r2]. cbn [fst snd] in *.
  split; [congruence|]. intros Hp. rewrite Hfiles', Hfiles; [done..|].
  unfold resolve in *. by rewrite Hcwd.
Qed.

(** The file and the list agree after a step when they agreed before it,
    provided [CACHE_FILENAME] resolves to the path in question. *)
Lemma advance_keeps_checkpoint from r p :
  resolve (CC.fs r) Config.CACHE_FILENAME = p ->
  files (CC.fs r) !! p = Some (CC.cache (CC.self r)) ->
  files (CC.fs (CC.advance from r).1) !! p
  = Some (CC.cache (CC.self (CC.advance from r).1)).
Proof.
  intros Hp Hinv. unfold CC.advance.
  destruct (CC.next_unprocessed _ _); [|done].
  cbn. rewrite Hp. by rewrite lookup_insert_eq.
Qed.

Lemma next_keeps_checkpoint r p :
  resolve (CC.fs r) Config.CACHE_FILENAME = p ->
  files (CC.fs r) !! p = Some (CC.cache (CC.self r)) ->
  files (CC.fs (CC.next r).1) !! p = Some (CC.cache (CC.self (CC.next r).1)).
Proof.
  intros Hp Hinv. unfold CC.next.
  destruct (CC.gen r); [by apply advance_keeps_checkpoint| |done].
  cbn [CC.num_processed CC.cities_per_job].
  destruct (_ =? _).
  - cbn. rewrite Hp. by rewrite lookup_insert_eq.
  - apply advance_keeps_checkpoint;
      [exact Hp | cbn; rewrite Hp; by rewrite lookup_insert_eq].
Qed.
End Checkpoint.

(** C2 fails unless the process runs in the directory of [config.py]: the
    cache is loaded from [CACHE_FILEPATH] but written to the relative
    [CACHE_FILENAME].  When the two resolve to different paths, the document
    that was loaded is left as it was by every pass. *)
Theorem loaded_checkpoint_never_rewritten
  (BASE_FILEPATH : string) (B : Z) (f : FileSystem) (s : CC.t) (fuel : nat) :
  CC.init BASE_FILEPATH B f = Ok s ->
  resolve f Config.CACHE_FILENAME <> resolve f (CC.CACHE_FILEPATH BASE_FILEPATH) ->
  files (CC.fs (CC.pass fuel s f).2) !! resolve f (CC.CACHE_FILEPATH BASE_FILEPATH)
  = Some (CC.cache s).
Proof.
  intros Hinit Hne. unfold CC.pass.
  destruct (iterate_files fuel (CC.mkRun s f CC.Created)
              (resolve f (CC.CACHE_FILEPATH BASE_FILEPATH))) as [_ Hfiles].
  rewrite Hfiles by (intros Heq; apply Hne; symmetry; exact Heq). cbn.
  unfold CC.init, read_json in Hinit.
  destruct (files f !! _) as [doc|]; [|done]. cbn in Hinit. by inversion Hinit.
Qed.

Lemma loaded_checkpoint_never_rewritten_witness :
  let s := CC.mk 2 two_cities 0 in
  let r := (CC.next (CC.mkRun s job_files CC.Created)).1 in
  CC.init job_base 2 job_files = Ok s /\
  resolve job_files Config.CACHE_FILENAME
  <> resolve job_files (CC.CACHE_FILEPATH job_base) /\
  files (CC.fs (CC.pass 3 s job_files).2) !! CC.CACHE_FILEPATH job_base
  = Some two_cities /\
  map processed (CC.cache (CC.self r)) = [true; false] /\
  files (CC.fs r) !! CC.CACHE_FILEPATH job_base <> Some (CC.cache (CC.self r)) /\
  files (CC.fs r) !! "/opt/airflow/cache/city_cache.json"
  = Some (CC.cache (CC.self r)).
Proof.
  intros s r.
  assert (Hinit : CC.init job_base 2 job_files = Ok s) by reflexivity.
  assert (Hne : resolve job_files Config.CACHE_FILENAME
                <> resolve job_files (CC.CACHE_FILEPATH job_base))
    by (vm_compute; discriminate).
  split; [exact Hinit|]. split; [exact Hne|].
  split; [exact (loaded_checkpoint_never_rewritten job_base 2 job_files s 3 Hinit Hne)|].
  split; [reflexivity|]. split; [|reflexivity].
  subst r s. vm_compute. discriminate.
Defined.

(** ** Durations *)

Example findall_digits_range :
  findall_digits ascii_decimal (code_points "15-20 minutes") = [[49; 53]; [50; 48]]%N.
Proof. reflexivity. Qed.

Example extract_hours_range :
  @Response.extract_activity_duration standin_lib "1-2 Hours" = Ok 90.
Proof. reflexivity. Qed.

Example extract_no_digits :
  @Response.extract_activity_duration standin_lib "a few hours" = Raise ValueError.
Proof. reflexivity. Qed.

Example extract_half_down :
  @Response.extract_activity_duration standin_lib "10-15 min" = Ok 10.
Proof. reflexivity. Qed.

Example extract_arabic_digit :
  @Response.extract_activity_duration standin_lib arabic_three_or_ten_hours = Ok 390.
Proof. reflexivity. Qed.

Section Rounding.
Implicit Types (x : Q).

Local Ltac floor_atom x :=
  rewrite ?inject_Z_plus in *; change (inject_Z 1) with 1%Q in *;
  generalize dependent (inject_Z (Qfloor x)); intros; split; lra.

Lemma py_round_nearest x : (Qabs (inject_Z (py_round x) - x) <= 1 # 2)%Q.
Proof.
  unfold py_round.
  pose proof (Qfloor_le x) as Hlo. pose proof (Qlt_floor x) as Hhi.
  apply Qabs_Qle_condition.
  destruct (x - inject_Z (Qfloor x) ?= 1 # 2)%Q eqn:Hc.
  - apply Qeq_alt in Hc. destruct (Z.even (Qfloor x)); floor_atom x.
  - apply Qlt_alt in Hc. floor_atom x.
  - apply Qgt_alt in Hc. floor_atom x.
Qed.

(** A half goes to the even neighbour. *)
Lemma py_round_tie_even x :
  (Qabs (inject_Z (py_round x) - x) == 1 # 2)%Q -> Z.even (py_round x) = true.
Proof.
  unfold py_round.
  pose proof (Qfloor_le x) as Hlo. pose proof (Qlt_floor x) as Hhi.
  destruct (x - inject_Z (Qfloor x) ?= 1 # 2)%Q eqn:Hc.
  - intros _. destruct (Z.even (Qfloor x)) eqn:He; [done|].
    rewrite Z.even_add, He. reflexivity.
  - apply Qlt_alt in Hc. intros Htie. exfalso.
    rewrite Qabs_neg in Htie by lra. lra.
  - apply Qgt_alt in Hc. intros Htie. exfalso.
    rewrite inject_Z_plus in *. change (inject_Z 1) with 1%Q in *.
    rewrite Qabs_pos in Htie by lra. lra.
Qed.

(** An integer less than a half away from [x] is what [x] rounds to. *)
Lemma py_round_unique x (k : Z) :
  (Qabs (inject_Z k - x) < 1 # 2)%Q -> py_round x = k.
Proof.
  intros Hk. pose proof (py_round_nearest x) as Hr.
  apply Qabs_Qle_condition in Hr. apply Qabs_Qlt_condition in Hk.
  assert (Hlt : (inject_Z (py_round x) - inject_Z k < 1)%Q) by lra.
  assert (Hgt : (inject_Z k - inject_Z (py_round x) < 1)%Q) by lra.
  unfold Qminus in Hlt, Hgt. rewrite <- inject_Z_opp, <- inject_Z_plus in Hlt, Hgt.
  change 1%Q with (inject_Z 1) in Hlt, Hgt. rewrite <- Zlt_Qlt in Hlt, Hgt. lia.
Qed.

Lemma py_round_Z (k : Z) x : (x == inject_Z k)%Q -> py_round x = k.
Proof.
  intros Hx. apply py_round_unique. apply Qabs_Qlt_condition. split; lra.
Qed.
End Rounding.

Section Binary64.
Implicit Types (x : Q).

Lemma two_pos (k : Z) : (0 < 2 ^ k)%Q.
Proof. by apply Qpower_0_lt. Qed.

Lemma Qlog2_spec x : (0 < x)%Q -> (2 ^ Qlog2 x <= x /\ x < 2 ^ (Qlog2 x + 1))%Q.
Proof.
  intros Hx. destruct x as [n d]. unfold Qlog2. cbn [Qnum Qden].
  assert (Hn : 0 < n) by (unfold Qlt in Hx; cbn in Hx; lia).
  set (a := Z.log2 n). set (b := Z.log2 (Z.pos d)). set (k := a - b).
  destruct (Z.log2_spec n Hn) as [Ha1 Ha2]. fold a in Ha1, Ha2.
  destruct (Z.log2_spec (Z.pos d) ltac:(lia)) as [Hb1 Hb2]. fold b in Hb1, Hb2.
  assert (Ha0 : 0 <= a) by apply Z.log2_nonneg.
  assert (Hb0 : 0 <= b) by apply Z.log2_nonneg.
  assert (HnQ : (2 ^ a <= inject_Z n /\ inject_Z n < 2 ^ (a + 1))%Q).
  { change 2%Q with (inject_Z 2). rewrite <- !Zpower_Qpower by lia.
    rewrite <- Zle_Qle, <- Zlt_Qlt. replace (a + 1) with (Z.succ a) by lia. done. }
  assert (HdQ : (2 ^ b <= inject_Z (Z.pos d) /\ inject_Z (Z.pos d) < 2 ^ (b + 1))%Q).
  { change 2%Q with (inject_Z 2). rewrite <- !Zpower_Qpower by lia.
    rewrite <- Zle_Qle, <- Zlt_Qlt. replace (b + 1) with (Z.succ b) by lia. done. }
  assert (Hx' : (n # d == inject_Z n / inject_Z (Z.pos d))%Q) by apply Qmake_Qdiv.
  assert (Hdpos : (0 < inject_Z (Z.pos d))%Q) by (rewrite <- (Zlt_Qlt 0); lia).
  assert (Hk1 : (2 ^ (k + 1) == 2 ^ (a + 1) / 2 ^ b)%Q).
  { replace (k + 1) with (a + 1 - b) by lia. by apply Qpower_minus. }
  assert (Hk0 : (2 ^ (k - 1) == 2 ^ a / 2 ^ (b + 1))%Q).
  { replace (k - 1) with (a - (b + 1)) by lia. by apply Qpower_minus. }
  pose proof (two_pos a). pose proof (two_pos b). pose proof (two_pos (a + 1)).
  pose proof (two_pos (b + 1)).
  assert (Hn0 : (0 < inject_Z n)%Q) by (rewrite <- (Zlt_Qlt 0); lia).
  assert (Hup : (n # d < 2 ^ (k + 1))%Q).
  { rewrite Hx', Hk1. apply Qlt_shift_div_l; [done|].
    assert (Heq : (inject_Z n / inject_Z (Z.pos d) * 2 ^ b
                   == inject_Z n * 2 ^ b / inject_Z (Z.pos d))%Q) by (field; lra).
    rewrite Heq. apply Qlt_shift_div_r; [done|]. nra. }
  assert (Hlo : (2 ^ (k - 1) <= n # d)%Q).
  { rewrite Hx', Hk0. apply Qle_shift_div_r; [done|].
    assert (Heq : (inject_Z n / inject_Z (Z.pos d) * 2 ^ (b + 1)
                   == inject_Z n * 2 ^ (b + 1) / inject_Z (Z.pos d))%Q) by (field; lra).
    rewrite Heq. apply Qle_shift_div_l; [done|]. nra. }
  destruct (Qle_bool (2 ^ k) (n # d)) eqn:Hc.
  - apply Qle_bool_iff in Hc. done.
  - split; [done|]. replace (k - 1 + 1) with k by lia.
    apply Qnot_le_lt. intros Hle. apply Qle_bool_iff in Hle. congruence.
Qed.

(** Below [2 ^ n] the logarithm is below [n]. *)
Lemma Qlog2_lt x (n : Z) : (0 < x)%Q -> (x < 2 ^ n)%Q -> Qlog2 x < n.
Proof.
  intros Hx Hlt. destruct (Qlog2_spec x Hx) as [Hlo _].
  apply (Qpower_lt_compat_l_inv 2); [lra|done].
Qed.

Lemma Qabs_nonzero x : ~ (x == 0)%Q -> (0 < Qabs x)%Q.
Proof.
  intros Hx. destruct (Qlt_le_dec 0 x) as [Hpos|Hneg].
  - rewrite Qabs_pos; lra.
  - rewrite Qabs_neg by done. destruct (Qle_lt_or_eq _ _ Hneg); [lra|done].
Qed.

Lemma ulp_exponent_le x (n : Z) :
  ~ (x == 0)%Q -> (Qabs x < 2 ^ n)%Q -> -1021 <= n -> ulp_exponent x <= n - 53.
Proof.
  intros Hx Hlt Hn. unfold ulp_exponent.
  pose proof (Qabs_nonzero x Hx) as Hpos.
  pose proof (Qlog2_lt (Qabs x) n Hpos Hlt). lia.
Qed.

(** Below [2 ^ n] the rounded value is finite and at most half a unit of
    the last place away. *)
Lemma round64_error x (n : Z) :
  (Qabs x < 2 ^ n)%Q -> -1021 <= n <= 1023 ->
  exists q, round64 x = Finite q /\ (Qabs (q - x) <= 2 ^ (n - 54))%Q.
Proof.
  intros Hlt Hn. unfold round64.
  destruct (Qeq_bool x 0) eqn:Hz.
  - apply Qeq_bool_iff in Hz. exists 0%Q. split; [done|].
    pose proof (two_pos (n - 54)). apply Qabs_Qle_condition. split; lra.
  - assert (Hx : ~ (x == 0)%Q) by (intros H; apply Qeq_bool_iff in H; congruence).
    pose proof (ulp_exponent_le x n Hx Hlt ltac:(lia)) as He.
    set (e := ulp_exponent x) in *.
    set (m := py_round (x / 2 ^ e)).
    pose proof (py_round_nearest (x / 2 ^ e)) as Hm. fold m in Hm.
    pose proof (two_pos e) as Hpe.
    assert (Hhalf : (2 ^ e == 2 * 2 ^ (e - 1))%Q).
    { replace e with (1 + (e - 1)) at 1 by lia. rewrite Qpower_plus by done. reflexivity. }
    assert (Hmono : (2 ^ (e - 1) <= 2 ^ (n - 54))%Q).
    { apply Qpower_le_compat_l; [lia|lra]. }
    assert (Herr : (Qabs (inject_Z m * 2 ^ e - x) <= 2 ^ (n - 54))%Q).
    { clearbody m. apply Qabs_Qle_condition in Hm. apply Qabs_Qle_condition.
      assert (Hxe : (x == x / 2 ^ e * 2 ^ e)%Q) by (field; lra).
      generalize dependent (x / 2 ^ e)%Q. intros y Hm Hxe.
      generalize dependent (inject_Z m). intros z Hm.
      generalize dependent (2 ^ e)%Q. intros E Hpe Hhalf Hxe.
      generalize dependent (2 ^ (e - 1))%Q. intros E' Hhalf Hmono.
      split; nra. }
    assert (Hfin : Qle_bool (2 ^ 1024) (Qabs (inject_Z m * 2 ^ e)) = false).
    { apply not_true_iff_false. rewrite Qle_bool_iff. apply Qlt_not_le.
      assert (Hn1 : (2 ^ n <= 2 ^ 1023)%Q) by (apply Qpower_le_compat_l; [lia|lra]).
      assert (Hn2 : (2 ^ (n - 54) <= 2 ^ 1023)%Q) by (apply Qpower_le_compat_l; [lia|lra]).
      assert (Hbig : (2 ^ 1024 == 2 * 2 ^ 1023)%Q) by reflexivity.
      rewrite Hbig. apply Qabs_Qle_condition in Herr.
      apply Qabs_Qlt_condition in Hlt. apply Qabs_Qlt_condition.
      generalize dependent (2 ^ 1023)%Q. intros. split; lra. }
    rewrite Hfin. by eexists.
Qed.

(** A number with a significand of 53 bits and an exponent in range is its
    own rounding. *)
Lemma round64_exact x (M E : Z) :
  (x == inject_Z M * 2 ^ E)%Q -> Z.abs M < 2 ^ 53 -> -1074 <= E <= 970 ->
  exists q, round64 x = Finite q /\ (q == x)%Q.
Proof.
  intros Hx HM HE. unfold round64.
  destruct (Qeq_bool x 0) eqn:Hz.
  - apply Qeq_bool_iff in Hz. exists 0%Q. by split.
  - assert (Hx0 : ~ (x == 0)%Q) by (intros H; apply Qeq_bool_iff in H; congruence).
    pose proof (two_pos E) as HpE.
    assert (Habs : (Qabs x == inject_Z (Z.abs M) * 2 ^ E)%Q).
    { rewrite Hx, Qabs_Qmult, (Qabs_pos (2 ^ E)) by lra.
      by rewrite <- inject_Z_abs || (unfold Qabs, inject_Z; cbn; reflexivity). }
    assert (Hlt : (Qabs x < 2 ^ (E + 53))%Q).
    { rewrite Habs, Z.add_comm, Qpower_plus by done.
      apply Qmult_lt_r; [done|]. change 2%Q with (inject_Z 2).
      rewrite <- Zpower_Qpower by lia. by rewrite <- Zlt_Qlt. }
    assert (He : ulp_exponent x <= E).
    { unfold ulp_exponent.
      pose proof (Qabs_nonzero x Hx0) as Hpos.
      pose proof (Qlog2_lt (Qabs x) (E + 53) Hpos Hlt). lia. }
    set (e := ulp_exponent x) in *. pose proof (two_pos e) as Hpe.
    assert (Hsplit : (2 ^ E == 2 ^ (E - e) * 2 ^ e)%Q).
    { replace E with ((E - e) + e) at 1 by lia. by rewrite Qpower_plus. }
    assert (Hint : (x / 2 ^ e == inject_Z (M * 2 ^ (E - e)))%Q).
    { rewrite inject_Z_mult, Zpower_Qpower by lia. change (inject_Z 2) with 2%Q.
      rewrite Hx, Hsplit. field. lra. }
    rewrite (py_round_Z _ _ Hint).
    assert (Hval : (inject_Z (M * 2 ^ (E - e)) * 2 ^ e == x)%Q).
    { rewrite inject_Z_mult, Zpower_Qpower by lia. change (inject_Z 2) with 2%Q.
      rewrite Hx, Hsplit. ring. }
    assert (Hfin : Qle_bool (2 ^ 1024) (Qabs (inject_Z (M * 2 ^ (E - e)) * 2 ^ e)) = false).
    { apply not_true_iff_false. rewrite Qle_bool_iff. apply Qlt_not_le.
      rewrite Hval. eapply Qlt_le_trans; [exact Hlt|].
      apply Qpower_le_compat_l; [lia|lra]. }
    rewrite Hfin. by eexists.
Qed.

(** An integer below [2 ^ 53] is its own rounding. *)
Lemma round64_Z x (k : Z) :
  (x == inject_Z k)%Q -> Z.abs k < 2 ^ 53 ->
  exists q, round64 x = Finite q /\ (q == inject_Z k)%Q.
Proof.
  intros Hx Hk. destruct (round64_exact x k 0) as (q & Hq & Heq); [|done|lia|].
  - rewrite Hx. change (2 ^ 0)%Q with 1%Q. ring.
  - exists q. split; [done|]. by rewrite Heq.
Qed.
End Binary64.

Section DigitRuns.
Variable decimal : N -> option Z.
Implicit Types (text run : list N).

Lemma findall_run ds : forall rest run,
  Forall (is_decimal decimal) ds ->
  findall_digits_from decimal (ds ++ rest) run
  = findall_digits_from decimal rest (run ++ ds).
Proof.
  induction ds as [|c ds IH]; intros rest run Hds; cbn [app findall_digits_from].
  - by rewrite app_nil_r.
  - inversion Hds as [|? ? [d Hd] Hrest]; subst. rewrite Hd, IH by done.
    by rewrite <- app_assoc.
Qed.

Lemma findall_stop c rest run :
  ~ is_decimal decimal c ->
  findall_digits_from decimal (c :: rest) run
  = flush_run run ++ findall_digits_from decimal rest [].
Proof.
  intros Hc. cbn [findall_digits_from]. destruct (decimal c) eqn:Hd; [|done].
  exfalso. apply Hc. by eexists.
Qed.

Lemma findall_gap g : forall rest,
  Forall (fun c => ~ is_decimal decimal c) g ->
  findall_digits_from decimal (g ++ rest) [] = findall_digits_from decimal rest [].
Proof.
  induction g as [|c g IH]; intros rest Hg; [done|].
  inversion Hg; subst. cbn [app]. rewrite findall_stop by done. by apply IH.
Qed.

(** The runs found are the runs of digits of the text, in order. *)
Lemma findall_laid_out lead pieces last :
  cut_at_digits decimal lead pieces last ->
  findall_digits decimal (laid_out lead pieces last) = runs_of pieces last.
Proof.
  intros (Hlead & Hpieces & Hlast). unfold findall_digits, laid_out, runs_of.
  rewrite findall_gap by done.
  induction Hpieces as [|p pieces (Hne & Hrun & Hstop & Hgap) _ IH];
    cbn [flat_map map app].
  - rewrite <- (app_nil_r last) at 1. by rewrite findall_run.
  - rewrite <- !app_assoc. rewrite findall_run by done.
    cbn [app]. rewrite findall_stop by done. rewrite findall_gap by done.
    rewrite IH. by destruct (run p).
Qed.

Lemma flush_run_within (P : N -> Prop) run :
  Forall P run -> Forall (Forall P) (flush_run run).
Proof.
  intros Hrun. destruct run as [|c run]; cbn [flush_run]; [constructor|].
  constructor; [done|constructor].
Qed.

Lemma findall_from_within (P : N -> Prop) text : forall run,
  Forall P text -> Forall P run ->
  Forall (Forall P) (findall_digits_from decimal text run).
Proof.
  induction text as [|c text IH]; intros run Htext Hrun; cbn [findall_digits_from].
  - by apply flush_run_within.
  - inversion Htext; subst. destruct (decimal c).
    + apply IH; [done|]. apply Forall_app. split; [done|]. by constructor.
    + apply Forall_app. split; [by apply flush_run_within|]. by apply IH.
Qed.
End DigitRuns.

Section DurationText.
Context {L : PyLib} {Laws : PyLaws L}.

Lemma findall_from_ext (dec1 dec2 : N -> option Z) text : forall run,
  Forall (fun c => dec1 c = dec2 c) text ->
  findall_digits_from dec1 text run = findall_digits_from dec2 text run.
Proof.
  induction text as [|c text IH]; intros run Htext; [done|].
  inversion Htext as [|? ? Hc Hrest]; subst. cbn [findall_digits_from].
  rewrite Hc. destruct (dec2 c); by rewrite IH.
Qed.

Lemma decimal_value_nonneg ds : Forall (fun d => 0 <= d) ds -> 0 <= decimal_value ds.
Proof.
  unfold decimal_value. intros Hds.
  assert (Hacc : forall acc, 0 <= acc ->
                   0 <= foldl (fun acc d => 10 * acc + d) acc ds).
  { induction Hds as [|d ds Hd _ IH]; intros acc Hacc; cbn; [done|]. apply IH. lia. }
  by apply Hacc.
Qed.

Lemma int_of_run_nonneg run n : Response.int_of_run run = Ok n -> 0 <= n.
Proof.
  unfold Response.int_of_run. destruct (_ && _); [done|]. intros [= <-].
  apply decimal_value_nonneg, Forall_forall. intros d Hd.
  apply list_elem_of_omap in Hd as (c & _ & Hc).
  by apply (unicode_decimal_range c).
Qed.

Lemma mapM_nonneg runs : forall ints,
  mapM Response.int_of_run runs = Ok ints -> Forall (fun n => 0 <= n) ints.
Proof.
  induction runs as [|run runs IH]; intros ints.
  - intros [= <-]. constructor.
  - cbn [mapM]. destruct (Response.int_of_run run) as [n|] eqn:Hn; cbn; [|done].
    destruct (mapM Response.int_of_run runs) as [rest|]; cbn; [|done].
    intros [= <-]. constructor; [by apply (int_of_run_nonneg run)|by apply IH].
Qed.

(** The value of a run that is no longer than the lowest limit there is. *)
Lemma int_of_run_value run digits :
  Forall2 (fun c d => unicode_decimal c = Some d) run digits ->
  (length run <= 640)%nat ->
  Response.int_of_run run = Ok (decimal_value digits).
Proof.
  intros Hdigits Hlen. unfold Response.int_of_run.
  assert (Hlimit : (0 <? int_max_str_digits)%nat
                   && (int_max_str_digits <? length run)%nat = false).
  { destruct int_max_str_digits_floor as [->|Hfloor]; [done|].
    apply andb_false_iff. right. apply Nat.ltb_ge.
    exact (Nat.le_trans _ _ _ Hlen Hfloor). }
  rewrite Hlimit. do 2 f_equal. clear Hlen Hlimit.
  induction Hdigits as [|c d run digits Hc _ IH]; [done|].
  cbn [omap list_omap]. by rewrite Hc, IH.
Qed.

(** On an ASCII text the digits are those of ASCII. *)
Lemma findall_ascii text :
  Forall (fun c => (c < 128)%N) text ->
  findall_digits unicode_decimal text = findall_digits ascii_decimal text.
Proof.
  intros Htext. apply findall_from_ext.
  eapply Forall_impl; [exact Htext|]. intros c Hc. by apply unicode_decimal_ascii.
Qed.

Lemma omap_ascii run :
  Forall (fun c => (c < 128)%N) run ->
  omap unicode_decimal run = omap ascii_decimal run.
Proof.
  induction 1 as [|c run Hc _ IH]; [done|].
  cbn [omap list_omap]. by rewrite (unicode_decimal_ascii c Hc), IH.
Qed.

Lemma ints_ascii runs :
  Forall (Forall (fun c => (c < 128)%N)) runs ->
  Forall (fun run => (length run <= 640)%nat) runs ->
  mapM Response.int_of_run runs
  = Ok (map (fun run => decimal_value (omap ascii_decimal run)) runs).
Proof.
  induction runs as [|run runs IH]; intros Hascii Hshort; [done|].
  inversion Hascii as [|? ? Hrun Hruns]; subst.
  inversion Hshort as [|? ? Hlen Hlens]; subst.
  cbn [mapM map]. rewrite IH by done.
  assert (Hval : Response.int_of_run run = Ok (decimal_value (omap ascii_decimal run))).
  { unfold Response.int_of_run.
    assert (Hlimit : (0 <? int_max_str_digits)%nat
                     && (int_max_str_digits <? length run)%nat = false).
    { destruct int_max_str_digits_floor as [->|Hfloor]; [done|].
      apply andb_false_iff. right. apply Nat.ltb_ge.
      exact (Nat.le_trans _ _ _ Hlen Hfloor). }
    by rewrite Hlimit, omap_ascii. }
  by rewrite Hval.
Qed.

Lemma np_mean_small ints :
  Forall (fun n => 0 <= n) ints ->
  foldr Z.add 0 ints <= 2 ^ 53 -> Z.of_nat (length ints) <= 2 ^ 53 ->
  np_mean ints = standin_np_mean ints.
Proof.
  intros Hpos Hsum Hlen. destruct ints as [|n ints]; [apply np_mean_nil|].
  by apply np_mean_exact.
Qed.
End DurationText.

Section DurationValue.
Context {L : PyLib} {Laws : PyLaws L}.

(** On a plain text the result does not depend on the library. *)
Lemma plain_integers text :
  plain text = true ->
  exists ints,
    embedded_integers text = Ok ints /\
    @embedded_integers standin_lib text = Ok ints /\
    np_mean ints = standin_np_mean ints.
Proof.
  unfold plain. cbn zeta.
  set (runs := findall_digits ascii_decimal (code_points text)).
  set (ints := map (fun run => decimal_value (omap ascii_decimal run)) runs).
  intros Hplain. apply andb_prop in Hplain as [Hplain Hlen].
  apply andb_prop in Hplain as [Hplain Hsum].
  apply andb_prop in Hplain as [Hascii Hshort].
  assert (Hascii' : Forall (fun c => (c < 128)%N) (code_points text)).
  { apply List.Forall_forall. intros c Hc. apply N.ltb_lt.
    by apply (proj1 (forallb_forall _ _) Hascii). }
  assert (Hshort' : Forall (fun run => (length run <= 640)%nat) runs).
  { apply List.Forall_forall. intros run Hrun. apply Nat.leb_le.
    by apply (proj1 (forallb_forall _ _) Hshort). }
  assert (Hwithin : Forall (Forall (fun c => (c < 128)%N)) runs).
  { apply findall_from_within; [done|constructor]. }
  assert (Hints : forall (L' : PyLib) (Laws' : PyLaws L'),
            @embedded_integers L' text = Ok ints).
  { intros L' Laws'. unfold embedded_integers. rewrite findall_ascii by done.
    by apply ints_ascii. }
  exists ints. split; [by apply Hints|]. split; [apply Hints, standin_laws|].
  apply np_mean_small; [|lia|lia].
  apply (mapM_nonneg (L:=L) (findall_digits unicode_decimal (code_points text))).
  by apply Hints.
Qed.

Lemma plain_any_library text :
  plain text = true ->
  Response.extract_activity_duration text
  = @Response.extract_activity_duration standin_lib text.
Proof.
  intros Hplain. destruct (plain_integers text Hplain) as (ints & HL & Hstandin & Hmean).
  unfold Response.extract_activity_duration. unfold embedded_integers in HL, Hstandin.
  cbn zeta. rewrite HL, Hstandin. cbn [mbind result_bind]. by rewrite Hmean.
Qed.

Lemma half_power : (2 ^ (-1) == 1 # 2)%Q.
Proof. reflexivity. Qed.

(** The mean of natural numbers that is a whole number of halves. *)
Lemma np_mean_half ints (h : Z) :
  ints <> [] -> Forall (fun n => 0 <= n) ints ->
  foldr Z.add 0 ints <= 2 ^ 53 -> Z.of_nat (length ints) <= 2 ^ 53 ->
  2 * foldr Z.add 0 ints = h * Z.of_nat (length ints) ->
  h < 2 ^ 48 ->
  exists q, np_mean ints = Finite q /\ (q == inject_Z h / 2)%Q.
Proof.
  intros Hne Hpos Hsum Hlen Hmean Hh. rewrite np_mean_exact by done.
  set (s := foldr Z.add 0 ints) in *. set (n := Z.of_nat (length ints)) in *.
  assert (Hn : 0 < n) by (destruct ints; [done|cbn in n; lia]).
  assert (Hs : 0 <= s).
  { subst s. clear -Hpos. induction Hpos; cbn; lia. }
  assert (Hh0 : 0 <= h) by nia.
  assert (HnQ : (0 < inject_Z n)%Q) by (rewrite <- (Zlt_Qlt 0); lia).
  assert (Heq : (inject_Z s / inject_Z n == inject_Z h / 2)%Q).
  { assert (HmeanQ : (2 * inject_Z s == inject_Z h * inject_Z n)%Q).
    { change 2%Q with (inject_Z 2). rewrite <- !inject_Z_mult. by rewrite Hmean. }
    generalize dependent (inject_Z s). generalize dependent (inject_Z n).
    generalize dependent (inject_Z h). intros H N HnQ S HmeanQ.
    apply (Qmult_inj_r _ _ (2 * N)); [lra|].
    assert (Hl : (S / N * (2 * N) == 2 * S)%Q) by (field; lra).
    assert (Hr : (H / 2 * (2 * N) == H * N)%Q) by field.
    by rewrite Hl, Hr. }
  destruct (round64_exact (inject_Z s / inject_Z n) h (-1)) as (q & Hq & Hval).
  - rewrite Heq, half_power. field.
  - lia.
  - lia.
  - exists q. split; [done|]. by rewrite Hval.
Qed.
End DurationValue.

Section ExactDurations.

Lemma py_round_comp (x y : Q) : (x == y)%Q -> py_round x = py_round y.
Proof.
  intros Hxy. unfold py_round. rewrite (Qfloor_comp x y Hxy).
  assert (Hc : ((x - inject_Z (Qfloor y) ?= 1 # 2) = (y - inject_Z (Qfloor y) ?= 1 # 2))%Q).
  { apply Qcompare_comp; [by rewrite Hxy|reflexivity]. }
  by rewrite Hc.
Qed.

(** Hours whose mean is a whole number of halves: every step is exact. *)
Lemma hours_exact (q : Q) (h : Z) :
  (q == inject_Z h / 2)%Q -> 0 <= h < 2 ^ 48 ->
  round_float (float_over (float_times 60 (Finite q)) 5) = Ok (6 * h).
Proof.
  intros Hq Hh. cbn [float_times].
  destruct (round64_Z (60 * q) (30 * h)) as (q2 & -> & Hq2).
  { rewrite Hq, inject_Z_mult. change (inject_Z 30) with 30%Q. field. }
  { lia. }
  cbn [float_over].
  destruct (round64_Z (q2 / 5) (6 * h)) as (q3 & -> & Hq3).
  { rewrite Hq2, !inject_Z_mult. change (inject_Z 30) with 30%Q.
    change (inject_Z 6) with 6%Q. field. }
  { lia. }
  cbn [round_float]. f_equal. by apply py_round_Z.
Qed.

(** Minutes whose mean is a whole number of halves: the quotient by 5 is
    either a tie, which is a binary64 number, or too far from a tie for
    the rounding of the division to reach it. *)
Lemma minutes_exact (q : Q) (h : Z) :
  (q == inject_Z h / 2)%Q -> 0 <= h < 2 ^ 48 ->
  round_float (float_over (Finite q) 5) = Ok (py_round (inject_Z h / 10)).
Proof.
  intros Hq Hh. cbn [float_over].
  assert (Hx : (q / 5 == inject_Z h / 10)%Q) by (rewrite Hq; field).
  set (x := (inject_Z h / 10)%Q) in *.
  destruct (Z.eq_dec (h mod 10) 5) as [Htie|Hfar].
  - pose proof (Z.div_mod h 10 ltac:(lia)) as Hdiv. rewrite Htie in Hdiv.
    destruct (round64_exact (q / 5) (2 * (h / 10) + 1) (-1)) as (q' & -> & Hq').
    { rewrite Hx. subst x. rewrite Hdiv at 1. rewrite half_power.
      rewrite !inject_Z_plus, !inject_Z_mult.
      change (inject_Z 10) with 10%Q. change (inject_Z 5) with 5%Q.
      change (inject_Z 2) with 2%Q. change (inject_Z 1) with 1%Q. field. }
    { lia. }
    { lia. }
    cbn [round_float]. f_equal. apply py_round_comp. by rewrite Hq'.
  - set (k := py_round x).
    pose proof (py_round_nearest x) as Hk. fold k in Hk.
    assert (Hfour : (Qabs (inject_Z k - x) <= 4 # 10)%Q).
    { apply Qabs_Qle_condition in Hk. apply Qabs_Qle_condition.
      assert (Hten : (10 * (inject_Z k - x) == inject_Z (10 * k - h))%Q).
      { replace (10 * k - h) with (10 * k + - h) by lia.
        rewrite inject_Z_plus, inject_Z_opp, inject_Z_mult.
        change (inject_Z 10) with 10%Q. subst x. field. }
      assert (Hint : -4 <= 10 * k - h <= 4).
      { assert (Hlo : (inject_Z (-5) <= inject_Z (10 * k - h))%Q)
          by (rewrite <- Hten; change (inject_Z (-5)) with (-5)%Q; lra).
        assert (Hhi : (inject_Z (10 * k - h) <= inject_Z 5)%Q)
          by (rewrite <- Hten; change (inject_Z 5) with 5%Q; lra).
        rewrite <- Zle_Qle in Hlo, Hhi.
        pose proof (Z.div_mod h 10 ltac:(lia)).
        pose proof (Z.mod_pos_bound h 10 ltac:(lia)). lia. }
      destruct Hint as [Hlo Hhi]. rewrite Zle_Qle in Hlo, Hhi.
      rewrite <- Hten in Hlo, Hhi.
      change (inject_Z (-4)) with (-4)%Q in Hlo. change (inject_Z 4) with 4%Q in Hhi.
      split; lra. }
    destruct (round64_error (q / 5) 45) as (q' & -> & Herr).
    { rewrite Hx. subst x. rewrite Qabs_pos.
      - apply Qlt_shift_div_r; [lra|].
        change (2 ^ 45 * 10)%Q with (inject_Z (2 ^ 45 * 10)).
        rewrite <- Zlt_Qlt. lia.
      - apply Qle_shift_div_l; [lra|]. rewrite Qmult_0_l.
        rewrite <- (Zle_Qle 0). lia. }
    { lia. }
    cbn [round_float]. f_equal. apply py_round_unique.
    change (2 ^ (45 - 54))%Q with (1 # 512)%Q in Herr.
    apply Qabs_Qle_condition in Herr, Hfour. apply Qabs_Qlt_condition.
    rewrite Hx in Herr. split; lra.
Qed.
End ExactDurations.

Section CloseDurations.
Context {L : PyLib} {Laws : PyLaws L}.

Lemma sum_nonneg ints : Forall (fun n => 0 <= n) ints -> 0 <= foldr Z.add 0 ints.
Proof. induction 1; cbn; lia. Qed.

(** The mean of natural numbers whose sum is below [2 ^ 32]. *)
Lemma np_mean_close ints :
  ints <> [] -> Forall (fun n => 0 <= n) ints ->
  foldr Z.add 0 ints < 2 ^ 32 -> Z.of_nat (length ints) <= 2 ^ 53 ->
  exists a, np_mean ints = Finite a /\
    (Qabs (a - inject_Z (foldr Z.add 0%Z ints) / inject_Z (Z.of_nat (length ints)))
     <= 1 # 4194304)%Q /\
    (0 <= inject_Z (foldr Z.add 0%Z ints) / inject_Z (Z.of_nat (length ints))
     < 4294967296)%Q.
Proof.
  intros Hne Hpos Hsum Hlen. rewrite np_mean_exact by (done || lia).
  pose proof (sum_nonneg ints Hpos) as Hs.
  set (s := foldr Z.add 0 ints) in *. set (n := Z.of_nat (length ints)) in *.
  assert (Hn : 1 <= n) by (destruct ints; [done|cbn in n; lia]).
  clearbody s n.
  assert (Hmean : (0 <= inject_Z s / inject_Z n < 4294967296)%Q).
  { assert (HnQ : (1 <= inject_Z n)%Q) by (rewrite <- (Zle_Qle 1); lia).
    assert (HsQ : (0 <= inject_Z s < 4294967296)%Q).
    { change 0%Q with (inject_Z 0). change 4294967296%Q with (inject_Z (2 ^ 32)).
      rewrite <- Zle_Qle, <- Zlt_Qlt. lia. }
    split.
    - apply Qle_shift_div_l; lra.
    - apply Qlt_shift_div_r; [lra|].
      generalize dependent (inject_Z s). generalize dependent (inject_Z n).
      intros. nra. }
  destruct (round64_error (inject_Z s / inject_Z n) 32) as (a & Ha & Herr).
  { rewrite Qabs_pos by lra. change (2 ^ 32)%Q with 4294967296%Q. lra. }
  { lia. }
  exists a. split; [done|]. split; [|done].
  by change (2 ^ (32 - 54))%Q with (1 # 4194304)%Q in Herr.
Qed.

(** Within these bounds the result is a multiple of 5 that is as near to
    the mean in minutes as a multiple of 5 can be, up to a thousandth. *)
Lemma minutes_close (a mean : Q) :
  (Qabs (a - mean) <= 1 # 4194304)%Q -> (0 <= mean < 4294967296)%Q ->
  exists k, round_float (float_over (Finite a) 5) = Ok k /\
    (Qabs (inject_Z (5 * k) - mean) <= (5 # 2) + (1 # 1000))%Q.
Proof.
  intros Ha Hmean. cbn [float_over]. apply Qabs_Qle_condition in Ha.
  assert (Hfive : (a == 5 * (a / 5))%Q) by field.
  destruct (round64_error (a / 5) 33) as (y & -> & Hy).
  { change (2 ^ 33)%Q with 8589934592%Q. apply Qabs_Qlt_condition.
    generalize dependent (a / 5)%Q. intros. split; lra. }
  { lia. }
  change (2 ^ (33 - 54))%Q with (1 # 2097152)%Q in Hy.
  cbn [round_float]. eexists. split; [reflexivity|].
  pose proof (py_round_nearest y) as Hk.
  apply Qabs_Qle_condition in Hy, Hk. apply Qabs_Qle_condition.
  rewrite inject_Z_mult. change (inject_Z 5) with 5%Q.
  generalize dependent (a / 5)%Q. generalize dependent (inject_Z (py_round y)).
  intros. split; lra.
Qed.

Lemma hours_close (a mean : Q) :
  (Qabs (a - mean) <= 1 # 4194304)%Q -> (0 <= mean < 4294967296)%Q ->
  exists k, round_float (float_over (float_times 60 (Finite a)) 5) = Ok k /\
    (Qabs (inject_Z (5 * k) - 60 * mean) <= (5 # 2) + (1 # 1000))%Q.
Proof.
  intros Ha Hmean. cbn [float_times]. apply Qabs_Qle_condition in Ha.
  destruct (round64_error (60 * a) 39) as (b & -> & Hb).
  { change (2 ^ 39)%Q with 549755813888%Q. apply Qabs_Qlt_condition. split; lra. }
  { lia. }
  change (2 ^ (39 - 54))%Q with (1 # 32768)%Q in Hb. apply Qabs_Qle_condition in Hb.
  cbn [float_over].
  assert (Hfive : (b == 5 * (b / 5))%Q) by field.
  destruct (round64_error (b / 5) 40) as (y & -> & Hy).
  { change (2 ^ 40)%Q with 1099511627776%Q. apply Qabs_Qlt_condition.
    generalize dependent (b / 5)%Q. intros. split; lra. }
  { lia. }
  change (2 ^ (40 - 54))%Q with (1 # 16384)%Q in Hy.
  cbn [round_float]. eexists. split; [reflexivity|].
  pose proof (py_round_nearest y) as Hk.
  apply Qabs_Qle_condition in Hy, Hk. apply Qabs_Qle_condition.
  rewrite inject_Z_mult. change (inject_Z 5) with 5%Q.
  generalize dependent (b / 5)%Q. generalize dependent (inject_Z (py_round y)).
  intros. split; lra.
Qed.
End CloseDurations.

Section DurationResult.
Context {L : PyLib}.

Lemma extract_unfold text :
  Response.extract_activity_duration text
  = (ints ← embedded_integers text;
     if has_hour text then
       rounded ← round_float (float_over (float_times 60 (np_mean ints)) 5);
       mret (5 * rounded)
     else if has_minute text then
       rounded ← round_float (float_over (np_mean ints) 5);
       mret (5 * rounded)
     else Raise PyException).
Proof. reflexivity. Qed.

(** [5 * round(y)] is a multiple of 5 nearest to [5 * y], the even multiple
    when there are two. *)
Lemma five_rounds (x : float64) (r : Z) :
  (rounded ← round_float x; mret (5 * rounded)) = Ok r ->
  exists y, x = Finite y /\ (5 | r) /\
    (Qabs (inject_Z r - 5 * y) <= 5 # 2)%Q /\
    ((Qabs (inject_Z r - 5 * y) == 5 # 2)%Q -> Z.even (r / 5) = true).
Proof.
  destruct x as [y| |]; cbn; [|done|done]. intros [= <-].
  exists y. split; [done|]. split; [by exists (py_round y); lia|].
  assert (Hscale : (inject_Z (5 * py_round y) - 5 * y
                    == 5 * (inject_Z (py_round y) - y))%Q).
  { rewrite inject_Z_mult. change (inject_Z 5) with 5%Q. ring. }
  assert (Habs : (Qabs (inject_Z (5 * py_round y) - 5 * y)
                  == 5 * Qabs (inject_Z (py_round y) - y))%Q).
  { rewrite Hscale, Qabs_Qmult. by rewrite (Qabs_pos 5). }
  pose proof (py_round_nearest y) as Hnear. split.
  - rewrite Habs. lra.
  - intros Htie. replace (5 * py_round y / 5) with (py_round y)
      by (symmetry; rewrite Z.mul_comm; apply Z.div_mul; lia).
    apply py_round_tie_even. rewrite Habs in Htie. lra.
Qed.
End DurationResult.




(** ** The parsers on the example payloads *)

Example decode_garden :
  @ResponseParsers.decode_base64 standin_lib garden_blob = Ok "Quiet garden".
Proof. reflexivity. Qed.

Example description_without_metadata :
  @ResponseParsers.parse_business_description standin_lib payload_without_metadata
  = Ok "Quiet garden".
Proof. reflexivity. Qed.

Example description_missing :
  @ResponseParsers.parse_business_description standin_lib payload_without_description
  = Raise PyException.
Proof. reflexivity. Qed.

Example parse_complete :
  @Scraper.parse_attr_details_response standin_lib (paris None) payload_complete
  = Ok (JDict [("type", JStr ""); ("address", JStr ""); ("city", JStr "Paris");
               ("state", JStr ""); ("country", JStr "France");
               ("zip_code", JStr ""); ("rating", JFloat (5 # 2));
               ("review_count", JInt 0); ("image_url", JStr "");
               ("latitude", JFloat 48); ("longitude", JFloat 2);
               ("description", JStr "Quiet garden");
               ("activity_duration", JInt 45);
               ("website", JStr ""); ("tags", JList []);
               ("hours", JStr "")]).
Proof. reflexivity. Qed.

Example parse_without_metadata :
  @Scraper.parse_attr_details_response standin_lib (paris None) payload_without_metadata
  = Raise KeyError.
Proof. reflexivity. Qed.

Example city_id_example :
  @Scraper.get_city_id standin_lib standin_provider (paris None) = Ok (JInt 187147).
Proof. reflexivity. Qed.

Example max_attr_example :
  @Scraper.get_max_attr standin_provider (paris None) = Ok JNull.
Proof. reflexivity. Qed.

(** ** The index discoverer *)

Section MaxAttr.
Context {P : Provider}.
Implicit Types (item : json) (items pre post : list json).

Lemma max_attr_loop_skip pre : forall post,
  Forall (tagged_otherwise pagination) pre ->
  Scraper.max_attr_loop (pre ++ post) = Scraper.max_attr_loop post.
Proof.
  induction pre as [|item pre IH]; intros post Hpre; [done|].
  inversion Hpre as [|? ? (t & Ht & Hneq) Hrest]; subst.
  cbn [app Scraper.max_attr_loop]. rewrite Ht. cbn.
  unfold pagination in Hneq. rewrite Hneq. by apply IH.
Qed.

(** The scan stops at the first pagination section it meets, and answers
    with its total, or with 30 when the section has no total. *)
Lemma max_attr_loop_found pre item post :
  Forall (tagged_otherwise pagination) pre ->
  tagged pagination item ->
  Scraper.max_attr_loop (pre ++ item :: post)
  = dict_get item "totalResults" (JInt 30).
Proof.
  intros Hpre (t & Ht & Heq). rewrite max_attr_loop_skip by done.
  cbn [Scraper.max_attr_loop]. rewrite Ht. cbn.
  unfold pagination in Heq. by rewrite Heq.
Qed.

Lemma max_attr_loop_absent items :
  Forall (tagged_otherwise pagination) items ->
  Scraper.max_attr_loop items = Ok JNull.
Proof.
  intros Hall. rewrite <- (app_nil_r items). by rewrite max_attr_loop_skip.
Qed.

(** Where the claim of C3 holds: the last pagination section of the list
    decides, by its total when it has one and by 30 otherwise. *)
Lemma get_max_attr_found (self : Scraper.t) response before item after :
  is_none (Scraper.city_id self) = false ->
  get_sync_request (Request.load_attr_id_request_json (Scraper.city_id self) 0)
  = Ok response ->
  listing_sections response = Ok (JList (before ++ item :: after)) ->
  tagged pagination item ->
  Forall (tagged_otherwise pagination) after ->
  Scraper.get_max_attr self = dict_get item "totalResults" (JInt 30).
Proof.
  intros Hid Hresp Hsec Hitem Hafter. unfold Scraper.get_max_attr.
  rewrite Hid, Hresp. cbn [mbind result_bind].
  unfold listing_sections in Hsec.
  destruct (result0 response) as [x|]; [|done]. cbn [mbind result_bind] in *.
  rewrite Hsec. cbn [mbind result_bind iter_reversed].
  rewrite rev_app_distr. cbn [rev]. rewrite <- app_assoc. cbn [app].
  apply max_attr_loop_found; [|done].
  by apply Forall_rev.
Qed.
End MaxAttr.

(** C3 fails when the response has no pagination section: the loop ends
    without a [return], and the method answers [None] where the claim says
    30. *)
Theorem get_max_attr_without_pagination
  {P : Provider} (self : Scraper.t) (response : json) (sections : list json) :
  is_none (Scraper.city_id self) = false ->
  get_sync_request (Request.load_attr_id_request_json (Scraper.city_id self) 0)
  = Ok response ->
  listing_sections response = Ok (JList sections) ->
  Forall (tagged_otherwise pagination) sections ->
  Scraper.get_max_attr self = Ok JNull /\
  Scraper.get_max_attr self <> Ok (JInt 30).
Proof.
  intros Hid Hresp Hsec Hall.
  assert (Hnone : Scraper.get_max_attr self = Ok JNull).
  { unfold Scraper.get_max_attr. rewrite Hid, Hresp. cbn [mbind result_bind].
    unfold listing_sections in Hsec.
    destruct (result0 response) as [x|]; [|done]. cbn [mbind result_bind] in *.
    rewrite Hsec. cbn [mbind result_bind iter_reversed].
    apply max_attr_loop_absent. by apply Forall_rev. }
  split; [done|]. by rewrite Hnone.
Qed.

Lemma get_max_attr_without_pagination_witness :
  is_none (Scraper.city_id (paris None)) = false /\
  @get_sync_request standin_provider
    (Request.load_attr_id_request_json (Scraper.city_id (paris None)) 0)
  = Ok listing_page /\
  listing_sections listing_page = Ok (JList [card_section]) /\
  Forall (tagged_otherwise pagination) [card_section] /\
  @Scraper.get_max_attr standin_provider (paris None) = Ok JNull /\
  @Scraper.get_max_attr standin_provider (paris None) <> Ok (JInt 30).
Proof.
  assert (Hother : Forall (tagged_otherwise pagination) [card_section]).
  { constructor; [|constructor].
    exists (JStr "WebPresentation_SingleFlexCardSection"). by split. }
  split; [reflexivity|]. split; [reflexivity|]. split; [reflexivity|].
  split; [exact Hother|].
  exact (@get_max_attr_without_pagination standin_provider (paris None)
           listing_page [card_section] eq_refl eq_refl eq_refl Hother).
Defined.

(** ** The city resolver *)

Section CityResolver.
Context {L : PyLib} {P : Provider}.
Variable self : Scraper.t.
Implicit Types (item : json) (items pre post : list json).

Lemma Qltb_lt (a b : Q) : Qltb a b = true <-> (a < b)%Q.
Proof.
  unfold Qltb. rewrite negb_true_iff, <- not_true_iff_false, Qle_bool_iff.
  split; [apply Qnot_le_lt|apply Qlt_not_le].
Qed.

Lemma candidate_id_missing item :
  missing_coordinates item -> Scraper.candidate_id self item = Raise KeyError.
Proof.
  unfold missing_coordinates, coordinates, Scraper.candidate_id.
  destruct (x ← getitem item "details"; getitem x "latitude") as [la|e];
    cbn [mbind result_bind]; [|by intros [= ->]].
  destruct (x ← getitem item "details"; getitem x "longitude") as [lo|e];
    cbn [mbind result_bind]; [done|by intros [= ->]].
Qed.

Lemma candidate_id_distance item d :
  distance_to self item = Ok d ->
  Scraper.candidate_id self item
  = if Qltb d Config.MIN_DISTANCE then Some <$> getitem item "locationId"
    else Ok None.
Proof.
  unfold distance_to, coordinates, Scraper.candidate_id,
    ResponseParsers.compute_distance.
  destruct (x ← getitem item "details"; getitem x "latitude") as [la|e];
    cbn [mbind result_bind]; [|done].
  destruct (x ← getitem item "details"; getitem x "longitude") as [lo|e];
    cbn [mbind result_bind mret result_ret fst snd]; [|done].
  by intros ->.
Qed.

Lemma candidate_id_raises item err :
  distance_to self item = Raise err -> Scraper.candidate_id self item = Raise err.
Proof.
  unfold distance_to, coordinates, Scraper.candidate_id,
    ResponseParsers.compute_distance.
  destruct (x ← getitem item "details"; getitem x "latitude") as [la|e];
    cbn [mbind result_bind]; [|by intros [= ->]].
  destruct (x ← getitem item "details"; getitem x "longitude") as [lo|e];
    cbn [mbind result_bind mret result_ret fst snd]; [|by intros [= ->]].
  by intros ->.
Qed.

Lemma city_id_loop_skip pre : forall post,
  Forall (passed_over self) pre ->
  Scraper.city_id_loop self (pre ++ post) = Scraper.city_id_loop self post.
Proof.
  induction pre as [|item pre IH]; intros post Hpre; [done|].
  inversion Hpre as [|? ? Hitem Hrest]; subst.
  cbn [app Scraper.city_id_loop].
  destruct Hitem as [(t & Ht & Hneq)|[(t & Ht & Heq) Hwhy]];
    rewrite Ht; cbn [mbind result_bind]; unfold location_kind in *.
  - rewrite Hneq. by apply IH.
  - rewrite Heq. destruct Hwhy as [Hmiss|(d & Hd & Hfar)].
    + rewrite candidate_id_missing by done. cbn. by apply IH.
    + rewrite (candidate_id_distance item d) by done.
      destruct (Qltb d Config.MIN_DISTANCE) eqn:Hlt; [|by apply IH].
      by apply Qltb_lt in Hlt.
Qed.
End CityResolver.




(** ** The batch of records *)

Section FormatDetails.
Context {L : PyLib}.
Variable self : Scraper.t.
Implicit Types (item x : json) (data pre post : list json).

Lemma bind_raises_l {A B} (m : result A) (f : A -> result B) :
  raises m = true -> raises (m ≫= f) = true.
Proof. by destruct m. Qed.

Lemma bind_raises_r {A B} (m : result A) (f : A -> result B) :
  (forall a, raises (f a) = true) -> raises (m ≫= f) = true.
Proof. intros Hf. destruct m; [apply Hf|done]. Qed.

(** A failed description extraction fails the parse of the payload. *)
Lemma description_failure_fails_parse x :
  raises (ResponseParsers.parse_business_description x) = true ->
  raises (Scraper.parse_attr_details_response self x) = true.
Proof.
  intros Hdesc. unfold Scraper.parse_attr_details_response.
  apply bind_raises_r. intros general.
  destruct (Scraper.extract_lat_lng self x) as [latitude longitude].
  do 6 (apply bind_raises_r; intros ?).
  by apply bind_raises_l.
Qed.

Lemma parse_failure_fails_record x idx :
  raises (Scraper.parse_attr_details_response self x) = true ->
  raises (Scraper.attr_record self idx x) = true.
Proof.
  intros Hparse. unfold Scraper.attr_record.
  do 2 (apply bind_raises_r; intros ?).
  by apply bind_raises_l.
Qed.

Lemma format_loop_app pre : forall idx post,
  Scraper.format_loop self idx (pre ++ post)
  = Scraper.format_loop self idx pre
    ++ Scraper.format_loop self (idx + length pre) post.
Proof.
  induction pre as [|item pre IH]; intros idx post.
  - cbn. by rewrite Nat.add_0_r.
  - cbn [app Scraper.format_loop length]. rewrite IH.
    replace (S idx + length pre)%nat with (idx + S (length pre))%nat by lia.
    by destruct (Scraper.attr_record self idx item).
Qed.
End FormatDetails.

(** C6, as the code has it: when the parse of one payload raises, which a
    failed description extraction always brings about, exactly the record of
    that payload is missing from the batch: the records of the payloads
    before it and after it are those the payloads give at their own
    positions. *)
Theorem failed_parse_drops_record {L : PyLib}
  (self : Scraper.t) (pre post : list json) (x : json) :
  (raises (ResponseParsers.parse_business_description x) = true ->
   raises (Scraper.parse_attr_details_response self x) = true) /\
  (raises (Scraper.parse_attr_details_response self x) = true ->
   Scraper.format_attr_details self (pre ++ x :: post)
   = Scraper.format_attr_details self pre
     ++ Scraper.format_loop self (S (length pre)) post).
Proof.
  split; [apply description_failure_fails_parse|].
  intros Hparse. unfold Scraper.format_attr_details.
  rewrite format_loop_app. cbn [Nat.add Scraper.format_loop].
  pose proof (parse_failure_fails_record self x (length pre) Hparse) as Hrec.
  by destruct (Scraper.attr_record self (length pre) x).
Qed.

Lemma failed_parse_drops_record_witness :
  raises (@ResponseParsers.parse_business_description standin_lib
            payload_without_description) = true /\
  map (fun r => getitem r "tripadvisor_id")
      (@Scraper.format_attr_details standin_lib (paris (Some three_ids))
         [payload_complete; payload_without_description; payload_complete])
  = [Ok (JInt 1); Ok (JInt 3)].
Proof.
  split; [reflexivity|].
  destruct (@failed_parse_drops_record standin_lib (paris (Some three_ids))
              [payload_complete] [payload_complete] payload_without_description)
    as [Hdesc Hdrop].
  cbn [app] in Hdrop. rewrite (Hdrop (Hdesc eq_refl)). reflexivity.
Defined.

(** C6 as stated fails: a payload whose description is extracted, but which
    lacks the structured metadata block, gives no record either. *)
Lemma metadata_mismatch_counterexample :
  @ResponseParsers.parse_business_description standin_lib payload_without_metadata
  = Ok "Quiet garden" /\
  @Scraper.attr_id_field (paris (Some three_ids)) 0 "id" = Ok (JInt 1) /\
  @Scraper.parse_attr_details_response standin_lib (paris (Some three_ids))
     payload_without_metadata = Raise KeyError /\
  @Scraper.format_attr_details standin_lib (paris (Some three_ids))
     [payload_without_metadata] = [].
Proof. repeat split. Qed.

(** ** The list of attraction ids *)

Section AttrIds.
Context {L : PyLib} {P : Provider}.
Implicit Types (self : Scraper.t) (log : list request).

Lemma get_attr_ids_set self log ids :
  Scraper.attr_ids self = Some ids ->
  Scraper.get_attr_ids self log = (Ok self, log).
Proof. intros Hids. unfold Scraper.get_attr_ids. by rewrite Hids. Qed.

Lemma get_attr_ids_sets self log self' log' :
  Scraper.get_attr_ids self log = (Ok self', log') ->
  exists ids, Scraper.attr_ids self' = Some ids.
Proof.
  unfold Scraper.get_attr_ids, Scraper.gather.
  destruct (Scraper.attr_ids self) as [ids|] eqn:Hids.
  - intros [= <- <-]. by exists ids.
  - destruct (mapM get_async_request _) as [data|]; cbn [mbind result_bind]; [|done].
    destruct (mapM ResponseParsers.parse_attr_ids_response data) as [lists|];
      cbn [mbind result_bind]; [|done].
    destruct (Scraper.reduce_concat lists) as [ids|]; cbn; [|done].
    intros [= <- <-]. by exists ids.
Qed.

Lemma detail_requests_only (ids : list json) : forall requests,
  mapM (fun attr_id => Request.load_attr_detail_request_json <$> getitem attr_id "id") ids
  = Ok requests ->
  Forall is_detail_request requests.
Proof.
  induction ids as [|attr_id ids IH]; intros requests.
  - intros [= <-]. constructor.
  - cbn [mapM]. destruct (getitem attr_id "id") as [id|]; cbn; [|done].
    destruct (mapM _ ids) as [rest|]; cbn; [|done].
    intros [= <-]. constructor; [done|]. by apply IH.
Qed.
End AttrIds.

(** C10: once [attr_ids] is set, [get_attr_ids] fetches nothing and leaves
    the scraper as it is; a call that succeeds leaves [attr_ids] set, so that
    every later call is of that kind; and [get_attr_details] on a scraper
    whose ids are set sends detail requests only and returns the scraper
    unchanged. *)
Theorem attr_ids_written_once {L : PyLib} {P : Provider}
  (self : Scraper.t) (log : list request) :
  (forall ids, Scraper.attr_ids self = Some ids ->
     Scraper.get_attr_ids self log = (Ok self, log)) /\
  (forall self' log', Scraper.get_attr_ids self log = (Ok self', log') ->
     (exists ids, Scraper.attr_ids self' = Some ids) /\
     forall log'', Scraper.get_attr_ids self' log'' = (Ok self', log'')) /\
  (forall ids r log', Scraper.attr_ids self = Some ids ->
     Scraper.get_attr_details self log = (r, log') ->
     (exists sent, log' = log ++ sent /\ Forall is_detail_request sent) /\
     (forall self' details, r = Ok (self', details) -> self' = self)).
Proof.
  split; [intros ids; apply get_attr_ids_set|]. split.
  - intros self' log' Hrun.
    destruct (get_attr_ids_sets self log self' log' Hrun) as [ids Hids].
    split; [by exists ids|]. intros log''. by apply (get_attr_ids_set _ _ ids).
  - intros ids r log' Hids. unfold Scraper.get_attr_details.
    rewrite (get_attr_ids_set self log ids Hids), Hids.
    destruct (mapM _ (py_slice ids 0 (Scraper.max_attr self))) as [requests|err] eqn:Hreq.
    + unfold Scraper.gather. intros [= <- <-]. split.
      * exists requests. split; [done|]. by apply (detail_requests_only _ _ Hreq).
      * intros self' details.
        destruct (mapM get_async_request requests); cbn; [|done].
        by intros [= <- _].
    + intros [= <- <-]. split; [|done].
      exists []. by rewrite app_nil_r.
Qed.

Lemma attr_ids_written_once_witness :
  @Scraper.get_attr_ids standin_provider (paris None) []
  = (Ok (paris (Some one_id)), [AttrIdRequest (JInt 187147) 0]) /\
  forall log, @Scraper.get_attr_ids standin_provider
                (paris (Some one_id)) log
              = (Ok (paris (Some one_id)), log).
Proof.
  assert (Hrun : @Scraper.get_attr_ids standin_provider (paris None) []
                 = (Ok (paris (Some one_id)), [AttrIdRequest (JInt 187147) 0]))
    by reflexivity.
  split; [exact Hrun|].
  exact (proj2 (proj1 (proj2 (@attr_ids_written_once standin_lib standin_provider
                                (paris None) [])) _ _ Hrun)).
Defined.

(** * Further properties *)

(** ** The city cache: passes in general *)

Section CachePassSteps.
Implicit Types (pre suf : list CityTask) (s : CC.t) (f : FileSystem).

Lemma iterate_from_skip fuel pre c suf s f g :
  CC.cache s = pre ++ c :: suf -> processed c = true ->
  iterate_from fuel (length pre) (CC.mkRun s f g)
  = iterate_from fuel (length (pre ++ [c])) (CC.mkRun s f g).
Proof.
  intros Hc Hp. unfold iterate_from.
  by rewrite (advance_skip pre c suf s f g g).
Qed.

Lemma iterate_from_end fuel pre s f g :
  CC.cache s = pre ->
  iterate_from fuel (length pre) (CC.mkRun s f g)
  = ([], CC.mkRun s f CC.Finished).
Proof. intros Hc. unfold iterate_from. by rewrite (advance_end pre). Qed.

Lemma iterate_from_yield fuel pre c suf s f g :
  CC.cache s = pre ++ c :: suf -> processed c = false ->
  iterate_from (S fuel) (length pre) (CC.mkRun s f g)
  = if CC.num_processed s + 1 =? CC.cities_per_job s
    then ([claimed c],
          CC.mkRun (CC.self (resumed pre c suf s f)) (CC.fs (resumed pre c suf s f))
                   CC.Finished)
    else let '(yielded, r') :=
           iterate_from fuel (length (pre ++ [completed c])) (resumed pre c suf s f) in
         (claimed c :: yielded, r').
Proof.
  intros Hc Hp. unfold iterate_from at 1.
  rewrite (advance_yield pre c suf s f g) by done. cbn zeta.
  cbn [CC.iterate CC.next CC.gen CC.self CC.fs CC.cache CC.cities_per_job
       CC.num_processed].
  rewrite alter_middle. unfold resumed.
  cbn [CC.self CC.fs CC.cities_per_job CC.num_processed].
  destruct (_ =? _); [done|].
  rewrite length_app. cbn [length]. rewrite Nat.add_1_r.
  unfold iterate_from, completed.
  by destruct (CC.advance _ _) as [r1 [y|]].
Qed.

(** The counters after a pass with [n >= 1] tasks still allowed. *)
Lemma iterate_from_limited_counters suf : forall pre s f g fuel n,
  CC.cache s = pre ++ suf ->
  (1 <= n)%nat ->
  CC.cities_per_job s = CC.num_processed s + Z.of_nat n ->
  (length suf <= fuel)%nat ->
  CC.cities_per_job (CC.self (iterate_from fuel (length pre) (CC.mkRun s f g)).2)
  = CC.cities_per_job s /\
  CC.num_processed (CC.self (iterate_from fuel (length pre) (CC.mkRun s f g)).2)
  = CC.num_processed s + Z.of_nat (n `min` length (unprocessed suf)).
Proof.
  induction suf as [|c suf IH]; intros pre s f g fuel n Hc Hn HB Hfuel.
  - rewrite app_nil_r in Hc. rewrite iterate_from_end by done. cbn. lia.
  - destruct (processed c) eqn:Hp.
    + rewrite (iterate_from_skip fuel pre c suf) by done.
      destruct (IH (pre ++ [c]) s f g fuel n) as [Hcpj Hnum];
        [by rewrite <- app_assoc|done|done|cbn in Hfuel; lia|].
      rewrite Hcpj, Hnum. unfold unprocessed.
      rewrite filter_cons_False; [done|]. by rewrite Hp.
    + destruct fuel as [|fuel]; [cbn in Hfuel; lia|].
      rewrite (iterate_from_yield fuel pre c suf) by done.
      assert (Hunp : unprocessed (c :: suf) = c :: unprocessed suf).
      { unfold unprocessed. by rewrite filter_cons_True. }
      rewrite Hunp. cbn [length].
      destruct (Z.eqb_spec (CC.num_processed s + 1) (CC.cities_per_job s)) as [Heq|Hne].
      * cbn. split; [done|]. lia.
      * destruct n as [|n]; [lia|].
        destruct (IH (pre ++ [completed c])
                    (CC.self (resumed pre c suf s f)) (CC.fs (resumed pre c suf s f))
                    (CC.Suspended (length pre)) fuel n) as [Hcpj Hnum].
        -- cbn. by rewrite <- app_assoc.
        -- lia.
        -- cbn. lia.
        -- cbn in Hfuel. lia.
        -- change (CC.mkRun (CC.self (resumed pre c suf s f))
                     (CC.fs (resumed pre c suf s f)) (CC.Suspended (length pre)))
             with (resumed pre c suf s f) in Hcpj, Hnum.
           destruct (iterate_from fuel _ (resumed pre c suf s f)) as [ys r'].
           cbn [snd] in *. rewrite Hcpj, Hnum. cbn. split; [done|]. lia.
Qed.

Lemma complete_first_length l : forall n, length (complete_first n l) = length l.
Proof.
  induction l as [|c l IH]; intros [|n]; cbn; try done.
  destruct (processed c); cbn; by rewrite IH.
Qed.

Lemma cache_complete_unprocessed s :
  CC.cache_complete s = true <-> unprocessed (CC.cache s) = [].
Proof.
  unfold CC.cache_complete, unprocessed.
  induction (CC.cache s) as [|c l IH]; [done|]. cbn [forallb].
  destruct (processed c) eqn:Hp.
  - rewrite filter_cons_False by by rewrite Hp. by rewrite andb_true_l.
  - rewrite filter_cons_True by done. by split.
Qed.
End CachePassSteps.

(** X1: a pass over a fresh cache object with a limit [B >= 1] yields the
    first [B] unprocessed tasks in stored order, or all of them when there
    are fewer, each as it is once claimed; it ends with just these tasks
    completed and the counter at their number. *)
Theorem pass_yields_first_unprocessed
  (s : CC.t) (f : FileSystem) (B fuel : nat) :
  CC.num_processed s = 0 ->
  CC.cities_per_job s = Z.of_nat B ->
  (1 <= B)%nat ->
  (length (CC.cache s) < fuel)%nat ->
  (CC.pass fuel s f).1 = map claimed (take B (unprocessed (CC.cache s))) /\
  CC.gen (CC.pass fuel s f).2 = CC.Finished /\
  CC.cache (CC.self (CC.pass fuel s f).2) = complete_first B (CC.cache s) /\
  CC.num_processed (CC.self (CC.pass fuel s f).2)
  = Z.of_nat (B `min` length (unprocessed (CC.cache s))).
Proof.
  intros Hk HB HB1 Hfuel. destruct fuel as [|fuel]; [lia|].
  rewrite pass_iterate_from.
  destruct (iterate_from_limited (CC.cache s) [] s f CC.Created fuel B)
    as (r' & Hrun & Hcache & Hgen); [done|lia|lia|lia|].
  destruct (iterate_from_limited_counters (CC.cache s) [] s f CC.Created fuel B)
    as [_ Hnum]; [done|lia|lia|lia|].
  cbn [length app] in *. rewrite Hrun in *. cbn [fst snd] in *.
  repeat split; [done|done|]. rewrite Hnum, Hk. lia.
Qed.

Lemma pass_yields_first_unprocessed_witness :
  (CC.pass 3 (CC.mk 1 two_cities 0) home_files).1
  = map claimed (take 1 (unprocessed two_cities)) /\
  map processed (CC.cache (CC.self (CC.pass 3 (CC.mk 1 two_cities 0) home_files).2))
  = [true; false].
Proof.
  destruct (pass_yields_first_unprocessed (CC.mk 1 two_cities 0) home_files 1 3)
    as (Hys & _ & Hcache & _); [reflexivity|reflexivity|lia|cbn; lia|].
  split; [exact Hys|]. rewrite Hcache. reflexivity.
Defined.

(** X2: after such a pass [cache_complete] answers [True] exactly when the
    limit was at least the number of unprocessed tasks. *)
Theorem cache_complete_after_pass
  (s : CC.t) (f : FileSystem) (B fuel : nat) :
  CC.num_processed s = 0 ->
  CC.cities_per_job s = Z.of_nat B ->
  (1 <= B)%nat ->
  (length (CC.cache s) < fuel)%nat ->
  CC.cache_complete (CC.self (CC.pass fuel s f).2) = true
  <-> (length (unprocessed (CC.cache s)) <= B)%nat.
Proof.
  intros Hk HB HB1 Hfuel. destruct fuel as [|fuel]; [lia|].
  rewrite pass_iterate_from.
  destruct (iterate_from_limited (CC.cache s) [] s f CC.Created fuel B)
    as (r' & Hrun & Hcache & Hgen); [done|lia|lia|lia|].
  cbn [length app] in *. rewrite Hrun. cbn [snd].
  rewrite cache_complete_unprocessed, Hcache.
  pose proof (unprocessed_complete_first (CC.cache s) B) as Hlen.
  destruct (unprocessed (complete_first B (CC.cache s))) as [|c l] eqn:Hun.
  - cbn in Hlen. split; [lia|done].
  - cbn in Hlen. split; [done|lia].
Qed.

Lemma cache_complete_after_pass_witness :
  CC.cache_complete (CC.self (CC.pass 3 (CC.mk 2 two_cities 0) home_files).2) = true /\
  CC.cache_complete (CC.self (CC.pass 3 (CC.mk 1 two_cities 0) home_files).2) = false.
Proof.
  split.
  - apply (cache_complete_after_pass (CC.mk 2 two_cities 0) home_files 2 3);
      [reflexivity|reflexivity|lia|cbn; lia|vm_compute; lia].
  - apply not_true_is_false. intros Hc.
    apply (cache_complete_after_pass (CC.mk 1 two_cities 0) home_files 1 3) in Hc;
      [|reflexivity|reflexivity|lia|cbn; lia].
    vm_compute in Hc. lia.
Defined.

(** ** The city cache: what every step keeps *)

Section CacheInvariants.
Implicit Types (c : CityTask) (l : list CityTask) (r : CC.run).

Lemma evolves_refl c : evolves c c.
Proof. by repeat split. Qed.

Lemma evolves_trans c1 c2 c3 : evolves c1 c2 -> evolves c2 c3 -> evolves c1 c3.
Proof.
  intros [(Ha & Hb & Hc & Hd & He & Hf) Hp] [(Ha' & Hb' & Hc' & Hd' & He' & Hf') Hp'].
  split; [|by intros H; apply Hp', Hp].
  repeat split; congruence.
Qed.

Lemma evolves_set_processed c : evolves c (set_processed true c).
Proof. by repeat split. Qed.

Lemma evolves_set_success b c : evolves c (set_success b c).
Proof. by repeat split. Qed.

Lemma Forall2_evolves_refl l : Forall2 evolves l l.
Proof. induction l; constructor; [apply evolves_refl|done]. Qed.

Lemma Forall2_evolves_trans l1 : forall l2 l3,
  Forall2 evolves l1 l2 -> Forall2 evolves l2 l3 -> Forall2 evolves l1 l3.
Proof.
  induction l1 as [|c l1 IH]; intros l2 l3 H12 H23.
  - inversion H12; subst. by inversion H23.
  - inversion H12 as [|? c2 ? l2' Hc Hl]; subst.
    inversion H23 as [|? c3 ? l3' Hc' Hl']; subst.
    constructor; [by eapply evolves_trans|by eapply IH].
Qed.

Lemma Forall2_evolves_alter (g : CityTask -> CityTask) l : forall i,
  (forall c, evolves c (g c)) -> Forall2 evolves l (alter g i l).
Proof.
  induction l as [|c l IH]; intros i Hg; [constructor|].
  destruct i as [|i]; cbn.
  - constructor; [apply Hg|apply Forall2_evolves_refl].
  - constructor; [apply evolves_refl|by apply IH].
Qed.

Lemma advance_evolves from r :
  Forall2 evolves (CC.cache (CC.self r)) (CC.cache (CC.self (CC.advance from r).1)).
Proof.
  unfold CC.advance. destruct (CC.next_unprocessed _ _) as [idx|]; cbn.
  - eapply Forall2_evolves_trans.
    + apply (Forall2_evolves_alter (set_processed true)), evolves_set_processed.
    + apply (Forall2_evolves_alter (set_success false)), evolves_set_success.
  - apply Forall2_evolves_refl.
Qed.

Lemma next_evolves r :
  Forall2 evolves (CC.cache (CC.self r)) (CC.cache (CC.self (CC.next r).1)).
Proof.
  unfold CC.next. destruct (CC.gen r); [apply advance_evolves| |apply Forall2_evolves_refl].
  cbn [CC.num_processed CC.cities_per_job].
  pose proof (Forall2_evolves_alter (set_success true) (CC.cache (CC.self r)) idx
                (evolves_set_success true)) as Hdone.
  destruct (_ =? _); [exact Hdone|].
  eapply Forall2_evolves_trans; [exact Hdone|].
  match goal with |- context [CC.advance ?i ?r0] => apply (advance_evolves i r0) end.
Qed.

Lemma next_cwd r : cwd (CC.fs (CC.next r).1) = cwd (CC.fs r).
Proof. apply (next_files r EmptyString). Qed.

Lemma iterate_keeps_checkpoint fuel : forall r p,
  resolve (CC.fs r) Config.CACHE_FILENAME = p ->
  files (CC.fs r) !! p = Some (CC.cache (CC.self r)) ->
  files (CC.fs (CC.iterate fuel r).2) !! p
  = Some (CC.cache (CC.self (CC.iterate fuel r).2)).
Proof.
  induction fuel as [|fuel IH]; intros r p Hp Hinv; [done|].
  cbn [CC.iterate].
  pose proof (next_keeps_checkpoint r p Hp Hinv) as Hnext.
  pose proof (next_cwd r) as Hcwd.
  destruct (CC.next r) as [r1 [y|]]; cbn [fst snd] in *; [|done].
  specialize (IH r1 p). destruct (CC.iterate fuel r1) as [ys r2].
  cbn [fst snd] in *. apply IH; [|done].
  unfold resolve in *. by rewrite Hcwd.
Qed.
End CacheInvariants.

(** X3: whatever the limit and however far the iteration goes, the cache
    keeps its tasks in place: none is added, removed or moved, each stays the
    same city, and a task that was processed is still processed. *)
Theorem processed_never_reverts (fuel : nat) (r : CC.run) :
  Forall2 evolves (CC.cache (CC.self r)) (CC.cache (CC.self (CC.iterate fuel r).2)).
Proof.
  revert r. induction fuel as [|fuel IH]; intros r; [apply Forall2_evolves_refl|].
  cbn [CC.iterate]. pose proof (next_evolves r) as Hnext.
  destruct (CC.next r) as [r1 [y|]]; cbn [fst snd] in *; [|done].
  specialize (IH r1). destruct (CC.iterate fuel r1) as [ys r2]. cbn [snd] in *.
  by eapply Forall2_evolves_trans.
Qed.

(** X4: when [CACHE_FILENAME] resolves to the document the cache was loaded
    from, as it does in the directory of [config.py], that document holds the
    in-memory list wherever the iteration stops. *)
Theorem checkpoint_agrees_with_cache
  (BASE_FILEPATH : string) (B : Z) (f : FileSystem) (s : CC.t) (fuel : nat) :
  CC.init BASE_FILEPATH B f = Ok s ->
  resolve f Config.CACHE_FILENAME = resolve f (CC.CACHE_FILEPATH BASE_FILEPATH) ->
  files (CC.fs (CC.pass fuel s f).2) !! resolve f (CC.CACHE_FILEPATH BASE_FILEPATH)
  = Some (CC.cache (CC.self (CC.pass fuel s f).2)).
Proof.
  intros Hinit Hsame. unfold CC.pass. apply iterate_keeps_checkpoint; [done|].
  cbn. unfold CC.init, read_json in Hinit.
  destruct (files f !! _) as [doc|]; [|done]. cbn in Hinit. by inversion Hinit.
Qed.

Lemma checkpoint_agrees_with_cache_witness :
  CC.init job_base 1 home_files = Ok (CC.mk 1 two_cities 0) /\
  resolve home_files Config.CACHE_FILENAME
  = resolve home_files (CC.CACHE_FILEPATH job_base) /\
  (map processed <$>
     files (CC.fs (CC.pass 1 (CC.mk 1 two_cities 0) home_files).2)
       !! CC.CACHE_FILEPATH job_base)
  = Some [true; false].
Proof.
  split; [reflexivity|]. split; [reflexivity|].
  change (CC.CACHE_FILEPATH job_base)
    with (resolve home_files (CC.CACHE_FILEPATH job_base)) at 1.
  rewrite (checkpoint_agrees_with_cache job_base 1 home_files
             (CC.mk 1 two_cities 0) 1 eq_refl eq_refl).
  reflexivity.
Defined.

(** X5: the counter of a cache object is never reset.  A second pass over
    the object whose first pass ran under a limit [B >= 1] is not held by the
    limit: it yields every task the first pass left unprocessed. *)
Theorem second_pass_ignores_limit
  (s : CC.t) (f : FileSystem) (B fuel fuel' : nat) :
  CC.num_processed s = 0 ->
  CC.cities_per_job s = Z.of_nat B ->
  (1 <= B)%nat ->
  (length (CC.cache s) < fuel)%nat ->
  (length (CC.cache s) < fuel')%nat ->
  (CC.pass fuel' (CC.self (CC.pass fuel s f).2) (CC.fs (CC.pass fuel s f).2)).1
  = map claimed (unprocessed (CC.cache (CC.self (CC.pass fuel s f).2))) /\
  unprocessed
    (CC.cache (CC.self (CC.pass fuel' (CC.self (CC.pass fuel s f).2)
                                      (CC.fs (CC.pass fuel s f).2)).2)) = [].
Proof.
  intros Hk HB HB1 Hfuel Hfuel'.
  destruct fuel as [|fuel]; [lia|]. destruct fuel' as [|fuel']; [lia|].
  rewrite (pass_iterate_from fuel s f).
  destruct (iterate_from_limited (CC.cache s) [] s f CC.Created fuel B)
    as (r1 & Hrun & Hcache & Hgen); [done|lia|lia|lia|].
  destruct (iterate_from_limited_counters (CC.cache s) [] s f CC.Created fuel B)
    as [Hcpj Hnum]; [done|lia|lia|lia|].
  cbn [length app] in *. rewrite Hrun in *. cbn [fst snd] in *.
  rewrite pass_iterate_from.
  assert (Hlen : length (CC.cache (CC.self r1)) = length (CC.cache s))
    by (rewrite Hcache; apply complete_first_length).
  pose proof (unprocessed_complete_first (CC.cache s) B) as Hleft.
  rewrite <- Hcache in Hleft.
  destruct (Nat.le_gt_cases B (length (unprocessed (CC.cache s)))) as [Hle|Hgt].
  - destruct (iterate_from_unlimited (CC.cache (CC.self r1)) [] (CC.self r1) (CC.fs r1)
                CC.Created fuel') as (r2 & Hrun2 & Hcache2 & _); [done|lia|lia|].
    cbn [length app] in *. rewrite Hrun2. cbn [fst snd]. split; [done|].
    rewrite Hcache2. apply unprocessed_complete_all.
  - destruct (iterate_from_limited (CC.cache (CC.self r1)) [] (CC.self r1) (CC.fs r1)
                CC.Created fuel' (B - length (unprocessed (CC.cache s))))
      as (r2 & Hrun2 & Hcache2 & _); [done|lia|lia|lia|].
    cbn [length app] in *. rewrite Hrun2. cbn [fst snd].
    assert (Hnone : unprocessed (CC.cache (CC.self r1)) = []).
    { destruct (unprocessed (CC.cache (CC.self r1))); [done|cbn in Hleft; lia]. }
    split; [by rewrite Hnone, take_nil|].
    rewrite Hcache2.
    pose proof (unprocessed_complete_first (CC.cache (CC.self r1))
                  (B - length (unprocessed (CC.cache s)))) as Hleft2.
    rewrite Hnone in Hleft2.
    destruct (unprocessed (complete_first _ (CC.cache (CC.self r1)))); [done|].
    cbn in Hleft2. lia.
Qed.

Lemma second_pass_ignores_limit_witness :
  length (CC.pass 3 (CC.mk 1 three_cities 0) home_files).1 = 1%nat /\
  length (CC.pass 4 (CC.self (CC.pass 4 (CC.mk 1 three_cities 0) home_files).2)
                    (CC.fs (CC.pass 4 (CC.mk 1 three_cities 0) home_files).2)).1
  = 2%nat.
Proof.
  split; [reflexivity|].
  destruct (second_pass_ignores_limit (CC.mk 1 three_cities 0) home_files 1 4 4)
    as [Hys _]; [reflexivity|reflexivity|lia|cbn; lia|cbn; lia|].
  rewrite Hys. reflexivity.
Defined.

(** ** The job *)

Section ProcessLoop.
Variable harvest : CityTask -> result unit.

(** The loop of the job drives the generator as a plain [for] loop does, and
    writes an error file for each yielded city whose harvest raised. *)
Lemma process_loop_iterate fuel : forall r log,
  AirflowDag.process_loop harvest fuel r log
  = ((CC.iterate fuel r).2,
     log ++ omap (AirflowDag.failure harvest) (CC.iterate fuel r).1).
Proof.
  induction fuel as [|fuel IH]; intros r log; cbn [AirflowDag.process_loop CC.iterate].
  - by rewrite app_nil_r.
  - destruct (CC.next r) as [r1 [city_info|]]; [|by rewrite app_nil_r].
    assert (Hcons : forall ys,
              omap (AirflowDag.failure harvest) (city_info :: ys)
              = match harvest city_info with
                | Ok _ => omap (AirflowDag.failure harvest) ys
                | Raise err =>
                    (AirflowDag.error_path city_info, err)
                    :: omap (AirflowDag.failure harvest) ys
                end).
    { intros ys. change (omap (AirflowDag.failure harvest) (city_info :: ys))
        with (match AirflowDag.failure harvest city_info with
              | Some y => y :: omap (AirflowDag.failure harvest) ys
              | None => omap (AirflowDag.failure harvest) ys
              end).
      unfold AirflowDag.failure at 1. by destruct (harvest city_info). }
    destruct (harvest city_info) as [[]|err] eqn:Hh; rewrite IH;
      destruct (CC.iterate fuel r1) as [ys r2]; cbn [fst snd]; rewrite Hcons.
    + done.
    + by rewrite <- app_assoc.
Qed.
End ProcessLoop.

(** X6: a run of [process_cities] on a checkpoint with unprocessed tasks
    completes the first two of them, with [success] set, whether their
    harvest returned or raised: the [try] of the job catches the error, so
    that the generator resumes as after a success.  A failed harvest shows
    in the error file of its city only. *)
Theorem failed_harvest_marked_successful
  (harvest : CityTask -> result unit) (gcp_client : result unit)
  (BASE_FILEPATH : string) (f : FileSystem) (s : CC.t) (fuel : nat) :
  CC.init BASE_FILEPATH Config.AIRFLOW_CITIES_PER_JOB f = Ok s ->
  CC.cache_complete s = false ->
  gcp_client = Ok tt ->
  (length (CC.cache s) < fuel)%nat ->
  exists j,
    AirflowDag.process_cities harvest gcp_client BASE_FILEPATH f fuel = Ok j /\
    AirflowDag.killed j = false /\
    CC.cache (CC.self (AirflowDag.run j)) = complete_first 2 (CC.cache s) /\
    AirflowDag.error_log j
    = omap (AirflowDag.failure harvest)
           (map claimed (take 2 (unprocessed (CC.cache s)))).
Proof.
  intros Hinit Hopen Hclient Hfuel. unfold AirflowDag.process_cities.
  rewrite Hinit. cbn [mbind result_bind]. rewrite Hopen, Hclient.
  cbn [mbind result_bind]. rewrite process_loop_iterate.
  assert (Hs : CC.cities_per_job s = 2 /\ CC.num_processed s = 0).
  { unfold CC.init in Hinit. destruct (read_json _ _); [|done].
    cbn in Hinit. by inversion Hinit. }
  destruct Hs as [HB Hk]. destruct fuel as [|fuel]; [lia|].
  change (CC.iterate (S fuel) (CC.mkRun s f CC.Created)) with (CC.pass (S fuel) s f).
  rewrite pass_iterate_from.
  destruct (iterate_from_limited (CC.cache s) [] s f CC.Created fuel 2)
    as (r' & Hrun & Hcache & Hgen); [done|lia|lia|lia|].
  cbn [length app] in *. rewrite Hrun. cbn [fst snd].
  eexists. split; [reflexivity|]. by cbn.
Qed.

Lemma failed_harvest_marked_successful_witness :
  exists j,
    AirflowDag.process_cities failing_harvest (Ok tt) job_base home_files 4 = Ok j /\
    map success (CC.cache (CC.self (AirflowDag.run j))) = [true; true] /\
    AirflowDag.error_log j
    = [("error_log/paris.txt", Timeout); ("error_log/lyon.txt", Timeout)].
Proof.
  destruct (failed_harvest_marked_successful failing_harvest (Ok tt) job_base
              home_files (CC.mk 2 two_cities 0) 4)
    as (j & Hrun & _ & Hcache & Hlog);
    [reflexivity|reflexivity|reflexivity|cbn; lia|].
  exists j. split; [exact Hrun|]. rewrite Hcache, Hlog. split; reflexivity.
Defined.

(** ** The retry decorator and [batch_data] at their edges *)

(** X7: with a negative number of retries the loop of the decorator has no
    index to run on: the wrapped function is never invoked, nothing is slept,
    and the call returns [None]. *)
Theorem wrapped_negative_retries {V} (self : BT.t) (func : nat -> result V) :
  BT.retries self < 0 ->
  BT.wrapped self func = (Ok None, {| calls := 0; slept := [] |}).
Proof.
  intros Hneg. unfold BT.wrapped, py_range1.
  replace (Z.to_nat (BT.retries self + 1)) with 0%nat by lia. reflexivity.
Qed.

Lemma wrapped_negative_retries_witness :
  BT.retries (BT.init (-1) 1 [TooManyRequests]) < 0 /\
  BT.wrapped (BT.init (-1) 1 [TooManyRequests]) (fun _ => Ok 7)
  = (Ok None, {| calls := 0; slept := [] |}).
Proof.
  split; [cbn; lia|].
  apply (wrapped_negative_retries (BT.init (-1) 1 [TooManyRequests]) (fun _ => Ok 7)).
  cbn; lia.
Defined.

Section BatchCount.
Context {A : Type}.
Implicit Types (xs : list A).

Lemma chunks_length xs n m : length (chunks xs n m) = m.
Proof. unfold chunks. by rewrite length_map, length_seq. Qed.

Lemma chunks_bounded xs n m : Forall (fun b => (length b <= n)%nat) (chunks xs n m).
Proof.
  apply Forall_forall. intros b Hb. apply list_elem_of_lookup in Hb as [i Hi].
  apply chunks_lookup in Hi as [_ ->]. rewrite length_take. lia.
Qed.

Lemma batch_count_ceil xs n :
  (0 < n)%nat ->
  Z.of_nat (batch_count xs n) = (Z.of_nat (length xs) + Z.of_nat n - 1) / Z.of_nat n.
Proof.
  intros Hn. unfold batch_count.
  destruct (Z.ltb_spec 0 (Z.of_nat (length xs))) as [Hpos|Hzero].
  - rewrite Z2Nat.id; [f_equal; lia|]. apply Z.div_pos; lia.
  - replace (Z.of_nat (length xs)) with 0 by lia.
    rewrite Z.div_small; lia.
Qed.
End BatchCount.

(** X8: [batch_data] raises [ValueError] for the batch size 0, yields no
    batch at all for a negative size, whatever the data, and for a size
    [n >= 1] yields ceil(len / n) batches of at most [n] elements. *)
Theorem batch_data_count {A} (xs : list A) (n : Z) :
  (n = 0 -> Utils.batch_data xs n = Raise ValueError) /\
  (n < 0 -> Utils.batch_data xs n = Ok []) /\
  (1 <= n ->
   exists bs, Utils.batch_data xs n = Ok bs /\
     Z.of_nat (length bs) = (Z.of_nat (length xs) + n - 1) / n /\
     Forall (fun b => Z.of_nat (length b) <= n) bs).
Proof.
  split; [by intros ->|]. split.
  - intros Hneg. unfold Utils.batch_data, py_range.
    destruct (Z.eqb_spec n 0); [lia|]. destruct (Z.ltb_spec 0 n); [lia|].
    destruct (Z.ltb_spec (Z.of_nat (length xs)) 0); [lia|]. reflexivity.
  - intros Hn. set (k := Z.to_nat n). assert (Hk : (0 < k)%nat) by lia.
    replace n with (Z.of_nat k) by lia.
    exists (chunks xs k (batch_count xs k)).
    split; [by apply batch_data_chunks|]. split.
    + rewrite chunks_length. by apply batch_count_ceil.
    + eapply Forall_impl; [apply chunks_bounded|]. cbn. lia.
Qed.

Lemma batch_data_count_witness :
  Utils.batch_data [1; 2; 3] (-2) = Ok [] /\
  exists bs, Utils.batch_data [1; 2; 3; 4; 5; 6; 7] 3 = Ok bs /\
    Z.of_nat (length bs) = 3.
Proof.
  split; [apply (batch_data_count [1; 2; 3] (-2)); lia|].
  destruct (proj2 (proj2 (batch_data_count [1; 2; 3; 4; 5; 6; 7] 3)) ltac:(lia))
    as (bs & Hbs & Hlen & _).
  exists bs. split; [exact Hbs|]. rewrite Hlen. reflexivity.
Defined.

(** ** Embeddings and index entries *)

Section Embeddings.
Variable embedding_api : list string -> result (list json).
Variable embed : string -> json.
Hypothesis pointwise : forall prompts, embedding_api prompts = Ok (map embed prompts).

Lemma embeddings_loop_pointwise batches : forall embeddings sent,
  Embedding.embeddings_loop embedding_api batches embeddings sent
  = (Ok (embeddings ++ map embed (concat batches)), sent ++ batches).
Proof.
  induction batches as [|b batches IH]; intros embeddings sent; cbn.
  - by rewrite !app_nil_r.
  - rewrite pointwise, IH, map_app, <- !app_assoc. done.
Qed.
End Embeddings.

(** X9: when the embedding service answers every batch with one vector for
    each prompt, in order, [get_text_embeddings] returns one vector for each
    record, in the order of the records; the service is sent the prompts in
    order, in ceil(len / 100) batches of at most 100. *)
Theorem embeddings_in_record_order
  (embedding_api : list string -> result (list json)) (embed : string -> json)
  (data : list json) (prompts : list string) :
  (forall batch, embedding_api batch = Ok (map embed batch)) ->
  Embedding.construct_text_embedding_prompt data = Ok prompts ->
  exists sent,
    Embedding.get_text_embeddings embedding_api data = (Ok (map embed prompts), sent) /\
    length prompts = length data /\
    concat sent = prompts /\
    Z.of_nat (length sent) = (Z.of_nat (length data) + 99) / 100 /\
    Forall (fun batch => (length batch <= 100)%nat) sent.
Proof.
  intros Hapi Hprompts. unfold Embedding.get_text_embeddings. rewrite Hprompts.
  assert (Hlen : length prompts = length data).
  { unfold Embedding.construct_text_embedding_prompt in Hprompts.
    clear Hapi. revert prompts Hprompts.
    induction data as [|attr data IH]; intros prompts.
    - by intros [= <-].
    - cbn [mapM]. destruct (Embedding.prompt_of attr); cbn; [|done].
      destruct (mapM Embedding.prompt_of data) as [ps|]; cbn; [|done].
      intros [= <-]. cbn. f_equal. by apply IH. }
  change Config.OPENAI_EMBEDDING_BATCH with (Z.of_nat 100).
  rewrite batch_data_chunks by lia.
  rewrite (embeddings_loop_pointwise embedding_api embed Hapi).
  pose proof (batch_count_bounds prompts 100 ltac:(lia)) as [Hlb _].
  assert (Hcat : concat (chunks prompts 100 (batch_count prompts 100)) = prompts).
  { rewrite chunks_concat. by apply take_ge. }
  eexists. split; [cbn [app]; by rewrite Hcat|].
  split; [done|]. split; [done|]. split.
  - cbn [app]. rewrite chunks_length, batch_count_ceil by lia. rewrite Hlen.
    f_equal. lia.
  - apply chunks_bounded.
Qed.

Lemma embeddings_in_record_order_witness :
  Embedding.construct_text_embedding_prompt [louvre_record]
  = Ok ["Louvre Museum Art Art, History"] /\
  (Embedding.get_text_embeddings echo_api [louvre_record]).1
  = Ok [JDict [("embedding", JStr "Louvre Museum Art Art, History")]].
Proof.
  split; [reflexivity|].
  destruct (embeddings_in_record_order echo_api
              (fun prompt => JDict [("embedding", JStr prompt)])
              [louvre_record] ["Louvre Museum Art Art, History"])
    as (sent & Hrun & _); [reflexivity|reflexivity|].
  by rewrite Hrun.
Defined.

Section PineconeData.
Variable uuid4_hex : nat -> string.
Implicit Types (metadata_list entries : list json).

Lemma getindex_list (l : list json) (i : nat) :
  getindex (JList l) (Z.of_nat i)
  = match l !! i with
    | Some v => Ok v
    | None => Raise IndexError
    end.
Proof.
  unfold getindex. destruct (Z.ltb_spec (Z.of_nat i) 0); [lia|].
  destruct (Z.ltb_spec (Z.of_nat i) 0); [lia|]. by rewrite Nat2Z.id.
Qed.

Lemma assoc_set_lookup {V} key (v : V) d : assoc key (assoc_set key v d) = Some v.
Proof.
  induction d as [|[k w] d IH]; cbn.
  - by rewrite bool_decide_eq_true_2.
  - destruct (bool_decide (k = key)) eqn:Hk; cbn; by rewrite Hk.
Qed.

Ltac decide_keys :=
  repeat first [rewrite bool_decide_eq_true_2 by done
               |rewrite bool_decide_eq_false_2 by done].

Lemma entry_for_built (i : nat) (d : list (string * json)) (E values : json) :
  (x ← getindex E (Z.of_nat i); getitem x "embedding") = Ok values ->
  entry_for uuid4_hex i (JDict d) E
    (JDict [("id", JStr (uuid4_hex i));
            ("metadata", JDict (assoc_set "id" (JStr (uuid4_hex i)) d));
            ("values", values)]).
Proof.
  intros Hval. unfold entry_for. rewrite Hval.
  unfold getitem. cbn [assoc setitem]. decide_keys.
  cbn [mbind result_bind]. by rewrite assoc_set_lookup.
Qed.

Lemma pinecone_loop_entries metadata_list : forall idx embedding_list acc entries,
  PineconeDb.pinecone_loop uuid4_hex idx metadata_list embedding_list acc = Ok entries ->
  exists new, entries = acc ++ new /\
    Forall2 (fun '(i, metadata) e => entry_for uuid4_hex i metadata embedding_list e)
            (zip (seq idx (length metadata_list)) metadata_list) new.
Proof.
  induction metadata_list as [|metadata rest IH]; intros idx E acc entries.
  - intros [= <-]. exists []. split; [by rewrite app_nil_r|constructor].
  - cbn [PineconeDb.pinecone_loop].
    destruct metadata as [| | | | | |d]; try done.
    cbn [setitem mbind result_bind].
    destruct (x ← getindex E (Z.of_nat idx); getitem x "embedding") as [values|] eqn:Hval;
      cbn [mbind result_bind]; [|done].
    intros Hrun. apply IH in Hrun as (new & -> & Hnew).
    eexists (_ :: new). split; [by rewrite <- app_assoc|].
    cbn [length seq zip zip_with]. constructor; [|done].
    by apply entry_for_built.
Qed.

Lemma pinecone_loop_short metadata_list : forall idx embeddings acc,
  Forall (fun m => exists d, m = JDict d) metadata_list ->
  Forall (fun e => exists v, getitem e "embedding" = Ok v) embeddings ->
  (idx <= length embeddings < idx + length metadata_list)%nat ->
  PineconeDb.pinecone_loop uuid4_hex idx metadata_list (JList embeddings) acc
  = Raise IndexError.
Proof.
  induction metadata_list as [|metadata rest IH]; intros idx embeddings acc Hm He Hlen;
    [cbn in Hlen; lia|].
  inversion Hm as [|? ? [d ->] Hrest]; subst.
  cbn [PineconeDb.pinecone_loop setitem mbind result_bind].
  rewrite getindex_list.
  destruct (embeddings !! idx) as [e|] eqn:Hidx; cbn [mbind result_bind]; [|done].
  pose proof (lookup_lt_Some _ _ _ Hidx) as Hlt.
  rewrite Forall_forall in He.
  destruct (He e) as [v Hv]; [by eapply list_elem_of_lookup_2|].
  rewrite Hv. cbn [mbind result_bind].
  apply IH; [done|by apply Forall_forall|cbn in Hlen; lia].
Qed.
End PineconeData.

(** X10: [create_pinecone_data] pairs the record and the vector of each
    position: when it returns, it returns one entry for each record, in
    order, whose id is the identifier drawn for the position and is also the
    [id] written into its metadata, and whose values are the [embedding] of
    the vector at the position.  With fewer vectors than records it raises
    [IndexError]. *)
Theorem pinecone_entries_aligned
  (uuid4_hex : nat -> string) (metadata_list embeddings : list json) :
  (forall entries,
     PineconeDb.create_pinecone_data uuid4_hex metadata_list (JList embeddings)
     = Ok entries ->
     Forall2 (fun '(i, metadata) e => entry_for uuid4_hex i metadata (JList embeddings) e)
             (zip (seq 0 (length metadata_list)) metadata_list) entries) /\
  (Forall (fun m => exists d, m = JDict d) metadata_list ->
   Forall (fun e => exists v, getitem e "embedding" = Ok v) embeddings ->
   (length embeddings < length metadata_list)%nat ->
   PineconeDb.create_pinecone_data uuid4_hex metadata_list (JList embeddings)
   = Raise IndexError).
Proof.
  split.
  - intros entries Hrun. unfold PineconeDb.create_pinecone_data in Hrun.
    by apply pinecone_loop_entries in Hrun as (new & -> & Hnew).
  - intros Hm He Hlen. apply pinecone_loop_short; [done|done|lia].
Qed.

Lemma pinecone_entries_aligned_witness :
  PineconeDb.create_pinecone_data counter_uuid [louvre_record]
    (JList [JDict [("embedding", JList [JInt 1; JInt 2])]])
  = Ok [JDict [("id", JStr "id-0");
               ("metadata",
                JDict [("tripadvisor_id", JInt 1); ("name", JStr "Louvre");
                       ("type", JStr "Museum"); ("description", JStr "Art");
                       ("tags", JList [JStr "Art"; JStr "History"]);
                       ("id", JStr "id-0")]);
               ("values", JList [JInt 1; JInt 2])]] /\
  PineconeDb.create_pinecone_data counter_uuid [louvre_record] (JList [])
  = Raise IndexError.
Proof.
  split; [reflexivity|].
  apply (pinecone_entries_aligned counter_uuid [louvre_record] []).
  - constructor; [by eexists|constructor].
  - constructor.
  - cbn; lia.
Defined.

(** ** The response parsers *)

Section AttrIdsResponse.
Implicit Types (item : json) (items pre post acc : list json).

Lemma attr_ids_loop_card item rest acc :
  tagged card_kind item ->
  ResponseParsers.attr_ids_loop (item :: rest) acc
  = (entry ← card_fields item;
     ResponseParsers.attr_ids_loop rest (acc ++ [entry])).
Proof.
  intros (t & Ht & Heq). cbn [ResponseParsers.attr_ids_loop].
  rewrite Ht. cbn [mbind result_bind]. unfold card_kind in Heq. rewrite Heq.
  unfold card_fields.
  destruct (getitem item "singleFlexCardContent") as [card|]; cbn [mbind result_bind]; [|done].
  destruct (x ← getitem card "saveId"; getitem x "id") as [id|];
    cbn [mbind result_bind]; [|done].
  by destruct (x ← getitem card "cardTitle"; getitem x "text") as [name|].
Qed.

Lemma attr_ids_loop_other item rest acc :
  tagged_otherwise card_kind item ->
  ResponseParsers.attr_ids_loop (item :: rest) acc
  = ResponseParsers.attr_ids_loop rest acc.
Proof.
  intros (t & Ht & Hneq). cbn [ResponseParsers.attr_ids_loop].
  rewrite Ht. cbn [mbind result_bind]. unfold card_kind in Hneq. by rewrite Hneq.
Qed.

Lemma entry_of_card item entry :
  tagged card_kind item -> card_fields item = Ok entry -> entry_of item = Some entry.
Proof. intros (t & Ht & Heq) He. unfold entry_of. by rewrite Ht, Heq, He. Qed.

Lemma entry_of_other item : tagged_otherwise card_kind item -> entry_of item = None.
Proof. intros (t & Ht & Hneq). unfold entry_of. by rewrite Ht, Hneq. Qed.

Lemma attr_ids_loop_well_formed items : forall acc,
  Forall well_formed_section items ->
  ResponseParsers.attr_ids_loop items acc = Ok (acc ++ omap entry_of items).
Proof.
  induction items as [|item items IH]; intros acc Hall.
  - cbn. by rewrite app_nil_r.
  - inversion Hall as [|? ? Hitem Hrest]; subst.
    change (omap entry_of (item :: items))
      with (match entry_of item with
            | Some e => e :: omap entry_of items
            | None => omap entry_of items
            end).
    destruct Hitem as [Hother|[Hcard [entry Hentry]]].
    + rewrite attr_ids_loop_other, entry_of_other by done. by apply IH.
    + rewrite attr_ids_loop_card, (entry_of_card item entry) by done.
      rewrite Hentry. cbn [mbind result_bind]. rewrite IH by done.
      by rewrite <- app_assoc.
Qed.
End AttrIdsResponse.

(** X11: [parse_attr_ids_response] returns one entry for each card section
    of the page, in the order of the sections, and nothing for the other
    sections.  The parser has no [try]: a card that lacks its id or its
    title, met after well-formed sections, makes the whole page raise. *)
Theorem attr_ids_of_page (data : json) (items : list json) :
  page_sections data = Ok items ->
  (Forall well_formed_section items ->
   ResponseParsers.parse_attr_ids_response data = Ok (omap entry_of items)) /\
  (forall pre bad post err,
     items = pre ++ bad :: post ->
     Forall well_formed_section pre ->
     tagged card_kind bad ->
     card_fields bad = Raise err ->
     ResponseParsers.parse_attr_ids_response data = Raise err).
Proof.
  intros Hpage.
  assert (Hrun : ResponseParsers.parse_attr_ids_response data
                 = ResponseParsers.attr_ids_loop items []).
  { unfold ResponseParsers.parse_attr_ids_response. unfold page_sections in Hpage.
    destruct (x ← result0 data; getitem x "sections") as [sections|];
      cbn [mbind result_bind] in *; [|done].
    by rewrite Hpage. }
  rewrite Hrun. split.
  - intros Hall. by rewrite attr_ids_loop_well_formed.
  - intros pre bad post err -> Hpre Hbad Herr. clear Hrun Hpage.
    generalize (@nil json). induction pre as [|item pre IH]; intros acc.
    + cbn [app]. rewrite attr_ids_loop_card by done. by rewrite Herr.
    + inversion Hpre as [|? ? Hitem Hrest]; subst. cbn [app].
      destruct Hitem as [Hother|[Hcard [entry Hentry]]].
      * rewrite attr_ids_loop_other by done. by apply IH.
      * rewrite attr_ids_loop_card by done. rewrite Hentry.
        cbn [mbind result_bind]. by apply IH.
Qed.

Lemma attr_ids_of_page_witness :
  ResponseParsers.parse_attr_ids_response (page_of [pagination_section 97; card_section])
  = Ok one_id /\
  ResponseParsers.parse_attr_ids_response (page_of [card_section; broken_card])
  = Raise KeyError.
Proof.
  assert (Hcard : well_formed_section card_section).
  { right. split; [by exists (JStr card_kind)|]. by eexists. }
  split.
  - apply (proj1 (attr_ids_of_page (page_of [pagination_section 97; card_section])
                    [pagination_section 97; card_section] eq_refl)).
    constructor; [|constructor; [exact Hcard|constructor]].
    left. by exists (JStr "WebPresentation_PaginationLinksList").
  - apply (proj2 (attr_ids_of_page (page_of [card_section; broken_card])
                    [card_section; broken_card] eq_refl)
             [card_section] broken_card [] KeyError eq_refl).
    + constructor; [exact Hcard|constructor].
    + by exists (JStr card_kind).
    + reflexivity.
Defined.

Section Duration.
Context {L : PyLib}.
Implicit Types (item text : json) (rest : list json).

Lemma duration_of_entry item text :
  is_duration_entry item text ->
  ResponseParsers.duration_of_item item
  = Some <$> ResponseParsers.extract_activity_duration_of text.
Proof.
  intros ((t & Ht & Heq) & (i & Hi & Hdur) & Htext).
  unfold ResponseParsers.duration_of_item.
  rewrite Ht. cbn [mbind result_bind]. rewrite Heq, Hi.
  cbn [mbind result_bind]. rewrite Hdur, Htext. done.
Qed.
End Duration.

(** X12: in [parse_activity_duration] the first entry of the content list
    decides when it is a duration entry whose text parses.  When its text
    does not parse (it is no string, or has no digit or no unit word) the
    error is caught and the entry is passed over: with no entry left, the
    duration is the default of 45 minutes, not an error. *)
Theorem duration_failure_defaults {L : PyLib}
  (data item text : json) (rest : list json) :
  activity_content data = Ok (item :: rest) ->
  is_duration_entry item text ->
  (forall minutes,
     ResponseParsers.extract_activity_duration_of text = Ok minutes ->
     ResponseParsers.parse_activity_duration data = Ok minutes) /\
  (raises (ResponseParsers.extract_activity_duration_of text) = true ->
   ResponseParsers.parse_activity_duration data
   = Ok (ResponseParsers.duration_loop rest)) /\
  ResponseParsers.duration_loop [] = 45.
Proof.
  intros Hcontent Hitem.
  assert (Hrun : ResponseParsers.parse_activity_duration data
                 = Ok (ResponseParsers.duration_loop (item :: rest))).
  { unfold ResponseParsers.parse_activity_duration. unfold activity_content in Hcontent.
    destruct (x ← ResponseParsers.detail_section_groups data; x ← getindex x 1;
              x ← getitem x "about"; x ← getitem x "primary"; getitem x "content")
      as [items|]; cbn [mbind result_bind] in *; [|done].
    by rewrite Hcontent. }
  rewrite Hrun. cbn [ResponseParsers.duration_loop].
  rewrite (duration_of_entry item text Hitem).
  split; [by intros minutes ->|]. split; [|done].
  by destruct (ResponseParsers.extract_activity_duration_of text).
Qed.

Lemma duration_failure_defaults_witness :
  has_hour "a good while" = false /\ has_minute "a good while" = false /\
  @ResponseParsers.parse_activity_duration standin_lib
    (payload_with_content [duration_entry "a good while"]) = Ok 45 /\
  @ResponseParsers.parse_activity_duration standin_lib
    (payload_with_content [duration_entry "2-3 hours"]) = Ok 150.
Proof.
  split; [reflexivity|]. split; [reflexivity|].
  assert (Hentry : forall t, is_duration_entry (duration_entry t) (JStr t)).
  { intros t. split; [by exists (JStr "WebPresentation_AboutContentWeb")|].
    split; [by exists (JStr "DURATION")|done]. }
  split.
  - exact (proj1 (proj2 (@duration_failure_defaults standin_lib
                           (payload_with_content [duration_entry "a good while"])
                           _ _ [] eq_refl (Hentry "a good while"))) eq_refl).
  - exact (proj1 (@duration_failure_defaults standin_lib
                    (payload_with_content [duration_entry "2-3 hours"])
                    _ _ [] eq_refl (Hentry "2-3 hours")) 150 eq_refl).
Defined.

Section DecodeBase64.
Context {L : PyLib}.

Lemma py_slice_strip {A} (a mid b : list A) :
  length a = 4%nat -> length b = 4%nat ->
  py_slice (a ++ mid ++ b) 4 (-4) = mid.
Proof.
  intros Ha Hb. unfold py_slice, clamp_index. rewrite !length_app, Ha, Hb.
  destruct (Z.ltb_spec 4 0); [lia|]. destruct (Z.ltb_spec (-4) 0); [|lia].
  replace (Z.to_nat (Z.min 4 (Z.of_nat (4 + (length mid + 4))))) with (length a) by lia.
  rewrite drop_app_length.
  replace (Z.to_nat (Z.max 0 (Z.of_nat (4 + (length mid + 4)) + -4)) - length a)%nat
    with (length mid) by lia.
  by rewrite take_app_length.
Qed.

Lemma py_slice_strip_short {A} (l : list A) :
  (length l <= 8)%nat -> py_slice l 4 (-4) = [].
Proof.
  intros Hlen. unfold py_slice, clamp_index.
  destruct (Z.ltb_spec 4 0); [lia|]. destruct (Z.ltb_spec (-4) 0); [|lia].
  replace (Z.to_nat (Z.max 0 (Z.of_nat (length l) + -4))
           - Z.to_nat (Z.min 4 (Z.of_nat (length l))))%nat with 0%nat by lia.
  apply take_0.
Qed.
End DecodeBase64.

Section Characters.
Lemma utf8_chars_concat (bytes : list ascii) : concat (utf8_chars bytes) = bytes.
Proof.
  induction bytes as [|c bytes IH]; [done|]. cbn [utf8_chars].
  destruct (utf8_chars bytes) as [|[|d ch] chars]; cbn in *; try by rewrite <- IH.
  destruct (is_continuation d); cbn; by rewrite <- IH.
Qed.

(** The characters of a text make up the text. *)
Lemma text_of_characters (text : string) : text_of (characters text) = text.
Proof.
  unfold text_of, characters. rewrite utf8_chars_concat.
  apply string_of_list_ascii_of_string.
Qed.
End Characters.

Example slice_accented : str_slice accented_wrapper 4 (-4) = "abcd".
Proof. reflexivity. Qed.

Example characters_accented : length (characters accented_wrapper) = 12%nat.
Proof. reflexivity. Qed.

(** X13: [decode_base64] returns the decoded text without its first four
    and its last four characters, whatever the number of bytes that encode
    them; a decoded text of eight characters or fewer gives the empty
    string, not an error. *)
Theorem decode_base64_strips_wrapper {L : PyLib} (x : json) (text : string) :
  b64decode_utf8 x = Ok text ->
  (forall a mid b,
     characters text = a ++ mid ++ b -> length a = 4%nat -> length b = 4%nat ->
     text = text_of (a ++ mid ++ b) /\
     ResponseParsers.decode_base64 x = Ok (text_of mid)) /\
  ((length (characters text) <= 8)%nat ->
   ResponseParsers.decode_base64 x = Ok EmptyString).
Proof.
  intros Hdec. unfold ResponseParsers.decode_base64. rewrite Hdec.
  cbn [mbind result_bind mret result_ret]. unfold str_slice. split.
  - intros a mid b Htext Ha Hb. split.
    + by rewrite <- Htext, text_of_characters.
    + by rewrite Htext, py_slice_strip.
  - intros Hlen. by rewrite py_slice_strip_short.
Qed.

Lemma decode_base64_strips_wrapper_witness :
  @ResponseParsers.decode_base64 standin_lib garden_blob = Ok "Quiet garden" /\
  @ResponseParsers.decode_base64 standin_lib (JStr "PHA+PC9wPg==") = Ok "".
Proof.
  split.
  - apply (proj1 (@decode_base64_strips_wrapper standin_lib garden_blob
                    "<!--Quiet garden-->
" eq_refl)
             (characters "<!--") (characters "Quiet garden")
             (characters "-->
") eq_refl eq_refl eq_refl).
  - apply (proj2 (@decode_base64_strips_wrapper standin_lib (JStr "PHA+PC9wPg==")
                    "<p></p>" eq_refl)).
    by apply Nat.leb_le.
Defined.

Section Description.
Context {L : PyLib}.
Implicit Types (group : json) (pre post items : list json).

Lemma description_loop_skip pre : forall post,
  Forall passed_group pre ->
  ResponseParsers.description_loop (pre ++ post)
  = ResponseParsers.description_loop post.
Proof.
  induction pre as [|group pre IH]; intros post Hpre; [done|].
  inversion Hpre as [|? ? Hgroup Hrest]; subst.
  cbn [app ResponseParsers.description_loop].
  destruct Hgroup as [(t & Ht & Hneq)|[(t & Ht & Heq) Hfail]];
    rewrite Ht; cbn [mbind result_bind]; unfold about_kind in *.
  - rewrite Hneq. by apply IH.
  - rewrite Heq. destruct (ResponseParsers.description_of_item group); [done|].
    cbn [try_except]. by apply IH.
Qed.
End Description.

(** X14: [parse_business_description] returns the description of the first
    about-section group whose text can be read and decoded: it passes over
    the groups of another kind and, the error caught, over the about-section
    groups that fail.  When it has passed over every group it raises. *)
Theorem description_of_first_readable_group {L : PyLib} (data : json) (items : list json) :
  section_groups data = Ok items ->
  (forall pre group post description,
     items = pre ++ group :: post ->
     Forall passed_group pre ->
     tagged about_kind group ->
     ResponseParsers.description_of_item group = Ok description ->
     ResponseParsers.parse_business_description data = Ok description) /\
  (Forall passed_group items ->
   ResponseParsers.parse_business_description data = Raise PyException).
Proof.
  intros Hgroups.
  assert (Hrun : ResponseParsers.parse_business_description data
                 = ResponseParsers.description_loop items).
  { unfold ResponseParsers.parse_business_description. unfold section_groups in Hgroups.
    destruct (ResponseParsers.detail_section_groups data) as [groups|];
      cbn [mbind result_bind] in *; [|done].
    by rewrite Hgroups. }
  rewrite Hrun. split.
  - intros pre group post description -> Hpre (t & Ht & Heq) Hdesc.
    rewrite description_loop_skip by done. cbn [ResponseParsers.description_loop].
    rewrite Ht. cbn [mbind result_bind]. unfold about_kind in Heq.
    by rewrite Heq, Hdesc.
  - intros Hall. rewrite <- (app_nil_r items). by rewrite description_loop_skip.
Qed.

Lemma description_of_first_readable_group_witness :
  raises (@ResponseParsers.description_of_item standin_lib (about_group (JStr "abcde")))
  = true /\
  @ResponseParsers.parse_business_description standin_lib payload_two_abouts
  = Ok "Quiet garden".
Proof.
  split; [reflexivity|].
  apply (proj1 (@description_of_first_readable_group standin_lib payload_two_abouts
                  [about_group (JStr "abcde"); about_group garden_blob] eq_refl)
           [about_group (JStr "abcde")] (about_group garden_blob) [] "Quiet garden"
           eq_refl).
  - constructor; [|constructor]. right. split; [by exists (JStr about_kind)|done].
  - by exists (JStr about_kind).
  - reflexivity.
Defined.

Section FailSoft.
Context {L : PyLib}.
Implicit Types (items : list json).

Lemma website_loop_total items :
  Forall is_dict items -> exists website, ResponseParsers.website_loop items = Ok website.
Proof.
  induction items as [|item items IH]; intros Hall; [by eexists|].
  inversion Hall as [|? ? Hitem Hrest]; subst.
  destruct item; try done. cbn [ResponseParsers.website_loop dict_get mbind result_bind].
  destruct (eq_str _ _); [|by apply IH].
  destruct (ResponseParsers.website_of_item _) as [[website|]|]; [by eexists|by apply IH..].
Qed.

Lemma hours_loop_total items :
  Forall is_dict items -> exists hours, ResponseParsers.hours_loop items = Ok hours.
Proof.
  induction items as [|item items IH]; intros Hall; [by eexists|].
  inversion Hall as [|? ? Hitem Hrest]; subst.
  destruct item; try done. cbn [ResponseParsers.hours_loop dict_get mbind result_bind].
  destruct (eq_str _ _); [|by apply IH].
  destruct (ResponseParsers.hours_of_item _) as [hours|]; [by eexists|].
  cbn [try_except]. by apply IH.
Qed.
End FailSoft.

(** X15: the parsers of the tags, the website and the hours raise nowhere
    but on the fixed path to the detail sections, or, for the website and the
    hours, on a section that is no object.  Once the sections are read,
    the tags are always returned; when every section is an object, so are
    the website and the hours; with no section they are the empty list and
    the empty string. *)
Theorem section_parsers_fail_soft {L : PyLib} (data : json) :
  (forall err, ResponseParsers.detail_sections data = Raise err ->
     ResponseParsers.parse_business_tags data = Raise err /\
     ResponseParsers.parse_business_website data = Raise err /\
     ResponseParsers.parse_business_hours data = Raise err) /\
  (forall items, ResponseParsers.detail_sections data = Ok items ->
     (exists tags, ResponseParsers.parse_business_tags data = Ok tags) /\
     (Forall is_dict items ->
      (exists website, ResponseParsers.parse_business_website data = Ok website) /\
      (exists hours, ResponseParsers.parse_business_hours data = Ok hours)) /\
     (items = [] ->
      ResponseParsers.parse_business_tags data = Ok [] /\
      ResponseParsers.parse_business_website data = Ok EmptyString /\
      ResponseParsers.parse_business_hours data = Ok EmptyString)).
Proof.
  unfold ResponseParsers.parse_business_tags, ResponseParsers.parse_business_website,
    ResponseParsers.parse_business_hours.
  split.
  - intros err ->. by repeat split.
  - intros items ->. cbn [mbind result_bind mret result_ret]. split; [by eexists|].
    split.
    + intros Hall. split; [by apply website_loop_total|by apply hours_loop_total].
    + by intros ->.
Qed.

Lemma section_parsers_fail_soft_witness :
  @ResponseParsers.detail_sections payload_complete = Ok [] /\
  @ResponseParsers.parse_business_tags payload_complete = Ok [] /\
  @ResponseParsers.parse_business_website standin_lib payload_complete = Ok "" /\
  @ResponseParsers.parse_business_hours standin_lib payload_complete = Ok "".
Proof.
  split; [reflexivity|].
  exact (proj2 (proj2 (proj2 (@section_parsers_fail_soft standin_lib payload_complete)
                         [] eq_refl)) eq_refl).
Defined.

(** ** The scraper: resolution and construction *)

Section CityIdSound.
Context {L : PyLib} {P : Provider}.
Variable self : Scraper.t.
Implicit Types (item id : json) (items : list json).

Lemma candidate_id_some item id :
  Scraper.candidate_id self item = Ok (Some id) ->
  within_threshold self item /\ getitem item "locationId" = Ok id.
Proof.
  unfold Scraper.candidate_id, within_threshold, distance_to, coordinates,
    ResponseParsers.compute_distance.
  destruct (x ← getitem item "details"; getitem x "latitude") as [la|];
    cbn [mbind result_bind]; [|done].
  destruct (x ← getitem item "details"; getitem x "longitude") as [lo|];
    cbn [mbind result_bind mret result_ret fst snd]; [|done].
  destruct (geodesic_km _ _ la lo) as [d|]; cbn [mbind result_bind]; [|done].
  destruct (Qltb d Config.MIN_DISTANCE) eqn:Hlt; [|done].
  apply Qltb_lt in Hlt.
  destruct (getitem item "locationId") as [id'|]; cbn; [|done].
  intros [= ->]. split; [by exists d|done].
Qed.

Lemma city_id_loop_sound items id :
  Scraper.city_id_loop self items = Ok id ->
  id = JNull \/
  exists item, item ∈ items /\ tagged location_kind item /\
               within_threshold self item /\ getitem item "locationId" = Ok id.
Proof.
  induction items as [|item items IH]; cbn [Scraper.city_id_loop].
  - intros [= <-]. by left.
  - destruct (getitem item "__typename") as [t|] eqn:Ht; cbn [mbind result_bind]; [|done].
    assert (Hrest : Scraper.city_id_loop self items = Ok id ->
                    id = JNull \/
                    exists item', item' ∈ item :: items /\ tagged location_kind item' /\
                      within_threshold self item' /\ getitem item' "locationId" = Ok id).
    { intros Hrun. destruct (IH Hrun) as [->|(item' & Hin & Hrest)]; [by left|].
      right. exists item'. split; [by apply list_elem_of_further|done]. }
    destruct (eq_str t "Typeahead_LocationItem") eqn:Heq; [|done].
    destruct (Scraper.candidate_id self item) as [[id'|]|err] eqn:Hcand.
    + intros [= <-]. apply candidate_id_some in Hcand as [Hnear Hid].
      right. exists item. split; [apply list_elem_of_here|].
      split; [by exists t|done].
    + done.
    + by destruct (isinstance err KeyError).
Qed.
End CityIdSound.

(** X16: whatever the response, when [get_city_id] returns, it returns
    either [None] or the location id of a result that is of the location kind
    and lies below the threshold: never the id of a result of another kind,
    of a result without coordinates or of one too far away. *)
Theorem city_id_is_of_near_location {L : PyLib} {P : Provider}
  (self : Scraper.t) (id : json) :
  Scraper.get_city_id self = Ok id ->
  id = JNull \/
  exists response items item,
    get_sync_request
      (Request.load_city_id_request_json
         (Scraper.city self +:+ ", " +:+ Scraper.country self)%string) = Ok response /\
    autocomplete_results_of response = Ok items /\
    item ∈ items /\ tagged location_kind item /\
    within_threshold self item /\ getitem item "locationId" = Ok id.
Proof.
  unfold Scraper.get_city_id. cbn zeta.
  destruct (get_sync_request _) as [response|] eqn:Hresp; cbn [mbind result_bind]; [|done].
  destruct (x ← getindex response 0; x ← getitem x "data";
            x ← getitem x "Typeahead_autocomplete"; x ← getitem x "results"; iter x)
    as [items|] eqn:Hitems; cbn [mbind result_bind]; [|done].
  intros Hloop. apply city_id_loop_sound in Hloop as [->|(item & Hin & Hrest)];
    [by left|].
  right. by exists response, items, item.
Qed.

Lemma city_id_is_of_near_location_witness :
  @Scraper.get_city_id standin_lib standin_provider (paris None) = Ok (JInt 187147) /\
  exists item, item ∈ autocomplete_results /\
    @within_threshold standin_lib (paris None) item /\
    getitem item "locationId" = Ok (JInt 187147).
Proof.
  split; [reflexivity|].
  destruct (@city_id_is_of_near_location standin_lib standin_provider (paris None)
              (JInt 187147) eq_refl)
    as [Hnull|(response & items & item & Hresp & Hitems & Hin & _ & Hnear & Hid)];
    [discriminate Hnull|].
  cbn in Hresp. injection Hresp as <-.
  change (autocomplete_results_of autocomplete_answer) with (Ok autocomplete_results)
    in Hitems.
  injection Hitems as <-. by exists item.
Defined.

Section Init.
Context {L : PyLib} {P : Provider}.

Lemma ceiling_bounds (m : Z) :
  30 * (Qceiling (inject_Z m / 30) - 1) < m <= 30 * Qceiling (inject_Z m / 30).
Proof.
  pose proof (Qle_ceiling (inject_Z m / 30)) as Hle.
  pose proof (Qceiling_lt (inject_Z m / 30)) as Hlt.
  set (p := Qceiling (inject_Z m / 30)) in *. clearbody p.
  assert (Hm : (inject_Z m == 30 * (inject_Z m / 30))%Q) by field.
  replace (p - 1) with (p + -1) in Hlt by lia.
  rewrite inject_Z_plus in Hlt. change (inject_Z (-1)) with (-1)%Q in Hlt.
  split.
  - replace (p - 1) with (p + -1) by lia.
    rewrite Zlt_Qlt, inject_Z_mult, inject_Z_plus.
    change (inject_Z 30) with 30%Q. change (inject_Z (-1)) with (-1)%Q.
    generalize dependent (inject_Z m / 30)%Q. intros y Hle Hlt Hm.
    generalize dependent (inject_Z p). generalize dependent (inject_Z m).
    intros. lra.
  - rewrite Zle_Qle, inject_Z_mult. change (inject_Z 30) with 30%Q.
    generalize dependent (inject_Z m / 30)%Q. intros y Hle Hlt Hm.
    generalize dependent (inject_Z p). generalize dependent (inject_Z m).
    intros. lra.
Qed.

(** The integer above a number that lies between two neighbours. *)
Lemma Qceiling_between (q : Q) (k : Z) :
  (inject_Z k < q)%Q -> (q <= inject_Z (k + 1))%Q -> Qceiling q = k + 1.
Proof.
  intros Hlo Hhi. pose proof (Qle_ceiling q) as Hle. pose proof (Qceiling_lt q) as Hlt.
  assert (H1 : (inject_Z k < inject_Z (Qceiling q))%Q) by lra.
  assert (H2 : (inject_Z (Qceiling q - 1) < inject_Z (k + 1))%Q) by lra.
  rewrite <- Zlt_Qlt in H1, H2. lia.
Qed.

(** Below [30 * 2 ^ 49] the division by 30 rounds by less than a thirtieth,
    and the ceiling of the float is that of the quotient. *)
Lemma ceil_div_30_small (v : Z) :
  0 <= v < 30 * 2 ^ 49 ->
  ceil_div_30 (JInt v) = Ok (Qceiling (inject_Z v / 30)).
Proof.
  intros Hv. unfold ceil_div_30, true_div_30.
  pose proof (Z.div_mod v 30 ltac:(lia)) as Hdiv.
  pose proof (Z.mod_pos_bound v 30 ltac:(lia)) as Hmod.
  set (k := v / 30) in *. set (r := v mod 30) in *. clearbody k r.
  assert (Hx : (inject_Z v / 30 == inject_Z k + inject_Z r / 30)%Q).
  { rewrite Hdiv, inject_Z_plus, inject_Z_mult. change (inject_Z 30) with 30%Q. field. }
  assert (Hr : (0 <= inject_Z r < 30)%Q).
  { change 0%Q with (inject_Z 0). change 30%Q with (inject_Z 30).
    rewrite <- Zle_Qle, <- Zlt_Qlt. lia. }
  destruct (Z.eq_dec r 0) as [Hzero|Hpos].
  - destruct (round64_Z (inject_Z v / 30) k) as (q & -> & Hq).
    { rewrite Hx, Hzero. change (inject_Z 0) with 0%Q. field. }
    { lia. }
    cbn. f_equal. apply Qceiling_comp. rewrite Hq, Hx, Hzero.
    change (inject_Z 0) with 0%Q. field.
  - destruct (round64_error (inject_Z v / 30) 49) as (q & -> & Herr).
    { rewrite Qabs_pos.
      - apply Qlt_shift_div_r; [lra|].
        change (2 ^ 49 * 30)%Q with (inject_Z (2 ^ 49 * 30)).
        rewrite <- Zlt_Qlt. lia.
      - apply Qle_shift_div_l; [lra|]. rewrite Qmult_0_l.
        rewrite <- (Zle_Qle 0). lia. }
    { lia. }
    cbn. f_equal.
    change (2 ^ (49 - 54))%Q with (1 # 32)%Q in Herr.
    apply Qabs_Qle_condition in Herr.
    assert (Hr1 : (1 <= inject_Z r <= 29)%Q).
    { change 1%Q with (inject_Z 1). change 29%Q with (inject_Z 29).
      rewrite <- !Zle_Qle. lia. }
    rewrite (Qceiling_between q k), (Qceiling_between (inject_Z v / 30) k); [done| | | |];
      rewrite ?inject_Z_plus; change (inject_Z 1) with 1%Q;
      clear Hr Hdiv Hmod Hpos Hv;
      assert (Hthirty : (inject_Z r == 30 * (inject_Z r / 30))%Q) by field;
      generalize dependent (inject_Z v / 30)%Q; intros X;
      generalize dependent (inject_Z r / 30)%Q; intros T;
      generalize dependent (inject_Z k); intros K;
      generalize dependent (inject_Z r); intros R; intros; lra.
Qed.
End Init.

(** Past the bound the division rounds down to a whole number, and a page
    is missing. *)
Example pages_past_bound : ceil_div_30 (JInt (30 * 2 ^ 49 + 1)) = Ok (2 ^ 49).
Proof. vm_compute. reflexivity. Qed.

(** X17: the constructor raises [TypeError] whenever the count of
    attractions comes back as [None]: when no city was resolved, since then
    [get_max_attr] returns at once, and when the listing has no total. *)
Theorem init_raises_without_total {L : PyLib} {P : Provider}
  (city_info : CityTask) (max_attr : option Z) :
  (Scraper.get_city_id (ScraperInit.started city_info JNull) = Ok JNull ->
   ScraperInit.init city_info max_attr = Raise TypeError) /\
  (forall city_id,
     Scraper.get_city_id (ScraperInit.started city_info JNull) = Ok city_id ->
     Scraper.get_max_attr (ScraperInit.started city_info city_id) = Ok JNull ->
     ScraperInit.init city_info max_attr = Raise TypeError).
Proof.
  assert (Hgen : forall city_id,
            Scraper.get_city_id (ScraperInit.started city_info JNull) = Ok city_id ->
            Scraper.get_max_attr (ScraperInit.started city_info city_id) = Ok JNull ->
            ScraperInit.init city_info max_attr = Raise TypeError).
  { intros city_id Hid Hmax. unfold ScraperInit.init. rewrite Hid.
    cbn [mbind result_bind]. rewrite Hmax. cbn [mbind result_bind].
    by destruct max_attr. }
  split; [|exact Hgen]. intros Hid. by apply (Hgen JNull).
Qed.

Lemma init_raises_without_total_witness :
  @Scraper.get_city_id standin_lib nowhere_provider
     (ScraperInit.started paris_task JNull) = Ok JNull /\
  @ScraperInit.init standin_lib nowhere_provider paris_task None = Raise TypeError /\
  @ScraperInit.init standin_lib standin_provider paris_task (Some 10) = Raise TypeError.
Proof.
  split; [reflexivity|]. split.
  - by apply (proj1 (@init_raises_without_total standin_lib nowhere_provider
                       paris_task None)).
  - by apply (proj2 (@init_raises_without_total standin_lib standin_provider
                       paris_task (Some 10)) (JInt 187147)).
Defined.

(** X18: when the listing counts [total] attractions, the constructor keeps
    the smaller of [total] and the caller's cap as [max_attr]; while this
    number is not negative and below [30 * 2 ^ 49], where the division by 30
    in binary64 still tells the quotients apart, [max_pages] is the least
    number of pages of 30 that hold as many. *)
Theorem init_pages {L : PyLib} {P : Provider}
  (city_info : CityTask) (max_attr : option Z) (city_id : json) (total : Z) :
  Scraper.get_city_id (ScraperInit.started city_info JNull) = Ok city_id ->
  Scraper.get_max_attr (ScraperInit.started city_info city_id) = Ok (JInt total) ->
  0 <= from_option (Z.min total) total max_attr < 30 * 2 ^ 49 ->
  exists pages,
    ScraperInit.init city_info max_attr
    = Ok (ScraperInit.mkAttrs city_id
            (JInt (from_option (Z.min total) total max_attr)) pages) /\
    30 * (pages - 1) < from_option (Z.min total) total max_attr <= 30 * pages.
Proof.
  intros Hid Hmax Hsmall. unfold ScraperInit.init. rewrite Hid. cbn [mbind result_bind].
  rewrite Hmax. cbn [mbind result_bind].
  assert (Hcap : match max_attr with
                 | Some cap => min_with_cap (JInt total) cap
                 | None => Ok (JInt total)
                 end = Ok (JInt (from_option (Z.min total) total max_attr))).
  { destruct max_attr as [cap|]; [|done]. unfold min_with_cap. cbn.
    destruct (Qltb (inject_Z cap) (inject_Z total)) eqn:Hlt.
    - apply Qltb_lt in Hlt. rewrite <- Zlt_Qlt in Hlt. do 2 f_equal. lia.
    - apply not_true_iff_false in Hlt. rewrite Qltb_lt, <- Zlt_Qlt in Hlt.
      do 2 f_equal. lia. }
  rewrite Hcap. cbn [mbind result_bind]. rewrite ceil_div_30_small by done.
  cbn [mbind result_bind mret result_ret].
  eexists. split; [reflexivity|]. apply ceiling_bounds.
Qed.

Lemma init_pages_witness :
  @ScraperInit.init standin_lib counted_provider paris_task None
  = Ok (ScraperInit.mkAttrs (JInt 187147) (JInt 97) 4) /\
  @ScraperInit.init standin_lib counted_provider paris_task (Some 60)
  = Ok (ScraperInit.mkAttrs (JInt 187147) (JInt 60) 2).
Proof.
  split.
  - destruct (@init_pages standin_lib counted_provider paris_task None
                (JInt 187147) 97 eq_refl eq_refl ltac:(cbn; lia))
      as (pages & Hrun & Hlo & Hhi).
    cbn in Hlo, Hhi. rewrite Hrun. do 2 f_equal. lia.
  - destruct (@init_pages standin_lib counted_provider paris_task (Some 60)
                (JInt 187147) 97 eq_refl eq_refl ltac:(cbn; lia))
      as (pages & Hrun & Hlo & Hhi).
    cbn in Hlo, Hhi. rewrite Hrun. do 2 f_equal. lia.
Defined.

(** ** The scraper: ids, details and records *)

Section AttrIdsFetch.
Context {P : Provider}.
Implicit Types (self : Scraper.t) (log : list request).

Lemma foldl_app_concat (first : list json) (rest : list (list json)) :
  foldl (fun x y => x ++ y) first rest = first ++ concat rest.
Proof.
  revert first. induction rest as [|l rest IH]; intros first; cbn.
  - by rewrite app_nil_r.
  - by rewrite IH, <- app_assoc.
Qed.

Lemma reduce_concat_ok lists ids :
  Scraper.reduce_concat lists = Ok ids -> ids = concat lists /\ lists <> [].
Proof.
  destruct lists as [|first rest]; [done|]. cbn. intros [= <-].
  by rewrite foldl_app_concat.
Qed.

Lemma listing_requests_eq self :
  map (Request.load_attr_id_request_json (Scraper.city_id self))
      (py_range1 (Scraper.max_pages self))
  = listing_requests self.
Proof. reflexivity. Qed.
End AttrIdsFetch.

(** X19: on a scraper whose ids are not set, [get_attr_ids] sends one
    listing request for each page below [max_pages], in order, at the offsets
    0, 30, 60 and so on, whether it succeeds or not.  With no page to fetch
    it raises [TypeError], the reduction having nothing to start from.  When
    it succeeds the ids are those parsed from the pages, put end to end in
    the order of the pages, and no other attribute has changed. *)
Theorem attr_ids_fetched_in_page_order {P : Provider}
  (self : Scraper.t) (log : list request) :
  Scraper.attr_ids self = None ->
  (Scraper.get_attr_ids self log).2 = log ++ listing_requests self /\
  (Scraper.max_pages self <= 0 ->
   Scraper.get_attr_ids self log = (Raise TypeError, log)) /\
  (forall self', (Scraper.get_attr_ids self log).1 = Ok self' ->
     exists data lists,
       mapM get_async_request (listing_requests self) = Ok data /\
       mapM ResponseParsers.parse_attr_ids_response data = Ok lists /\
       self' = Scraper.set_attr_ids self (concat lists)).
Proof.
  intros Hunset. unfold Scraper.get_attr_ids, Scraper.gather. rewrite Hunset.
  rewrite listing_requests_eq. split; [done|]. split.
  - intros Hpages. unfold listing_requests, py_range1.
    replace (Z.to_nat (Scraper.max_pages self)) with 0%nat by lia.
    cbn. by rewrite app_nil_r.
  - intros self'. cbn [fst].
    destruct (mapM get_async_request (listing_requests self)) as [data|] eqn:Hdata;
      cbn [mbind result_bind]; [|done].
    destruct (mapM ResponseParsers.parse_attr_ids_response data) as [lists|] eqn:Hlists;
      cbn [mbind result_bind]; [|done].
    destruct (Scraper.reduce_concat lists) as [ids|] eqn:Hids; cbn; [|done].
    intros [= <-]. apply reduce_concat_ok in Hids as [-> _]. by exists data, lists.
Qed.

Lemma attr_ids_fetched_in_page_order_witness :
  (@Scraper.get_attr_ids standin_provider (paris_pages 3) []).2
  = [AttrIdRequest (JInt 187147) 0; AttrIdRequest (JInt 187147) 30;
     AttrIdRequest (JInt 187147) 60] /\
  @Scraper.get_attr_ids standin_provider (paris_pages 0) [] = (Raise TypeError, []).
Proof.
  destruct (@attr_ids_fetched_in_page_order standin_provider (paris_pages 3) [] eq_refl)
    as (Hlog & _).
  destruct (@attr_ids_fetched_in_page_order standin_provider (paris_pages 0) [] eq_refl)
    as (_ & Hnone & _).
  split; [by rewrite Hlog|]. apply Hnone. cbn; lia.
Defined.

Section FormatSound.
Context {L : PyLib}.
Variable self : Scraper.t.
Implicit Types (data : list json) (r item : json).

Lemma format_loop_length data : forall idx,
  (length (Scraper.format_loop self idx data) <= length data)%nat.
Proof.
  induction data as [|item data IH]; intros idx; cbn; [done|].
  specialize (IH (S idx)).
  destruct (Scraper.attr_record self idx item); cbn; lia.
Qed.

Lemma format_loop_elem data : forall idx r,
  r ∈ Scraper.format_loop self idx data <->
  exists k item, data !! k = Some item /\
                 Scraper.attr_record self (idx + k) item = Ok r.
Proof.
  induction data as [|item data IH]; intros idx r; cbn [Scraper.format_loop].
  - split; [by intros ?%elem_of_nil|by intros (k & it & ? & _)].
  - assert (Hshift : (exists k it, data !! k = Some it /\
                        Scraper.attr_record self (S idx + k) it = Ok r) <->
                     (exists k it, (item :: data) !! S k = Some it /\
                        Scraper.attr_record self (idx + S k) it = Ok r)).
    { split; intros (k & it & Hk & Hrec); exists k, it; split; try done;
        by replace (idx + S k)%nat with (S idx + k)%nat in * by lia. }
    destruct (Scraper.attr_record self idx item) as [r0|err] eqn:Hrec.
    + rewrite elem_of_cons, IH, Hshift. split.
      * intros [->|(k & it & Hk & Hr)].
        -- exists 0%nat, item. by rewrite Nat.add_0_r.
        -- by exists (S k), it.
      * intros ([|k] & it & Hk & Hr).
        -- left. cbn in Hk. injection Hk as <-. rewrite Nat.add_0_r in Hr. congruence.
        -- right. by exists k, it.
    + rewrite IH, Hshift. split.
      * intros (k & it & Hk & Hr). by exists (S k), it.
      * intros ([|k] & it & Hk & Hr).
        -- cbn in Hk. injection Hk as <-. rewrite Nat.add_0_r in Hr. congruence.
        -- by exists k, it.
Qed.
End FormatSound.

(** X20: [format_attr_details] returns a record for a payload exactly when
    the parse of the payload succeeds, built with the id and the name that
    [attr_ids] holds at the position of the payload; it returns no more
    records than there are payloads, and none while [attr_ids] is unset. *)
Theorem format_attr_details_sound {L : PyLib} (self : Scraper.t) (data : list json) :
  (length (Scraper.format_attr_details self data) <= length data)%nat /\
  (forall r, r ∈ Scraper.format_attr_details self data <->
     exists idx item, data !! idx = Some item /\
                      Scraper.attr_record self idx item = Ok r) /\
  (forall r idx item, Scraper.attr_record self idx item = Ok r ->
     getitem r "tripadvisor_id" = Scraper.attr_id_field self idx "id" /\
     getitem r "name" = Scraper.attr_id_field self idx "name") /\
  (Scraper.attr_ids self = None -> Scraper.format_attr_details self data = []).
Proof.
  unfold Scraper.format_attr_details. split; [apply format_loop_length|].
  split; [intros r; apply format_loop_elem|]. split.
  - intros r idx item Hrec. unfold Scraper.attr_record in Hrec.
    destruct (Scraper.attr_id_field self idx "id") as [id|]; cbn [mbind result_bind] in *;
      [|done].
    destruct (Scraper.attr_id_field self idx "name") as [name|];
      cbn [mbind result_bind] in *; [|done].
    destruct (Scraper.parse_attr_details_response self item) as [parsed|];
      cbn [mbind result_bind] in *; [|done].
    destruct parsed; try done. by injection Hrec as <-.
  - intros Hunset. generalize 0%nat. induction data as [|item data IH]; intros idx; [done|].
    cbn [Scraper.format_loop].
    assert (Hrec : Scraper.attr_record self idx item = Raise TypeError).
    { unfold Scraper.attr_record, Scraper.attr_id_field. by rewrite Hunset. }
    rewrite Hrec. apply IH.
Qed.

Lemma format_attr_details_sound_witness :
  map (fun r => getitem r "name")
      (@Scraper.format_attr_details standin_lib (paris (Some three_ids))
         [payload_without_metadata; payload_complete])
  = [Ok (JStr "Orsay")] /\
  @Scraper.format_attr_details standin_lib (paris None) [payload_complete] = [].
Proof.
  split; [reflexivity|].
  by apply (proj2 (proj2 (proj2 (@format_attr_details_sound standin_lib (paris None)
                                   [payload_complete])))).
Defined.

Section DetailRequests.
Context {L : PyLib} {P : Provider}.

Lemma py_slice_prefix {A} (l : list A) (m : Z) :
  0 <= m -> py_slice l 0 m = take (Z.to_nat m) l.
Proof.
  intros Hm. unfold py_slice, clamp_index.
  destruct (Z.ltb_spec 0 0); [lia|]. destruct (Z.ltb_spec m 0); [lia|].
  replace (Z.to_nat (Z.min 0 (Z.of_nat (length l)))) with 0%nat by lia.
  rewrite drop_0, Nat.sub_0_r.
  destruct (Z.le_gt_cases m (Z.of_nat (length l))) as [Hle|Hgt].
  - f_equal. lia.
  - rewrite !take_ge; [done|lia|lia].
Qed.

Lemma detail_requests_of_ids (ids : list json) :
  mapM (fun attr_id => Request.load_attr_detail_request_json <$> getitem attr_id "id") ids
  = map AttrDetailRequest <$> mapM (fun attr_id => getitem attr_id "id") ids.
Proof.
  induction ids as [|attr_id ids IH]; [done|]. cbn [mapM]. rewrite IH.
  destruct (getitem attr_id "id"); [|done].
  by destruct (mapM (fun attr_id => getitem attr_id "id") ids).
Qed.

Lemma ids_of_length (l : list json) : forall wanted,
  mapM (fun attr_id => getitem attr_id "id") l = Ok wanted ->
  length wanted = length l.
Proof.
  induction l as [|a l IH]; intros wanted.
  - by intros [= <-].
  - cbn [mapM]. destruct (getitem a "id"); cbn; [|done].
    destruct (mapM _ l) as [w|]; cbn; [|done].
    intros [= <-]. cbn. f_equal. by apply IH.
Qed.
End DetailRequests.

(** X21: on a scraper whose ids are set and whose [max_attr] is not
    negative, [get_attr_details] sends one detail request for each of the
    first [max_attr] ids, in order, and for no other; when one of these
    entries has no [id], it raises before any request is sent. *)
Theorem detail_requests_for_first_ids {L : PyLib} {P : Provider}
  (self : Scraper.t) (log : list request) (ids : list json) :
  Scraper.attr_ids self = Some ids ->
  0 <= Scraper.max_attr self ->
  (forall wanted, requested_ids self ids = Ok wanted ->
     (Scraper.get_attr_details self log).2 = log ++ map AttrDetailRequest wanted /\
     length wanted = (Z.to_nat (Scraper.max_attr self) `min` length ids)%nat) /\
  (forall err, requested_ids self ids = Raise err ->
     Scraper.get_attr_details self log = (Raise err, log)).
Proof.
  intros Hids Hmax. unfold Scraper.get_attr_details, requested_ids.
  rewrite (get_attr_ids_set self log ids Hids), Hids.
  rewrite py_slice_prefix by done. rewrite detail_requests_of_ids. split.
  - intros wanted Hwanted. rewrite Hwanted. cbn [fmap result_fmap].
    unfold Scraper.gather. cbn [snd]. split; [done|].
    rewrite (ids_of_length _ _ Hwanted). apply length_take.
  - intros err ->. done.
Qed.

Lemma detail_requests_for_first_ids_witness :
  (@Scraper.get_attr_details standin_lib standin_provider paris_two_details []).2
  = [AttrDetailRequest (JInt 1); AttrDetailRequest (JInt 2)].
Proof.
  by apply (proj1 (@detail_requests_for_first_ids standin_lib standin_provider
                     paris_two_details [] three_ids eq_refl ltac:(cbn; lia))
              [JInt 1; JInt 2] eq_refl).
Defined.

(** ** From the records of the scraper to the prompts *)

Section RecordPrompt.
Context {L : PyLib}.

Lemma str_of_strings (items : list string) : mapM str_of (map JStr items) = Ok items.
Proof.
  induction items as [|item items IH]; [done|]. cbn [map mapM str_of].
  cbn [mbind result_bind]. by rewrite IH.
Qed.

Lemma record_fields (self : Scraper.t) (idx : nat) (item r : json) :
  Scraper.attr_record self idx item = Ok r ->
  exists name type description tags,
    Scraper.attr_id_field self idx "name" = Ok name /\
    ResponseParsers.parse_business_description item = Ok description /\
    ResponseParsers.parse_business_tags item = Ok tags /\
    getitem r "name" = Ok name /\
    getitem r "type" = Ok type /\
    getitem r "description" = Ok (JStr description) /\
    getitem r "tags" = Ok (JList (map JStr tags)).
Proof.
  unfold Scraper.attr_record.
  destruct (Scraper.attr_id_field self idx "id") as [id|]; cbn [mbind result_bind]; [|done].
  destruct (Scraper.attr_id_field self idx "name") as [name|];
    cbn [mbind result_bind]; [|done].
  unfold Scraper.parse_attr_details_response.
  destruct (x ← result0 item; x ← getitem x "container"; x ← getitem x "jsonLd";
            json_loads x) as [general|]; cbn [mbind result_bind]; [|done].
  destruct (Scraper.extract_lat_lng self item) as [latitude longitude].
  destruct (dict_get general "@type" (JStr "")) as [type|]; cbn [mbind result_bind]; [|done].
  destruct (x ← dict_get general "address" (JDict []); dict_get x "streetAddress" (JStr ""))
    as [address|]; cbn [mbind result_bind]; [|done].
  destruct (x ← dict_get general "address" (JDict []); dict_get x "postalCode" (JStr ""))
    as [zip_code|]; cbn [mbind result_bind]; [|done].
  destruct (x ← dict_get general "aggregateRating" (JDict []);
            dict_get x "ratingValue" (JFloat Config.DEFAULT_RATING))
    as [rating|]; cbn [mbind result_bind]; [|done].
  destruct (x ← dict_get general "aggregateRating" (JDict []);
            dict_get x "reviewCount" (JInt Config.DEFAULT_REVIEW_COUNT))
    as [review_count|]; cbn [mbind result_bind]; [|done].
  destruct (dict_get general "image" (JStr "")) as [image_url|];
    cbn [mbind result_bind]; [|done].
  destruct (ResponseParsers.parse_business_description item) as [description|];
    cbn [mbind result_bind]; [|done].
  destruct (ResponseParsers.parse_activity_duration item) as [activity_duration|];
    cbn [mbind result_bind]; [|done].
  destruct (ResponseParsers.parse_business_website item) as [website|];
    cbn [mbind result_bind]; [|done].
  destruct (ResponseParsers.parse_business_tags item) as [tags|];
    cbn [mbind result_bind]; [|done].
  destruct (ResponseParsers.parse_business_hours item) as [hours|];
    cbn [mbind result_bind]; [|done].
  destruct (Scraper.convert_unless_none py_float rating) as [rating'|];
    cbn [mbind result_bind]; [|done].
  destruct (Scraper.convert_unless_none py_int review_count) as [review_count'|];
    cbn [mbind result_bind mret result_ret]; [|done].
  intros [= <-]. by exists name, type, description, tags.
Qed.
End RecordPrompt.

(** X22: a record that [format_attr_details] builds has every key the
    prompt of the embedding reads, so that the prompt never fails for a
    missing key: it is the name of the listing, the type, the description and
    the tags joined by commas, separated by spaces, and fails, with a
    [TypeError], only when the name or the type is not a string. *)
Theorem prompt_of_scraper_record {L : PyLib}
  (self : Scraper.t) (idx : nat) (item r : json) :
  Scraper.attr_record self idx item = Ok r ->
  Embedding.prompt_of r <> Raise KeyError /\
  exists name type description tags,
    Scraper.attr_id_field self idx "name" = Ok name /\
    getitem r "type" = Ok type /\
    ResponseParsers.parse_business_description item = Ok description /\
    ResponseParsers.parse_business_tags item = Ok tags /\
    Embedding.prompt_of r
    = (name ← str_of name; type ← str_of type;
       mret (str_join " " [name; type; description; str_join ", " tags])).
Proof.
  intros Hrec.
  destruct (record_fields self idx item r Hrec)
    as (name & type & description & tags & Hname & Hdesc & Htags & Hn & Ht & Hd & Hg).
  assert (Hprompt : Embedding.prompt_of r
                    = (name ← str_of name; type ← str_of type;
                       mret (str_join " " [name; type; description; str_join ", " tags]))).
  { unfold Embedding.prompt_of. rewrite Hn, Ht, Hd, Hg. cbn [mbind result_bind].
    unfold join_json. cbn [iter mbind result_bind]. rewrite str_of_strings.
    cbn [mbind result_bind mret result_ret mapM].
    destruct (str_of name) as [n|]; cbn [mbind result_bind]; [|done].
    by destruct (str_of type) as [t|]. }
  split.
  - rewrite Hprompt. destruct name; try done; cbn [str_of mbind result_bind];
      by destruct type.
  - by exists name, type, description, tags.
Qed.

Lemma prompt_of_scraper_record_witness :
  exists r,
    @Scraper.attr_record standin_lib (paris (Some three_ids)) 1 payload_complete = Ok r /\
    Embedding.prompt_of r <> Raise KeyError.
Proof.
  eexists. split; [reflexivity|].
  exact (proj1 (@prompt_of_scraper_record standin_lib (paris (Some three_ids)) 1
                  payload_complete _ eq_refl)).
Defined.

(** ** Uploading without overwriting: a retry within a retry *)

Section NestedRetry.
Context {V : Type}.
Variable self : BT.t.

Lemma wrapped_loop_ext (f g : nat -> result V) (idxs : list Z) : forall log,
  (forall k, f k = g k) ->
  BT.wrapped_loop self f idxs log = BT.wrapped_loop self g idxs log.
Proof.
  intros log Hext. revert log. induction idxs as [|i idxs IH]; intros log; [done|].
  cbn [BT.wrapped_loop]. rewrite Hext.
  destruct (g (calls log)) as [v|err]; [done|].
  destruct (catches (BT.error self) err); [|done].
  destruct (i =? BT.retries self); [done|]. apply IH.
Qed.

Lemma wrapped_ext (f g : nat -> result V) :
  (forall k, f k = g k) -> BT.wrapped self f = BT.wrapped self g.
Proof. intros Hext. by apply wrapped_loop_ext. Qed.

Lemma wrapped_loop_calls (func : nat -> result V) (idxs : list Z) : forall log,
  (calls (BT.wrapped_loop self func idxs log).2 <= calls log + length idxs)%nat.
Proof.
  induction idxs as [|i idxs IH]; intros log; cbn [BT.wrapped_loop length]; [cbn; lia|].
  destruct (func (calls log)) as [v|err]; [cbn; lia|].
  destruct (catches (BT.error self) err); [|cbn; lia].
  destruct (i =? BT.retries self); [cbn; lia|].
  specialize (IH (time_sleep (BT.wait self) (called log))). cbn in IH. lia.
Qed.

Lemma wrapped_calls (func : nat -> result V) :
  (calls (BT.wrapped self func).2 <= Z.to_nat (BT.retries self + 1))%nat.
Proof.
  unfold BT.wrapped. pose proof (wrapped_loop_calls func
    (py_range1 (BT.retries self + 1)) {| calls := 0; slept := [] |}) as Hle.
  unfold py_range1 in *. rewrite length_map, length_seq in Hle. cbn in Hle. lia.
Qed.
End NestedRetry.

Section SumBound.
Lemma sum_list_bounded (l : list nat) (b : nat) :
  Forall (fun n => (n <= b)%nat) l -> (sum_list l <= length l * b)%nat.
Proof. induction 1 as [|n l Hn _ IH]; cbn; lia. Qed.

Lemma sum_list_const {A} (f : A -> nat) (l : list A) (b : nat) :
  (forall x, f x = b) -> sum_list (map f l) = (length l * b)%nat.
Proof. intros Hf. induction l as [|x l IH]; cbn; [done|]. rewrite Hf, IH. lia. Qed.
End SumBound.

(** X23: [upload_file] with [overwrite=False] calls the decorated
    [check_file_exists] inside its own decorated body, so that the retries
    multiply.  Whatever the bucket does, the body is invoked at most 101
    times and [blob.exists()] is called at most 2121 times; a bucket that
    always answers [TooManyRequests] reaches both bounds, and nothing is
    uploaded.  When the file exists, the [AssertionError] is raised at once:
    it is not retried and nothing is uploaded.  With [overwrite=True] the
    bucket is never asked whether the file exists. *)
Theorem upload_retries_multiply
  (blob_exists : nat -> nat -> result bool) (dumps : result unit)
  (upload_from_string : nat -> result unit) :
  let upload_file := GcpUpload.upload_file blob_exists dumps upload_from_string in
  let exists_calls := GcpUpload.exists_calls blob_exists dumps upload_from_string in
  let upload_calls := GcpUpload.upload_calls blob_exists dumps upload_from_string in
  (forall overwrite,
     (calls (upload_file overwrite).2 <= 101)%nat /\
     (exists_calls overwrite <= 2121)%nat) /\
  ((forall k j, blob_exists k j = Raise TooManyRequests) ->
   upload_file false
   = (Raise TooManyRequests, {| calls := 101; slept := repeat (2 # 10)%Q 101 |}) /\
   exists_calls false = 2121%nat /\
   upload_calls false = 0%nat) /\
  (blob_exists 0%nat 0%nat = Ok true ->
   upload_file false = (Raise AssertionError, {| calls := 1; slept := [] |}) /\
   exists_calls false = 1%nat /\
   upload_calls false = 0%nat) /\
  exists_calls true = 0%nat.
Proof.
  intros upload_file exists_calls upload_calls.
  subst upload_file exists_calls upload_calls. split; [|split; [|split]].
  - intros overwrite.
    pose proof (wrapped_calls GcpClient.upload_file_decorator
                  (fun k => (GcpUpload.body blob_exists dumps upload_from_string
                               overwrite k).1)) as Hout.
    change (Z.to_nat (BT.retries GcpClient.upload_file_decorator + 1)) with 101%nat in Hout.
    split; [exact Hout|].
    unfold GcpUpload.exists_calls, GcpUpload.body_logs.
    fold (GcpUpload.upload_file blob_exists dumps upload_from_string overwrite) in Hout.
    set (n := calls (GcpUpload.upload_file blob_exists dumps upload_from_string overwrite).2)
      in *.
    clearbody n.
    etrans; [apply (sum_list_bounded _ 21)|].
    + rewrite !Forall_fmap. apply Forall_forall. intros k _. cbn.
      unfold GcpUpload.body, GcpUpload.upload_tail.
      destruct overwrite.
      { destruct dumps; cbn; lia. }
      pose proof (wrapped_calls GcpClient.check_file_exists_decorator (blob_exists k))
        as Hin.
      change (Z.to_nat (BT.retries GcpClient.check_file_exists_decorator + 1))
        with 21%nat in Hin.
      unfold GcpUpload.check_file_exists.
      destruct (BT.wrapped GcpClient.check_file_exists_decorator (blob_exists k))
        as [[found|err] log]; cbn [snd] in Hin.
      * destruct (GcpUpload.truthy found); [done|]. by destruct dumps.
      * done.
    + rewrite !length_map, length_seq. lia.
  - intros Hthrottled.
    assert (Hcheck : forall k,
              GcpUpload.check_file_exists blob_exists k
              = (Raise TooManyRequests,
                 {| calls := 21; slept := repeat (2 # 10)%Q 21 |})).
    { intros k. unfold GcpUpload.check_file_exists.
      rewrite (wrapped_ext _ _ (fun _ => Raise TooManyRequests)) by apply Hthrottled.
      reflexivity. }
    assert (Hbody : forall k,
              GcpUpload.body blob_exists dumps upload_from_string false k
              = (Raise TooManyRequests,
                 GcpUpload.mkBodyLog {| calls := 21; slept := repeat (2 # 10)%Q 21 |} 0)).
    { intros k. unfold GcpUpload.body. by rewrite Hcheck. }
    assert (Hrun : GcpUpload.upload_file blob_exists dumps upload_from_string false
                   = (Raise TooManyRequests,
                      {| calls := 101; slept := repeat (2 # 10)%Q 101 |})).
    { unfold GcpUpload.upload_file.
      rewrite (wrapped_ext _ _ (fun _ => Raise TooManyRequests))
        by (intros k; by rewrite Hbody).
      reflexivity. }
    split; [exact Hrun|].
    unfold GcpUpload.exists_calls, GcpUpload.upload_calls, GcpUpload.body_logs.
    rewrite Hrun. cbn [snd calls]. rewrite !map_map. split.
    + rewrite (sum_list_const _ _ 21); [by rewrite length_seq|].
      intros k. by rewrite Hbody.
    + rewrite (sum_list_const _ _ 0); [by rewrite length_seq|].
      intros k. by rewrite Hbody.
  - intros Hexists.
    assert (Hbody : GcpUpload.body blob_exists dumps upload_from_string false 0
                    = (Raise AssertionError,
                       GcpUpload.mkBodyLog {| calls := 1; slept := [] |} 0)).
    { unfold GcpUpload.body, GcpUpload.check_file_exists, BT.wrapped.
      change (py_range1 (BT.retries GcpClient.check_file_exists_decorator + 1))
        with (0 :: map Z.of_nat (seq 1 20)).
      cbn [BT.wrapped_loop calls]. by rewrite Hexists. }
    assert (Hrun : GcpUpload.upload_file blob_exists dumps upload_from_string false
                   = (Raise AssertionError, {| calls := 1; slept := [] |})).
    { unfold GcpUpload.upload_file, BT.wrapped.
      change (py_range1 (BT.retries GcpClient.upload_file_decorator + 1))
        with (0 :: map Z.of_nat (seq 1 100)).
      cbn [BT.wrapped_loop calls]. by rewrite Hbody. }
    split; [exact Hrun|].
    unfold GcpUpload.exists_calls, GcpUpload.upload_calls, GcpUpload.body_logs.
    rewrite Hrun. cbn [snd calls seq map]. by rewrite Hbody.
  - unfold GcpUpload.exists_calls, GcpUpload.body_logs. rewrite map_map.
    rewrite (sum_list_const _ _ 0); [lia|].
    intros k. unfold GcpUpload.body, GcpUpload.upload_tail. by destruct dumps.
Qed.

Lemma upload_retries_multiply_witness :
  GcpUpload.exists_calls throttled_bucket (Ok tt) (fun _ => Ok tt) false = 2121%nat /\
  GcpUpload.upload_file bucket_with_file (Ok tt) (fun _ => Ok tt) false
  = (Raise AssertionError, {| calls := 1; slept := [] |}).
Proof.
  pose proof (upload_retries_multiply throttled_bucket (Ok tt) (fun _ => Ok tt))
    as (_ & Hthrottled & _).
  pose proof (upload_retries_multiply bucket_with_file (Ok tt) (fun _ => Ok tt))
    as (_ & _ & Hexists & _).
  split.
  - by apply Hthrottled.
  - by apply Hexists.
Defined.

(** ** Upserting into the index *)

Section Upsert.
Variable upsert : list json -> result unit.
Implicit Types (batches sent pre : list (list json)).

Lemma upsert_loop_stops batches : forall sent,
  exists pre,
    (PineconeUpsert.upsert_loop upsert batches sent).2 = sent ++ pre /\
    pre `prefix_of` batches /\
    ((PineconeUpsert.upsert_loop upsert batches sent).1 = Ok tt ->
     pre = batches /\ Forall (fun b => upsert b = Ok tt) pre) /\
    (forall err, (PineconeUpsert.upsert_loop upsert batches sent).1 = Raise err ->
       exists done b, pre = done ++ [b] /\
         Forall (fun b => upsert b = Ok tt) done /\ upsert b = Raise err).
Proof.
  induction batches as [|b batches IH]; intros sent; cbn [PineconeUpsert.upsert_loop].
  - exists []. rewrite app_nil_r. repeat split; [done|by constructor|done].
  - destruct (upsert b) as [[]|err] eqn:Hb.
    + destruct (IH (sent ++ [b])) as (pre & Hsent & Hpre & Hok & Hfail).
      exists (b :: pre). rewrite Hsent, <- app_assoc. split; [done|].
      split; [by apply (prefix_app [b])|]. split.
      * intros Hres. destruct (Hok Hres) as [-> Hall]. split; [done|by constructor].
      * intros err Hres. destruct (Hfail err Hres) as (done & b' & -> & Hall & Hb').
        exists (b :: done), b'. split; [done|]. split; [by constructor|done].
    + exists [b]. split; [done|]. split; [by apply (prefix_app_r [b] [b]) |].
      split; [done|]. intros err' [= <-]. exists [], b. by split; [|split].
Qed.

Lemma chunks_prefix {A} (xs : list A) (n m : nat) (pre : list (list A)) :
  pre `prefix_of` chunks xs n m -> pre = chunks xs n (length pre).
Proof.
  intros [post Hpost]. assert (Hlen : (length pre <= m)%nat).
  { apply (f_equal length) in Hpost. rewrite chunks_length, length_app in Hpost. lia. }
  assert (Htake : pre = take (length pre) (chunks xs n m)).
  { by rewrite Hpost, take_app_length. }
  rewrite Htake at 1. unfold chunks. rewrite firstn_map, take_seq.
  by replace (length pre `min` m)%nat with (length pre) by lia.
Qed.
End Upsert.

(** X24: [pinecone_upsert_data] hands the index the batches of 100 in the
    order of the data and stops at the first batch the index refuses: the
    batches handed over are the first ones of the data, every one before the
    last was accepted, and the error of the last is raised; nothing is
    retried and nothing after it is sent.  When no batch is refused, the
    batches handed over make up the data. *)
Theorem upsert_stops_at_first_refusal
  (upsert : list json -> result unit) (pinecone_data : list json) :
  let run := PineconeUpsert.pinecone_upsert_data upsert pinecone_data in
  exists batches,
    Utils.batch_data pinecone_data Config.PINECONE_UPSERT_BATCH = Ok batches /\
    run.2 `prefix_of` batches /\
    concat run.2 = take (length run.2 * 100) pinecone_data /\
    (run.1 = Ok tt ->
     concat run.2 = pinecone_data /\ Forall (fun b => upsert b = Ok tt) run.2) /\
    (forall err, run.1 = Raise err ->
       exists done b, run.2 = done ++ [b] /\
         Forall (fun b => upsert b = Ok tt) done /\ upsert b = Raise err).
Proof.
  intros run. subst run. unfold PineconeUpsert.pinecone_upsert_data.
  change Config.PINECONE_UPSERT_BATCH with (Z.of_nat 100).
  rewrite batch_data_chunks by lia.
  set (batches := chunks pinecone_data 100 (batch_count pinecone_data 100)).
  destruct (upsert_loop_stops upsert batches []) as (pre & Hsent & Hpre & Hok & Hfail).
  rewrite Hsent. cbn [app]. exists batches. split; [done|]. split; [done|].
  pose proof (chunks_prefix _ _ _ _ Hpre) as Hchunks. split; [|split].
  - rewrite Hchunks at 1. apply chunks_concat.
  - intros Hres. destruct (Hok Hres) as [-> Hall]. split; [|done].
    unfold batches. rewrite chunks_concat. apply take_ge.
    pose proof (batch_count_bounds pinecone_data 100 ltac:(lia)) as [Hlb _]. lia.
  - exact Hfail.
Qed.
